(** * Cardboard SDK: the Vulkan distortion renderer

    A shallow embedding of
    [sdk/rendering/android/vulkan_distortion_renderer.cc]: the class
    [VulkanDistortionRenderer] (constructor, destructor, [SetMesh],
    [RenderEyeToDisplay] and every private helper) and the C factory
    [CardboardVulkanDistortionRenderer_create].

    The Vulkan device is a recording double: it hands out fresh non-null
    handles, keeps the table of live objects with the contents of every
    device memory, and appends each entry point called to a trace.  The
    renderer's methods are written in a small state-and-failure monad over
    the pair (object, device); [None] stands for undefined behaviour of the
    C++ program (a read outside an array, signed overflow). *)

From Stdlib Require Import ZArith List Lia.
From Stdlib Require Import Floats.SpecFloat.
From Stdlib Require Import Strings.Byte.
From stdpp Require Import base option list gmap strings.

Local Open Scope Z_scope.

(** ** Fixed-width integers *)

Module CInt.

Definition INT_MIN : Z := - 2 ^ 31.
Definition INT_MAX : Z := 2 ^ 31 - 1.

Definition in_int (z : Z) : bool := (INT_MIN <=? z) && (z <=? INT_MAX).

(** [static_cast<uint32_t>], [static_cast<uint16_t>], conversion to
    [size_t]/[VkDeviceSize]: reduction modulo the width. *)
Definition to_uint16 (z : Z) : Z := z mod 2 ^ 16.
Definition to_uint32 (z : Z) : Z := z mod 2 ^ 32.
Definition to_uint64 (z : Z) : Z := z mod 2 ^ 64.

(** [static_cast<int32_t>] of an unsigned value: two's complement. *)
Definition to_int32 (z : Z) : Z :=
  let u := z mod 2 ^ 32 in if u <? 2 ^ 31 then u else u - 2 ^ 32.

(** Signed [int] arithmetic: overflow is undefined. *)
Definition checked (z : Z) : option Z := if in_int z then Some z else None.

End CInt.

(** ** Single-precision floats

    A C [float] is a binary32 value, [spec_float] at precision 24 and
    maximal exponent 128.  The renderer never computes with floats: it
    converts integers to [float] (round to nearest even) and copies floats
    into device memory. *)

Module F32.

Definition prec : Z := 24.
Definition emax : Z := 128.

Definition t := spec_float.

(** Conversion of an integer to [float]. *)
Definition of_Z (z : Z) : t := binary_normalize prec emax z 0 false.

Definition zero : t := S754_zero false.
Definition one : t := of_Z 1.

(** The IEEE 754 interchange encoding (one quiet NaN). *)
Definition sign_bit (s : bool) : Z := if s then 2 ^ 31 else 0.

Definition bits (f : t) : Z :=
  match f with
  | S754_zero s => sign_bit s
  | S754_infinity s => sign_bit s + 255 * 2 ^ 23
  | S754_nan => 255 * 2 ^ 23 + 2 ^ 22
  | S754_finite s m e =>
      sign_bit s +
      (if Z.pos m <? 2 ^ 23 then Z.pos m
       else (e + 150) * 2 ^ 23 + (Z.pos m - 2 ^ 23))
  end.

End F32.

(** ** Bytes in memory (little endian, as on every Android target) *)

Module Mem.

Definition byte_of_Z (z : Z) : byte :=
  match Byte.of_N (Z.to_N (z mod 256)) with
  | Some b => b
  | None => Byte.x00
  end.

Definition Z_of_byte (b : byte) : Z := Z.of_N (Byte.to_N b).

Fixpoint le_bytes (n : nat) (z : Z) : list byte :=
  match n with
  | O => []
  | S n' => byte_of_Z z :: le_bytes n' (z / 256)
  end.

Fixpoint le_value (bs : list byte) : Z :=
  match bs with
  | [] => 0
  | b :: bs' => Z_of_byte b + 256 * le_value bs'
  end.

Definition float_bytes (f : F32.t) : list byte := le_bytes 4 (F32.bits f).
Definition uint16_bytes (z : Z) : list byte := le_bytes 2 z.

(** [memcpy(dst, src, n)] into a mapping of [old]: the first [n] bytes
    are replaced. *)
Definition memcpy (old src : list byte) (n : Z) : list byte :=
  take (Z.to_nat n) src ++ drop (Z.to_nat n) old.

End Mem.

(** ** The Vulkan device double *)

Module Vk.

Abbreviation handle := Z (only parsing).

Definition VK_NULL_HANDLE : handle := 0.

Inductive VkResult := VK_SUCCESS | VK_ERROR (code : Z).

Definition VK_BUFFER_USAGE_UNIFORM_BUFFER_BIT : Z := 0x10.
Definition VK_BUFFER_USAGE_INDEX_BUFFER_BIT : Z := 0x40.
Definition VK_BUFFER_USAGE_VERTEX_BUFFER_BIT : Z := 0x80.
Definition VK_MEMORY_PROPERTY_HOST_VISIBLE_BIT : Z := 0x2.
Definition VK_MEMORY_PROPERTY_HOST_COHERENT_BIT : Z := 0x4.
Definition VK_INDEX_TYPE_UINT16 : Z := 0.

Record VkViewport := mkViewport {
  vp_x : F32.t; vp_y : F32.t; vp_width : F32.t; vp_height : F32.t;
  vp_minDepth : F32.t; vp_maxDepth : F32.t }.

Record VkOffset2D := mkOffset2D { off_x : Z; off_y : Z }.
Record VkExtent2D := mkExtent2D { ext_width : Z; ext_height : Z }.
Record VkRect2D := mkRect2D { offset : VkOffset2D; extent : VkExtent2D }.

Inductive DescriptorInfo :=
| ImageInfo (sampler imageView : handle)
| BufferInfo (buffer : handle) (boffset range : Z).

Record VkWriteDescriptorSet := mkWrite {
  dstSet : handle; dstBinding : Z; info : DescriptorInfo }.

(** The two precompiled SPIR-V blobs of [rendering/android/shaders]. *)
Inductive Shader := distortion_vert | distortion_frag.

(** What the device knows about a live object. *)
Inductive Object :=
| OShaderModule
| ODescriptorSetLayout
| OPipelineLayout (set_layout : handle)
| OSampler
| ODescriptorPool (max_sets : Z)
| ODescriptorSet (pool : handle) (bindings : list (Z * DescriptorInfo))
| OPipeline (layout render_pass : handle)
| OBuffer (size usage : Z) (memory : handle)
| OMemory (size type_index : Z) (contents : list byte)
| OImageView (image : handle).

(** The entry points, as they appear in the trace. *)
Inductive Call :=
| vkCreateShaderModule (code : Shader) (out : handle)
| vkDestroyShaderModule (h : handle)
| vkCreateDescriptorSetLayout (out : handle)
| vkDestroyDescriptorSetLayout (h : handle)
| vkCreatePipelineLayout (set_layout out : handle)
| vkDestroyPipelineLayout (h : handle)
| vkGetPhysicalDeviceProperties (phys : handle)
| vkCreateSampler (out : handle)
| vkDestroySampler (h : handle)
| vkCreateDescriptorPool (max_sets : Z) (out : handle)
| vkDestroyDescriptorPool (h : handle)
| vkAllocateDescriptorSets (pool : handle) (layouts out : list handle)
| vkUpdateDescriptorSets (writes : list VkWriteDescriptorSet)
| vkCreateGraphicsPipelines (layout render_pass vs fs out : handle)
| vkDestroyPipeline (h : handle)
| vkCreateBuffer (size usage : Z) (out : handle)
| vkDestroyBuffer (h : handle)
| vkGetBufferMemoryRequirements (buffer : handle)
| vkGetPhysicalDeviceMemoryProperties (phys : handle)
| vkAllocateMemory (size type_index : Z) (out : handle)
| vkFreeMemory (h : handle)
| vkBindBufferMemory (buffer memory : handle) (moffset : Z)
| vkMapMemory (memory : handle) (moffset size : Z)
| host_memcpy (memory : handle) (src : list byte) (size : Z)
| vkUnmapMemory (memory : handle)
| vkCreateImageView (image out : handle)
| vkDestroyImageView (h : handle)
| vkGetSwapchainImagesKHR (swapchain : handle) (fill : bool)
| vkCmdBindPipeline (cb pipeline : handle)
| vkCmdSetViewport (cb : handle) (viewport : VkViewport)
| vkCmdSetScissor (cb : handle) (scissor : VkRect2D)
| vkCmdBindVertexBuffers (cb buffer : handle) (boffset : Z)
| vkCmdBindIndexBuffer (cb buffer : handle) (boffset index_type : Z)
| vkCmdBindDescriptorSets (cb layout set : handle)
| vkCmdDrawIndexed (cb : handle)
    (index_count instance_count first_index vertex_offset first_instance : Z).

Record Device := mkDevice {
  next_handle : handle;
  objects : gmap Z Object;
  calls : list Call;
  swapchains : gmap Z (list Z);
  memory_types : list Z;
  memory_type_bits : Z }.

Definition update (d : Device) (n : handle) (o : gmap Z Object)
    (c : list Call) : Device :=
  {| next_handle := n; objects := o; calls := c;
     swapchains := swapchains d; memory_types := memory_types d;
     memory_type_bits := memory_type_bits d |}.

(** A call that changes nothing but the trace. *)
Definition record (c : Call) (d : Device) : Device :=
  update d (next_handle d) (objects d) (calls d ++ [c]).

(** A successful creation: a fresh handle for a new live object. *)
Definition create (o : Object) (c : handle -> Call) (d : Device)
    : VkResult * handle * Device :=
  let h := next_handle d in
  (VK_SUCCESS, h, update d (h + 1) (<[h := o]> (objects d)) (calls d ++ [c h])).

(** A destruction: the object, if it was live, is gone. *)
Definition destroy (h : handle) (c : Call) (d : Device) : Device :=
  update d (next_handle d) (delete h (objects d)) (calls d ++ [c]).

Definition CreateShaderModule (code : Shader) :=
  create OShaderModule (vkCreateShaderModule code).
Definition DestroyShaderModule (h : handle) :=
  destroy h (vkDestroyShaderModule h).
Definition CreateDescriptorSetLayout :=
  create ODescriptorSetLayout vkCreateDescriptorSetLayout.
Definition DestroyDescriptorSetLayout (h : handle) :=
  destroy h (vkDestroyDescriptorSetLayout h).
Definition CreatePipelineLayout (set_layout : handle) :=
  create (OPipelineLayout set_layout) (vkCreatePipelineLayout set_layout).
Definition DestroyPipelineLayout (h : handle) :=
  destroy h (vkDestroyPipelineLayout h).
Definition CreateSampler := create OSampler vkCreateSampler.
Definition DestroySampler (h : handle) := destroy h (vkDestroySampler h).
Definition CreateDescriptorPool (max_sets : Z) :=
  create (ODescriptorPool max_sets) (vkCreateDescriptorPool max_sets).
Definition CreateGraphicsPipelines (layout render_pass vs fs : handle) :=
  create (OPipeline layout render_pass)
         (vkCreateGraphicsPipelines layout render_pass vs fs).
Definition DestroyPipeline (h : handle) := destroy h (vkDestroyPipeline h).
Definition CreateBuffer (size usage : Z) :=
  create (OBuffer size usage VK_NULL_HANDLE) (vkCreateBuffer size usage).
Definition DestroyBuffer (h : handle) := destroy h (vkDestroyBuffer h).
Definition FreeMemory (h : handle) := destroy h (vkFreeMemory h).
Definition CreateImageView (image : handle) :=
  create (OImageView image) (vkCreateImageView image).
Definition DestroyImageView (h : handle) := destroy h (vkDestroyImageView h).

(** Device memory starts zeroed in the double. *)
Definition AllocateMemory (size type_index : Z) :=
  create (OMemory size type_index (replicate (Z.to_nat size) Byte.x00))
         (vkAllocateMemory size type_index).

(** Destroying a pool frees the sets allocated from it. *)
Definition in_pool (pool : handle) (o : Object) : bool :=
  match o with
  | ODescriptorSet p _ => bool_decide (p = pool)
  | _ => false
  end.

Definition DestroyDescriptorPool (pool : handle) (d : Device) : Device :=
  update d (next_handle d)
    (filter (fun kv => in_pool pool kv.2 = false) (delete pool (objects d)))
    (calls d ++ [vkDestroyDescriptorPool pool]).

(** [n] consecutive fresh descriptor sets. *)
Fixpoint fresh_sets (pool : handle) (h : handle) (n : nat)
    (o : gmap Z Object) : list handle * gmap Z Object :=
  match n with
  | O => ([], o)
  | S n' =>
      let '(hs, o') := fresh_sets pool (h + 1) n' (<[h := ODescriptorSet pool []]> o) in
      (h :: hs, o')
  end.

Definition AllocateDescriptorSets (pool : handle) (layouts : list handle)
    (d : Device) : VkResult * list handle * Device :=
  let '(hs, o) := fresh_sets pool (next_handle d) (length layouts) (objects d) in
  (VK_SUCCESS, hs,
   update d (next_handle d + Z.of_nat (length layouts)) o
          (calls d ++ [vkAllocateDescriptorSets pool layouts hs])).

Fixpoint set_binding (b : Z) (i : DescriptorInfo)
    (l : list (Z * DescriptorInfo)) : list (Z * DescriptorInfo) :=
  match l with
  | [] => [(b, i)]
  | (b', i') :: l' =>
      if bool_decide (b' = b) then (b, i) :: l' else (b', i') :: set_binding b i l'
  end.

Definition apply_write (o : gmap Z Object) (w : VkWriteDescriptorSet)
    : gmap Z Object :=
  match o !! dstSet w with
  | Some (ODescriptorSet p bs) =>
      <[dstSet w := ODescriptorSet p (set_binding (dstBinding w) (info w) bs)]> o
  | _ => o
  end.

Definition UpdateDescriptorSets (writes : list VkWriteDescriptorSet)
    (d : Device) : Device :=
  update d (next_handle d) (foldl apply_write (objects d) writes)
         (calls d ++ [vkUpdateDescriptorSets writes]).

(** Requirements of a buffer: its own size, any memory type the device
    allows for buffers ([size], [memoryTypeBits]). *)
Definition GetBufferMemoryRequirements (buffer : handle) (d : Device)
    : (Z * Z) * Device :=
  let size := match objects d !! buffer with
              | Some (OBuffer s _ _) => s
              | _ => 0
              end in
  ((size, memory_type_bits d), record (vkGetBufferMemoryRequirements buffer) d).

(** The property flags of the memory types, in order. *)
Definition GetPhysicalDeviceMemoryProperties (phys : handle) (d : Device)
    : list Z * Device :=
  (memory_types d, record (vkGetPhysicalDeviceMemoryProperties phys) d).

Definition GetPhysicalDeviceProperties (phys : handle) (d : Device) : Device :=
  record (vkGetPhysicalDeviceProperties phys) d.

Definition BindBufferMemory (buffer memory : handle) (moffset : Z)
    (d : Device) : Device :=
  let o := match objects d !! buffer with
           | Some (OBuffer s u _) => <[buffer := OBuffer s u memory]> (objects d)
           | _ => objects d
           end in
  update d (next_handle d) o (calls d ++ [vkBindBufferMemory buffer memory moffset]).

(** Mapping yields a pointer to the memory: the memory's handle. *)
Definition MapMemory (memory : handle) (moffset size : Z) (d : Device)
    : VkResult * handle * Device :=
  (VK_SUCCESS, memory, record (vkMapMemory memory moffset size) d).

Definition UnmapMemory (memory : handle) (d : Device) : Device :=
  record (vkUnmapMemory memory) d.

(** [memcpy(data, src, size)] through a mapping. *)
Definition host_write (data : handle) (src : list byte) (size : Z)
    (d : Device) : Device :=
  let o := match objects d !! data with
           | Some (OMemory s t old) =>
               <[data := OMemory s t (Mem.memcpy old src size)]> (objects d)
           | _ => objects d
           end in
  update d (next_handle d) o (calls d ++ [host_memcpy data src size]).

Definition images_of (swapchain : handle) (d : Device) : list Z :=
  default [] (swapchains d !! swapchain).

(** [vkGetSwapchainImagesKHR] with a null array: the count. *)
Definition GetSwapchainImagesCount (swapchain : handle) (d : Device)
    : VkResult * Z * Device :=
  (VK_SUCCESS, Z.of_nat (length (images_of swapchain d)),
   record (vkGetSwapchainImagesKHR swapchain false) d).

(** [vkGetSwapchainImagesKHR] with an array of [count] entries: the
    images written and the new count. *)
Definition GetSwapchainImages (swapchain : handle) (count : Z) (d : Device)
    : VkResult * (Z * list Z) * Device :=
  let imgs := take (Z.to_nat count) (images_of swapchain d) in
  (VK_SUCCESS, (Z.of_nat (length imgs), imgs),
   record (vkGetSwapchainImagesKHR swapchain true) d).

Definition Cmd (c : Call) (d : Device) : Device := record c d.

(** The content of a device memory and the size of a buffer. *)
Definition memory_contents (d : Device) (m : handle) : option (list byte) :=
  match objects d !! m with
  | Some (OMemory _ _ bs) => Some bs
  | _ => None
  end.

Definition buffer_size (d : Device) (b : handle) : option Z :=
  match objects d !! b with
  | Some (OBuffer s _ _) => Some s
  | _ => None
  end.

Definition buffer_memory (d : Device) (b : handle) : option handle :=
  match objects d !! b with
  | Some (OBuffer _ _ m) => Some m
  | _ => None
  end.

Definition is_draw (c : Call) : bool :=
  match c with
  | vkCmdBindPipeline _ _ | vkCmdSetViewport _ _ | vkCmdSetScissor _ _
  | vkCmdBindVertexBuffers _ _ _ | vkCmdBindIndexBuffer _ _ _ _
  | vkCmdBindDescriptorSets _ _ _ | vkCmdDrawIndexed _ _ _ _ _ _ => true
  | _ => false
  end.

End Vk.

(** ** Types of the public interface ([include/cardboard.h]) *)

Inductive CardboardEye := kLeft | kRight.

#[global] Instance CardboardEye_eq_dec : EqDecision CardboardEye.
Proof. solve_decision. Defined.

Definition other_eye (eye : CardboardEye) : CardboardEye :=
  match eye with kLeft => kRight | kRight => kLeft end.

(** A distortion mesh: two flat float arrays of [2 * n_vertices] entries
    and an array of [n_indices] [int]s, behind pointers. *)
Record CardboardMesh := mkMesh {
  indices : list Z;
  n_indices : Z;
  vertices : list F32.t;
  uvs : list F32.t;
  n_vertices : Z }.

Record CardboardEyeTextureDescription := mkEyeTexture {
  texture : Z;
  left_u : F32.t;
  right_u : F32.t;
  top_v : F32.t;
  bottom_v : F32.t }.

(** The configuration and the target, with the handles their pointer
    fields point to. *)
Record CardboardVulkanDistortionRendererConfig := mkConfig {
  physical_device : Z;
  logical_device : Z;
  vk_swapchain : Z }.

Record CardboardVulkanDistortionRendererTarget := mkTarget {
  vk_render_pass : Z;
  vk_command_buffer : Z;
  swapchain_image_index : Z }.

(** ** Types of the translation unit *)

Record UniformBufferObject := mkUbo {
  ubo_left_u : F32.t;
  ubo_right_u : F32.t;
  ubo_top_v : F32.t;
  ubo_bottom_v : F32.t }.

Record Vertex := mkVertex {
  pos_x : F32.t;
  pos_y : F32.t;
  tex_u : F32.t;
  tex_v : F32.t }.

Definition sizeof_float : Z := 4.
Definition sizeof_uint16_t : Z := 2.
Definition sizeof_Vertex : Z := 4 * sizeof_float.
Definition sizeof_UniformBufferObject : Z := 4 * sizeof_float.

(** Object representations (no padding: four floats each). *)
Definition Vertex_bytes (v : Vertex) : list byte :=
  Mem.float_bytes (pos_x v) ++ Mem.float_bytes (pos_y v) ++
  Mem.float_bytes (tex_u v) ++ Mem.float_bytes (tex_v v).

Definition UniformBufferObject_bytes (u : UniformBufferObject) : list byte :=
  Mem.float_bytes (ubo_left_u u) ++ Mem.float_bytes (ubo_right_u u) ++
  Mem.float_bytes (ubo_top_v u) ++ Mem.float_bytes (ubo_bottom_v u).

(** A value-initialised [Vertex], as [std::vector::resize] makes them. *)
Definition Vertex_zero : Vertex := mkVertex F32.zero F32.zero F32.zero F32.zero.

(** A C array of two, indexed by [CardboardEye]. *)
Record arr2 (A : Type) := mkArr2 { at_kLeft : A; at_kRight : A }.
Arguments mkArr2 {A} _ _.
Arguments at_kLeft {A} _.
Arguments at_kRight {A} _.

Definition aget {A} (eye : CardboardEye) (a : arr2 A) : A :=
  match eye with kLeft => at_kLeft a | kRight => at_kRight a end.

Definition aset {A} (eye : CardboardEye) (v : A) (a : arr2 A) : arr2 A :=
  match eye with
  | kLeft => mkArr2 v (at_kRight a)
  | kRight => mkArr2 (at_kLeft a) v
  end.

(** The data members of the class, in declaration order. *)
Record Renderer := mkRenderer {
  physical_device_ : Z;
  logical_device_ : Z;
  swapchain_ : Z;
  current_render_pass_ : Z;
  current_image_width_ : Z;
  current_image_height_ : Z;
  indices_count_ : Z;
  swapchain_image_count_ : Z;
  texture_sampler_ : Z;
  descriptor_set_layout_ : Z;
  pipeline_layout_ : Z;
  swapchain_images_ : list Z;
  swapchain_views_ : list Z;
  viewport_ : arr2 Vk.VkViewport;
  scissor_ : arr2 Vk.VkRect2D;
  graphics_pipeline_ : arr2 Z;
  vertex_buffers_ : arr2 Z;
  vertex_buffers_memory_ : arr2 Z;
  index_buffers_ : arr2 Z;
  index_buffers_memory_ : arr2 Z;
  uniform_buffers_ : arr2 Z;
  uniform_buffers_memory_ : arr2 Z;
  descriptor_pool_ : arr2 Z;
  descriptor_sets_ : arr2 (list Z);
  image_views_ : arr2 (list Z) }.

(** Assignment to one data member. *)
Definition set_physical_device_ (v : Z) (r : Renderer) : Renderer :=
  mkRenderer v (logical_device_ r) (swapchain_ r) (current_render_pass_ r)
    (current_image_width_ r) (current_image_height_ r) (indices_count_ r)
    (swapchain_image_count_ r) (texture_sampler_ r) (descriptor_set_layout_ r)
    (pipeline_layout_ r) (swapchain_images_ r) (swapchain_views_ r) (viewport_
    r) (scissor_ r) (graphics_pipeline_ r) (vertex_buffers_ r)
    (vertex_buffers_memory_ r) (index_buffers_ r) (index_buffers_memory_ r)
    (uniform_buffers_ r) (uniform_buffers_memory_ r) (descriptor_pool_ r)
    (descriptor_sets_ r) (image_views_ r).
Definition set_logical_device_ (v : Z) (r : Renderer) : Renderer :=
  mkRenderer (physical_device_ r) v (swapchain_ r) (current_render_pass_ r)
    (current_image_width_ r) (current_image_height_ r) (indices_count_ r)
    (swapchain_image_count_ r) (texture_sampler_ r) (descriptor_set_layout_ r)
    (pipeline_layout_ r) (swapchain_images_ r) (swapchain_views_ r) (viewport_
    r) (scissor_ r) (graphics_pipeline_ r) (vertex_buffers_ r)
    (vertex_buffers_memory_ r) (index_buffers_ r) (index_buffers_memory_ r)
    (uniform_buffers_ r) (uniform_buffers_memory_ r) (descriptor_pool_ r)
    (descriptor_sets_ r) (image_views_ r).
Definition set_swapchain_ (v : Z) (r : Renderer) : Renderer :=
  mkRenderer (physical_device_ r) (logical_device_ r) v (current_render_pass_
    r) (current_image_width_ r) (current_image_height_ r) (indices_count_ r)
    (swapchain_image_count_ r) (texture_sampler_ r) (descriptor_set_layout_ r)
    (pipeline_layout_ r) (swapchain_images_ r) (swapchain_views_ r) (viewport_
    r) (scissor_ r) (graphics_pipeline_ r) (vertex_buffers_ r)
    (vertex_buffers_memory_ r) (index_buffers_ r) (index_buffers_memory_ r)
    (uniform_buffers_ r) (uniform_buffers_memory_ r) (descriptor_pool_ r)
    (descriptor_sets_ r) (image_views_ r).
Definition set_current_render_pass_ (v : Z) (r : Renderer) : Renderer :=
  mkRenderer (physical_device_ r) (logical_device_ r) (swapchain_ r) v
    (current_image_width_ r) (current_image_height_ r) (indices_count_ r)
    (swapchain_image_count_ r) (texture_sampler_ r) (descriptor_set_layout_ r)
    (pipeline_layout_ r) (swapchain_images_ r) (swapchain_views_ r) (viewport_
    r) (scissor_ r) (graphics_pipeline_ r) (vertex_buffers_ r)
    (vertex_buffers_memory_ r) (index_buffers_ r) (index_buffers_memory_ r)
    (uniform_buffers_ r) (uniform_buffers_memory_ r) (descriptor_pool_ r)
    (descriptor_sets_ r) (image_views_ r).
Definition set_current_image_width_ (v : Z) (r : Renderer) : Renderer :=
  mkRenderer (physical_device_ r) (logical_device_ r) (swapchain_ r)
    (current_render_pass_ r) v (current_image_height_ r) (indices_count_ r)
    (swapchain_image_count_ r) (texture_sampler_ r) (descriptor_set_layout_ r)
    (pipeline_layout_ r) (swapchain_images_ r) (swapchain_views_ r) (viewport_
    r) (scissor_ r) (graphics_pipeline_ r) (vertex_buffers_ r)
    (vertex_buffers_memory_ r) (index_buffers_ r) (index_buffers_memory_ r)
    (uniform_buffers_ r) (uniform_buffers_memory_ r) (descriptor_pool_ r)
    (descriptor_sets_ r) (image_views_ r).
Definition set_current_image_height_ (v : Z) (r : Renderer) : Renderer :=
  mkRenderer (physical_device_ r) (logical_device_ r) (swapchain_ r)
    (current_render_pass_ r) (current_image_width_ r) v (indices_count_ r)
    (swapchain_image_count_ r) (texture_sampler_ r) (descriptor_set_layout_ r)
    (pipeline_layout_ r) (swapchain_images_ r) (swapchain_views_ r) (viewport_
    r) (scissor_ r) (graphics_pipeline_ r) (vertex_buffers_ r)
    (vertex_buffers_memory_ r) (index_buffers_ r) (index_buffers_memory_ r)
    (uniform_buffers_ r) (uniform_buffers_memory_ r) (descriptor_pool_ r)
    (descriptor_sets_ r) (image_views_ r).
Definition set_indices_count_ (v : Z) (r : Renderer) : Renderer :=
  mkRenderer (physical_device_ r) (logical_device_ r) (swapchain_ r)
    (current_render_pass_ r) (current_image_width_ r) (current_image_height_
    r) v (swapchain_image_count_ r) (texture_sampler_ r)
    (descriptor_set_layout_ r) (pipeline_layout_ r) (swapchain_images_ r)
    (swapchain_views_ r) (viewport_ r) (scissor_ r) (graphics_pipeline_ r)
    (vertex_buffers_ r) (vertex_buffers_memory_ r) (index_buffers_ r)
    (index_buffers_memory_ r) (uniform_buffers_ r) (uniform_buffers_memory_ r)
    (descriptor_pool_ r) (descriptor_sets_ r) (image_views_ r).
Definition set_swapchain_image_count_ (v : Z) (r : Renderer) : Renderer :=
  mkRenderer (physical_device_ r) (logical_device_ r) (swapchain_ r)
    (current_render_pass_ r) (current_image_width_ r) (current_image_height_
    r) (indices_count_ r) v (texture_sampler_ r) (descriptor_set_layout_ r)
    (pipeline_layout_ r) (swapchain_images_ r) (swapchain_views_ r) (viewport_
    r) (scissor_ r) (graphics_pipeline_ r) (vertex_buffers_ r)
    (vertex_buffers_memory_ r) (index_buffers_ r) (index_buffers_memory_ r)
    (uniform_buffers_ r) (uniform_buffers_memory_ r) (descriptor_pool_ r)
    (descriptor_sets_ r) (image_views_ r).
Definition set_texture_sampler_ (v : Z) (r : Renderer) : Renderer :=
  mkRenderer (physical_device_ r) (logical_device_ r) (swapchain_ r)
    (current_render_pass_ r) (current_image_width_ r) (current_image_height_
    r) (indices_count_ r) (swapchain_image_count_ r) v (descriptor_set_layout_
    r) (pipeline_layout_ r) (swapchain_images_ r) (swapchain_views_ r)
    (viewport_ r) (scissor_ r) (graphics_pipeline_ r) (vertex_buffers_ r)
    (vertex_buffers_memory_ r) (index_buffers_ r) (index_buffers_memory_ r)
    (uniform_buffers_ r) (uniform_buffers_memory_ r) (descriptor_pool_ r)
    (descriptor_sets_ r) (image_views_ r).
Definition set_descriptor_set_layout_ (v : Z) (r : Renderer) : Renderer :=
  mkRenderer (physical_device_ r) (logical_device_ r) (swapchain_ r)
    (current_render_pass_ r) (current_image_width_ r) (current_image_height_
    r) (indices_count_ r) (swapchain_image_count_ r) (texture_sampler_ r) v
    (pipeline_layout_ r) (swapchain_images_ r) (swapchain_views_ r) (viewport_
    r) (scissor_ r) (graphics_pipeline_ r) (vertex_buffers_ r)
    (vertex_buffers_memory_ r) (index_buffers_ r) (index_buffers_memory_ r)
    (uniform_buffers_ r) (uniform_buffers_memory_ r) (descriptor_pool_ r)
    (descriptor_sets_ r) (image_views_ r).
Definition set_pipeline_layout_ (v : Z) (r : Renderer) : Renderer :=
  mkRenderer (physical_device_ r) (logical_device_ r) (swapchain_ r)
    (current_render_pass_ r) (current_image_width_ r) (current_image_height_
    r) (indices_count_ r) (swapchain_image_count_ r) (texture_sampler_ r)
    (descriptor_set_layout_ r) v (swapchain_images_ r) (swapchain_views_ r)
    (viewport_ r) (scissor_ r) (graphics_pipeline_ r) (vertex_buffers_ r)
    (vertex_buffers_memory_ r) (index_buffers_ r) (index_buffers_memory_ r)
    (uniform_buffers_ r) (uniform_buffers_memory_ r) (descriptor_pool_ r)
    (descriptor_sets_ r) (image_views_ r).
Definition set_swapchain_images_ (v : list Z) (r : Renderer) : Renderer :=
  mkRenderer (physical_device_ r) (logical_device_ r) (swapchain_ r)
    (current_render_pass_ r) (current_image_width_ r) (current_image_height_
    r) (indices_count_ r) (swapchain_image_count_ r) (texture_sampler_ r)
    (descriptor_set_layout_ r) (pipeline_layout_ r) v (swapchain_views_ r)
    (viewport_ r) (scissor_ r) (graphics_pipeline_ r) (vertex_buffers_ r)
    (vertex_buffers_memory_ r) (index_buffers_ r) (index_buffers_memory_ r)
    (uniform_buffers_ r) (uniform_buffers_memory_ r) (descriptor_pool_ r)
    (descriptor_sets_ r) (image_views_ r).
Definition set_swapchain_views_ (v : list Z) (r : Renderer) : Renderer :=
  mkRenderer (physical_device_ r) (logical_device_ r) (swapchain_ r)
    (current_render_pass_ r) (current_image_width_ r) (current_image_height_
    r) (indices_count_ r) (swapchain_image_count_ r) (texture_sampler_ r)
    (descriptor_set_layout_ r) (pipeline_layout_ r) (swapchain_images_ r) v
    (viewport_ r) (scissor_ r) (graphics_pipeline_ r) (vertex_buffers_ r)
    (vertex_buffers_memory_ r) (index_buffers_ r) (index_buffers_memory_ r)
    (uniform_buffers_ r) (uniform_buffers_memory_ r) (descriptor_pool_ r)
    (descriptor_sets_ r) (image_views_ r).
Definition set_viewport_ (v : arr2 Vk.VkViewport) (r : Renderer) : Renderer :=
  mkRenderer (physical_device_ r) (logical_device_ r) (swapchain_ r)
    (current_render_pass_ r) (current_image_width_ r) (current_image_height_
    r) (indices_count_ r) (swapchain_image_count_ r) (texture_sampler_ r)
    (descriptor_set_layout_ r) (pipeline_layout_ r) (swapchain_images_ r)
    (swapchain_views_ r) v (scissor_ r) (graphics_pipeline_ r)
    (vertex_buffers_ r) (vertex_buffers_memory_ r) (index_buffers_ r)
    (index_buffers_memory_ r) (uniform_buffers_ r) (uniform_buffers_memory_ r)
    (descriptor_pool_ r) (descriptor_sets_ r) (image_views_ r).
Definition set_scissor_ (v : arr2 Vk.VkRect2D) (r : Renderer) : Renderer :=
  mkRenderer (physical_device_ r) (logical_device_ r) (swapchain_ r)
    (current_render_pass_ r) (current_image_width_ r) (current_image_height_
    r) (indices_count_ r) (swapchain_image_count_ r) (texture_sampler_ r)
    (descriptor_set_layout_ r) (pipeline_layout_ r) (swapchain_images_ r)
    (swapchain_views_ r) (viewport_ r) v (graphics_pipeline_ r)
    (vertex_buffers_ r) (vertex_buffers_memory_ r) (index_buffers_ r)
    (index_buffers_memory_ r) (uniform_buffers_ r) (uniform_buffers_memory_ r)
    (descriptor_pool_ r) (descriptor_sets_ r) (image_views_ r).
Definition set_graphics_pipeline_ (v : arr2 Z) (r : Renderer) : Renderer :=
  mkRenderer (physical_device_ r) (logical_device_ r) (swapchain_ r)
    (current_render_pass_ r) (current_image_width_ r) (current_image_height_
    r) (indices_count_ r) (swapchain_image_count_ r) (texture_sampler_ r)
    (descriptor_set_layout_ r) (pipeline_layout_ r) (swapchain_images_ r)
    (swapchain_views_ r) (viewport_ r) (scissor_ r) v (vertex_buffers_ r)
    (vertex_buffers_memory_ r) (index_buffers_ r) (index_buffers_memory_ r)
    (uniform_buffers_ r) (uniform_buffers_memory_ r) (descriptor_pool_ r)
    (descriptor_sets_ r) (image_views_ r).
Definition set_vertex_buffers_ (v : arr2 Z) (r : Renderer) : Renderer :=
  mkRenderer (physical_device_ r) (logical_device_ r) (swapchain_ r)
    (current_render_pass_ r) (current_image_width_ r) (current_image_height_
    r) (indices_count_ r) (swapchain_image_count_ r) (texture_sampler_ r)
    (descriptor_set_layout_ r) (pipeline_layout_ r) (swapchain_images_ r)
    (swapchain_views_ r) (viewport_ r) (scissor_ r) (graphics_pipeline_ r) v
    (vertex_buffers_memory_ r) (index_buffers_ r) (index_buffers_memory_ r)
    (uniform_buffers_ r) (uniform_buffers_memory_ r) (descriptor_pool_ r)
    (descriptor_sets_ r) (image_views_ r).
Definition set_vertex_buffers_memory_ (v : arr2 Z) (r : Renderer) : Renderer :=
  mkRenderer (physical_device_ r) (logical_device_ r) (swapchain_ r)
    (current_render_pass_ r) (current_image_width_ r) (current_image_height_
    r) (indices_count_ r) (swapchain_image_count_ r) (texture_sampler_ r)
    (descriptor_set_layout_ r) (pipeline_layout_ r) (swapchain_images_ r)
    (swapchain_views_ r) (viewport_ r) (scissor_ r) (graphics_pipeline_ r)
    (vertex_buffers_ r) v (index_buffers_ r) (index_buffers_memory_ r)
    (uniform_buffers_ r) (uniform_buffers_memory_ r) (descriptor_pool_ r)
    (descriptor_sets_ r) (image_views_ r).
Definition set_index_buffers_ (v : arr2 Z) (r : Renderer) : Renderer :=
  mkRenderer (physical_device_ r) (logical_device_ r) (swapchain_ r)
    (current_render_pass_ r) (current_image_width_ r) (current_image_height_
    r) (indices_count_ r) (swapchain_image_count_ r) (texture_sampler_ r)
    (descriptor_set_layout_ r) (pipeline_layout_ r) (swapchain_images_ r)
    (swapchain_views_ r) (viewport_ r) (scissor_ r) (graphics_pipeline_ r)
    (vertex_buffers_ r) (vertex_buffers_memory_ r) v (index_buffers_memory_ r)
    (uniform_buffers_ r) (uniform_buffers_memory_ r) (descriptor_pool_ r)
    (descriptor_sets_ r) (image_views_ r).
Definition set_index_buffers_memory_ (v : arr2 Z) (r : Renderer) : Renderer :=
  mkRenderer (physical_device_ r) (logical_device_ r) (swapchain_ r)
    (current_render_pass_ r) (current_image_width_ r) (current_image_height_
    r) (indices_count_ r) (swapchain_image_count_ r) (texture_sampler_ r)
    (descriptor_set_layout_ r) (pipeline_layout_ r) (swapchain_images_ r)
    (swapchain_views_ r) (viewport_ r) (scissor_ r) (graphics_pipeline_ r)
    (vertex_buffers_ r) (vertex_buffers_memory_ r) (index_buffers_ r) v
    (uniform_buffers_ r) (uniform_buffers_memory_ r) (descriptor_pool_ r)
    (descriptor_sets_ r) (image_views_ r).
Definition set_uniform_buffers_ (v : arr2 Z) (r : Renderer) : Renderer :=
  mkRenderer (physical_device_ r) (logical_device_ r) (swapchain_ r)
    (current_render_pass_ r) (current_image_width_ r) (current_image_height_
    r) (indices_count_ r) (swapchain_image_count_ r) (texture_sampler_ r)
    (descriptor_set_layout_ r) (pipeline_layout_ r) (swapchain_images_ r)
    (swapchain_views_ r) (viewport_ r) (scissor_ r) (graphics_pipeline_ r)
    (vertex_buffers_ r) (vertex_buffers_memory_ r) (index_buffers_ r)
    (index_buffers_memory_ r) v (uniform_buffers_memory_ r) (descriptor_pool_
    r) (descriptor_sets_ r) (image_views_ r).
Definition set_uniform_buffers_memory_ (v : arr2 Z) (r : Renderer) : Renderer :=
  mkRenderer (physical_device_ r) (logical_device_ r) (swapchain_ r)
    (current_render_pass_ r) (current_image_width_ r) (current_image_height_
    r) (indices_count_ r) (swapchain_image_count_ r) (texture_sampler_ r)
    (descriptor_set_layout_ r) (pipeline_layout_ r) (swapchain_images_ r)
    (swapchain_views_ r) (viewport_ r) (scissor_ r) (graphics_pipeline_ r)
    (vertex_buffers_ r) (vertex_buffers_memory_ r) (index_buffers_ r)
    (index_buffers_memory_ r) (uniform_buffers_ r) v (descriptor_pool_ r)
    (descriptor_sets_ r) (image_views_ r).
Definition set_descriptor_pool_ (v : arr2 Z) (r : Renderer) : Renderer :=
  mkRenderer (physical_device_ r) (logical_device_ r) (swapchain_ r)
    (current_render_pass_ r) (current_image_width_ r) (current_image_height_
    r) (indices_count_ r) (swapchain_image_count_ r) (texture_sampler_ r)
    (descriptor_set_layout_ r) (pipeline_layout_ r) (swapchain_images_ r)
    (swapchain_views_ r) (viewport_ r) (scissor_ r) (graphics_pipeline_ r)
    (vertex_buffers_ r) (vertex_buffers_memory_ r) (index_buffers_ r)
    (index_buffers_memory_ r) (uniform_buffers_ r) (uniform_buffers_memory_ r)
    v (descriptor_sets_ r) (image_views_ r).
Definition set_descriptor_sets_ (v : arr2 (list Z)) (r : Renderer) : Renderer :=
  mkRenderer (physical_device_ r) (logical_device_ r) (swapchain_ r)
    (current_render_pass_ r) (current_image_width_ r) (current_image_height_
    r) (indices_count_ r) (swapchain_image_count_ r) (texture_sampler_ r)
    (descriptor_set_layout_ r) (pipeline_layout_ r) (swapchain_images_ r)
    (swapchain_views_ r) (viewport_ r) (scissor_ r) (graphics_pipeline_ r)
    (vertex_buffers_ r) (vertex_buffers_memory_ r) (index_buffers_ r)
    (index_buffers_memory_ r) (uniform_buffers_ r) (uniform_buffers_memory_ r)
    (descriptor_pool_ r) v (image_views_ r).
Definition set_image_views_ (v : arr2 (list Z)) (r : Renderer) : Renderer :=
  mkRenderer (physical_device_ r) (logical_device_ r) (swapchain_ r)
    (current_render_pass_ r) (current_image_width_ r) (current_image_height_
    r) (indices_count_ r) (swapchain_image_count_ r) (texture_sampler_ r)
    (descriptor_set_layout_ r) (pipeline_layout_ r) (swapchain_images_ r)
    (swapchain_views_ r) (viewport_ r) (scissor_ r) (graphics_pipeline_ r)
    (vertex_buffers_ r) (vertex_buffers_memory_ r) (index_buffers_ r)
    (index_buffers_memory_ r) (uniform_buffers_ r) (uniform_buffers_memory_ r)
    (descriptor_pool_ r) (descriptor_sets_ r) v.

(** ** The program state and its monad *)

(** What the process provides: [cardboard::util::IsInitialized] (behind
    [CARDBOARD_IS_NOT_INITIALIZED]) and the result of [LoadVulkan]. *)
Record Env := mkEnv { sdk_initialized : bool; vulkan_loadable : bool }.

Record World := mkWorld {
  this : Renderer;
  gpu : Vk.Device;
  logcat : list string;
  env : Env }.

Definition M (A : Type) : Type := World -> option (A * World).

Definition ret {A} (a : A) : M A := fun w => Some (a, w).

Definition bind {A B} (m : M A) (k : A -> M B) : M B :=
  fun w => match m w with
           | Some (a, w') => k a w'
           | None => None
           end.

Declare Scope cpp_scope.
Delimit Scope cpp_scope with cpp.
Notation "x <- m ;; k" := (bind m (fun x => k))
  (at level 100, m at next level, right associativity) : cpp_scope.
Notation "m ;; k" := (bind m (fun _ => k))
  (at level 100, right associativity) : cpp_scope.
Local Open Scope cpp_scope.

(** A step whose behaviour the language leaves undefined when [o] is
    [None]. *)
Definition defined {A} (o : option A) : M A :=
  fun w => match o with Some a => Some (a, w) | None => None end.

(** Reading and writing data members. *)
Definition get {A} (f : Renderer -> A) : M A := fun w => Some (f (this w), w).

Definition put (f : Renderer -> Renderer) : M unit :=
  fun w => Some (tt, mkWorld (f (this w)) (gpu w) (logcat w) (env w)).

(** Calls into the device. *)
Definition vk {A} (f : Vk.Device -> A * Vk.Device) : M A :=
  fun w => let '(a, d) := f (gpu w) in
           Some (a, mkWorld (this w) d (logcat w) (env w)).

Definition vk_ (f : Vk.Device -> Vk.Device) : M unit :=
  fun w => Some (tt, mkWorld (this w) (f (gpu w)) (logcat w) (env w)).

Definition CARDBOARD_LOGE (msg : string) : M unit :=
  fun w => Some (tt, mkWorld (this w) (gpu w) (logcat w ++ [msg]) (env w)).

(** The wrapper macro: log when the result is not [VK_SUCCESS], go on in
    either case. *)
Definition CALL_VK {A} (func : Vk.Device -> Vk.VkResult * A * Vk.Device) : M A :=
  x <- vk func ;;
  match x.1 with
  | Vk.VK_SUCCESS => ret x.2
  | Vk.VK_ERROR _ => CARDBOARD_LOGE "Vulkan error." ;; ret x.2
  end.

(** [for (i = 0; i < n; i++)] over a local state. *)
Fixpoint loop {S} (range : list Z) (body : Z -> S -> M S) (s : S) : M S :=
  match range with
  | [] => ret s
  | i :: rest => s' <- body i s ;; loop rest body s'
  end.

Definition for_upto {S} (n : Z) (body : Z -> S -> M S) (s : S) : M S :=
  loop (seqZ 0 n) body s.

(** References to data members ([VkBuffer&], [x_[eye]]). *)
Record ref (A : Type) := mkRef {
  load : Renderer -> A;
  store : A -> Renderer -> Renderer }.
Arguments mkRef {A} _ _.
Arguments load {A} _ _.
Arguments store {A} _ _ _.

Definition elem {A} (member : Renderer -> arr2 A)
    (set_member : arr2 A -> Renderer -> Renderer) (eye : CardboardEye) : ref A :=
  mkRef (fun r => aget eye (member r))
        (fun v r => set_member (aset eye v (member r)) r).

(** Element access: [a[i]] on a caller's array and [v[i]] on a
    [std::vector], undefined outside the bounds. *)
Definition at_index {A} (v : list A) (i : Z) : option A :=
  if i <? 0 then None else v !! Z.to_nat i.

Definition modify_index {A} (v : list A) (i : Z) (f : A -> A) : option (list A) :=
  match at_index v i with
  | Some x => Some (<[Z.to_nat i := f x]> v)
  | None => None
  end.

Definition assign_index {A} (v : list A) (i : Z) (x : A) : option (list A) :=
  modify_index v i (fun _ => x).

(** [std::vector::resize(n)] for an [int n]: a negative [n] converts to a
    size above [max_size()] and throws. *)
Definition resize_int {A} (n : Z) (x : A) (v : list A) : option (list A) :=
  if n <? 0 then None else Some (resize (Z.to_nat n) x v).

(** Writing [src] through [v.data()]. *)
Definition write_data {A} (src v : list A) : option (list A) :=
  if bool_decide (length src <= length v)%nat
  then Some (src ++ drop (length src) v) else None.

(** ** class VulkanDistortionRenderer *)

Definition graphics_pipeline_at := elem graphics_pipeline_ set_graphics_pipeline_.
Definition vertex_buffers_at := elem vertex_buffers_ set_vertex_buffers_.
Definition vertex_buffers_memory_at :=
  elem vertex_buffers_memory_ set_vertex_buffers_memory_.
Definition index_buffers_at := elem index_buffers_ set_index_buffers_.
Definition index_buffers_memory_at :=
  elem index_buffers_memory_ set_index_buffers_memory_.
Definition uniform_buffers_at := elem uniform_buffers_ set_uniform_buffers_.
Definition uniform_buffers_memory_at :=
  elem uniform_buffers_memory_ set_uniform_buffers_memory_.
Definition descriptor_pool_at := elem descriptor_pool_ set_descriptor_pool_.
Definition descriptor_sets_at := elem descriptor_sets_ set_descriptor_sets_.
Definition image_views_at := elem image_views_ set_image_views_.
Definition viewport_at := elem viewport_ set_viewport_.
Definition scissor_at := elem scissor_ set_scissor_.

Definition LoadVulkan : M bool := fun w => Some (vulkan_loadable (env w), w).

Definition LoadShader (content : Vk.Shader) : M Z :=
  CALL_VK (Vk.CreateShaderModule content).

(** The scan of [FindMemoryType]: the first index whose bit is set in the
    filter and whose flags include [properties]. *)
Fixpoint first_suitable (typeFilter properties : Z) (i : Z) (types : list Z)
    : option Z :=
  match types with
  | [] => None
  | flags :: rest =>
      if negb (Z.land typeFilter (Z.shiftl 1 i) =? 0) &&
         (Z.land flags properties =? properties)
      then Some i
      else first_suitable typeFilter properties (i + 1) rest
  end.

Definition FindMemoryType (typeFilter properties : Z) : M Z :=
  phys <- get physical_device_ ;;
  mem_properties <- vk (Vk.GetPhysicalDeviceMemoryProperties phys) ;;
  match first_suitable typeFilter properties 0 mem_properties with
  | Some i => ret i
  | None => CARDBOARD_LOGE "Failed to find suitable memory type!" ;; ret 0
  end.

Definition CreateDescriptorSetLayout : M unit :=
  h <- CALL_VK Vk.CreateDescriptorSetLayout ;;
  put (set_descriptor_set_layout_ h).

Definition CreatePipelineLayout : M unit :=
  set_layout <- get descriptor_set_layout_ ;;
  h <- CALL_VK (Vk.CreatePipelineLayout set_layout) ;;
  put (set_pipeline_layout_ h).

Definition CreateTextureSampler : M unit :=
  phys <- get physical_device_ ;;
  vk_ (Vk.GetPhysicalDeviceProperties phys) ;;
  h <- CALL_VK Vk.CreateSampler ;;
  put (set_texture_sampler_ h).

Definition CreateDescriptorPool (eye : CardboardEye) : M unit :=
  n <- get swapchain_image_count_ ;;
  h <- CALL_VK (Vk.CreateDescriptorPool (CInt.to_uint32 n)) ;;
  put (store (descriptor_pool_at eye) h).

Definition CreateDescriptorSets (eye : CardboardEye) : M unit :=
  n <- get swapchain_image_count_ ;;
  layout <- get descriptor_set_layout_ ;;
  let layouts := replicate (Z.to_nat n) layout in
  pool <- get (load (descriptor_pool_at eye)) ;;
  sets <- get (load (descriptor_sets_at eye)) ;;
  put (store (descriptor_sets_at eye) (resize (Z.to_nat n) Vk.VK_NULL_HANDLE sets)) ;;
  out <- CALL_VK (Vk.AllocateDescriptorSets pool layouts) ;;
  sets <- get (load (descriptor_sets_at eye)) ;;
  sets' <- defined (write_data out sets) ;;
  put (store (descriptor_sets_at eye) sets').

Definition CleanPipeline (eye : CardboardEye) : M unit :=
  p <- get (load (graphics_pipeline_at eye)) ;;
  if bool_decide (p <> Vk.VK_NULL_HANDLE) then
    vk_ (Vk.DestroyPipeline p) ;;
    put (store (graphics_pipeline_at eye) Vk.VK_NULL_HANDLE)
  else ret tt.

(** The create-info structures are constants; the pipeline depends on the
    members [pipeline_layout_] and [current_render_pass_] and on the two
    shader modules. *)
Definition CreateGraphicsPipeline (eye : CardboardEye) : M unit :=
  CleanPipeline eye ;;
  vertex_shader <- LoadShader Vk.distortion_vert ;;
  fragment_shader <- LoadShader Vk.distortion_frag ;;
  layout <- get pipeline_layout_ ;;
  render_pass <- get current_render_pass_ ;;
  p <- CALL_VK (Vk.CreateGraphicsPipelines layout render_pass
                  vertex_shader fragment_shader) ;;
  put (store (graphics_pipeline_at eye) p) ;;
  vk_ (Vk.DestroyShaderModule vertex_shader) ;;
  vk_ (Vk.DestroyShaderModule fragment_shader).

Definition CreateBuffer (size usage properties : Z)
    (buffer buffer_memory : ref Z) : M unit :=
  b <- CALL_VK (Vk.CreateBuffer size usage) ;;
  put (store buffer b) ;;
  b <- get (load buffer) ;;
  mem_requirements <- vk (Vk.GetBufferMemoryRequirements b) ;;
  type_index <- FindMemoryType mem_requirements.2 properties ;;
  m <- CALL_VK (Vk.AllocateMemory mem_requirements.1 type_index) ;;
  put (store buffer_memory m) ;;
  b <- get (load buffer) ;;
  m <- get (load buffer_memory) ;;
  vk_ (Vk.BindBufferMemory b m 0).

Definition host_visible_coherent : Z :=
  Z.lor Vk.VK_MEMORY_PROPERTY_HOST_VISIBLE_BIT
        Vk.VK_MEMORY_PROPERTY_HOST_COHERENT_BIT.

Definition CreateVertexBuffer (eye : CardboardEye) (vertices : list Vertex)
    : M unit :=
  let buffer_size :=
    CInt.to_uint64 (sizeof_Vertex * Z.of_nat (length vertices)) in
  CreateBuffer buffer_size Vk.VK_BUFFER_USAGE_VERTEX_BUFFER_BIT
    host_visible_coherent (vertex_buffers_at eye)
    (vertex_buffers_memory_at eye) ;;
  m <- get (load (vertex_buffers_memory_at eye)) ;;
  data <- CALL_VK (Vk.MapMemory m 0 buffer_size) ;;
  vk_ (Vk.host_write data (mjoin (Vertex_bytes <$> vertices)) buffer_size) ;;
  m <- get (load (vertex_buffers_memory_at eye)) ;;
  vk_ (Vk.UnmapMemory m).

Definition CreateIndexBuffer (eye : CardboardEye) (indices : list Z) : M unit :=
  let buffer_size :=
    CInt.to_uint64 (sizeof_uint16_t * Z.of_nat (length indices)) in
  CreateBuffer buffer_size Vk.VK_BUFFER_USAGE_INDEX_BUFFER_BIT
    host_visible_coherent (index_buffers_at eye)
    (index_buffers_memory_at eye) ;;
  m <- get (load (index_buffers_memory_at eye)) ;;
  mapped <- vk (Vk.MapMemory m 0 buffer_size) ;;
  let data := mapped.2 in
  vk_ (Vk.host_write data (mjoin (Mem.uint16_bytes <$> indices)) buffer_size) ;;
  m <- get (load (index_buffers_memory_at eye)) ;;
  vk_ (Vk.UnmapMemory m).

Definition CreateUniformBuffers (eye : CardboardEye) : M unit :=
  let buffer_size := sizeof_UniformBufferObject in
  CreateBuffer buffer_size Vk.VK_BUFFER_USAGE_UNIFORM_BUFFER_BIT
    host_visible_coherent (uniform_buffers_at eye)
    (uniform_buffers_memory_at eye).

Definition CreateImageView (image : Z) : M Z :=
  CALL_VK (Vk.CreateImageView image).

Definition CreateSwapchainImageViews : M unit :=
  swapchain <- get swapchain_ ;;
  count <- get swapchain_image_count_ ;;
  got <- CALL_VK (Vk.GetSwapchainImages swapchain count) ;;
  put (set_swapchain_image_count_ got.1) ;;
  images <- get swapchain_images_ ;;
  images' <- defined (write_data got.2 images) ;;
  put (set_swapchain_images_ images') ;;
  size <- get (fun r => Z.of_nat (length (swapchain_images_ r))) ;;
  for_upto size (fun i _ =>
    images <- get swapchain_images_ ;;
    image <- defined (at_index images i) ;;
    view <- CreateImageView image ;;
    views <- get swapchain_views_ ;;
    views' <- defined (assign_index views i view) ;;
    put (set_swapchain_views_ views')) tt.

Definition CreateSharedVulkanObjects : M unit :=
  CreateDescriptorSetLayout ;;
  CreatePipelineLayout ;;
  CreateTextureSampler ;;
  CreateSwapchainImageViews.

Definition CreatePerEyeVulkanObjects (eye : CardboardEye) : M unit :=
  CreateDescriptorPool eye ;;
  CreateUniformBuffers eye ;;
  CreateDescriptorSets eye ;;
  n <- get swapchain_image_count_ ;;
  views <- get (load (image_views_at eye)) ;;
  put (store (image_views_at eye) (resize (Z.to_nat n) Vk.VK_NULL_HANDLE views)) ;;
  views <- get (load (image_views_at eye)) ;;
  put (store (image_views_at eye) ((fun _ => Vk.VK_NULL_HANDLE) <$> views)).

(** [index] is an [int]. *)
Definition CleanTextureImageView (eye : CardboardEye) (index : Z) : M unit :=
  views <- get (load (image_views_at eye)) ;;
  view <- defined (at_index views index) ;;
  if bool_decide (view <> Vk.VK_NULL_HANDLE) then
    vk_ (Vk.DestroyImageView view) ;;
    views <- get (load (image_views_at eye)) ;;
    views' <- defined (assign_index views index Vk.VK_NULL_HANDLE) ;;
    put (store (image_views_at eye) views')
  else ret tt.

Definition GetSwapchainImagesCount (swapchain : Z) : M Z :=
  CALL_VK (Vk.GetSwapchainImagesCount swapchain).

(** [image_index] is a [uint32_t], [indices_count] an [int]. *)
Definition BindCommandBuffer (eye : CardboardEye) (command_buffer : Z)
    (image_index indices_count : Z) : M unit :=
  p <- get (load (graphics_pipeline_at eye)) ;;
  vk_ (Vk.Cmd (Vk.vkCmdBindPipeline command_buffer p)) ;;
  vp <- get (load (viewport_at eye)) ;;
  vk_ (Vk.Cmd (Vk.vkCmdSetViewport command_buffer vp)) ;;
  sc <- get (load (scissor_at eye)) ;;
  vk_ (Vk.Cmd (Vk.vkCmdSetScissor command_buffer sc)) ;;
  let offset := 0 in
  vb <- get (load (vertex_buffers_at eye)) ;;
  vk_ (Vk.Cmd (Vk.vkCmdBindVertexBuffers command_buffer vb offset)) ;;
  ib <- get (load (index_buffers_at eye)) ;;
  vk_ (Vk.Cmd (Vk.vkCmdBindIndexBuffer command_buffer ib 0 Vk.VK_INDEX_TYPE_UINT16)) ;;
  layout <- get pipeline_layout_ ;;
  sets <- get (load (descriptor_sets_at eye)) ;;
  set <- defined (at_index sets image_index) ;;
  vk_ (Vk.Cmd (Vk.vkCmdBindDescriptorSets command_buffer layout set)) ;;
  vk_ (Vk.Cmd (Vk.vkCmdDrawIndexed command_buffer
                 (CInt.to_uint32 indices_count) 1 0 0 0)).

Definition UpdateUniformBuffer (eye : CardboardEye) (ubo : UniformBufferObject)
    : M unit :=
  m <- get (load (uniform_buffers_memory_at eye)) ;;
  mapped <- vk (Vk.MapMemory m 0 sizeof_UniformBufferObject) ;;
  let data := mapped.2 in
  vk_ (Vk.host_write data (UniformBufferObject_bytes ubo)
         sizeof_UniformBufferObject) ;;
  m <- get (load (uniform_buffers_memory_at eye)) ;;
  vk_ (Vk.UnmapMemory m).

Definition set_offset (o : Vk.VkOffset2D) (s : Vk.VkRect2D) : Vk.VkRect2D :=
  Vk.mkRect2D o (Vk.extent s).
Definition set_extent (e : Vk.VkExtent2D) (s : Vk.VkRect2D) : Vk.VkRect2D :=
  Vk.mkRect2D (Vk.offset s) e.

Definition set_vp_x (f : F32.t) (v : Vk.VkViewport) : Vk.VkViewport :=
  Vk.mkViewport f (Vk.vp_y v) (Vk.vp_width v) (Vk.vp_height v)
                (Vk.vp_minDepth v) (Vk.vp_maxDepth v).
Definition set_vp_y (f : F32.t) (v : Vk.VkViewport) : Vk.VkViewport :=
  Vk.mkViewport (Vk.vp_x v) f (Vk.vp_width v) (Vk.vp_height v)
                (Vk.vp_minDepth v) (Vk.vp_maxDepth v).
Definition set_vp_width (f : F32.t) (v : Vk.VkViewport) : Vk.VkViewport :=
  Vk.mkViewport (Vk.vp_x v) (Vk.vp_y v) f (Vk.vp_height v)
                (Vk.vp_minDepth v) (Vk.vp_maxDepth v).
Definition set_vp_height (f : F32.t) (v : Vk.VkViewport) : Vk.VkViewport :=
  Vk.mkViewport (Vk.vp_x v) (Vk.vp_y v) (Vk.vp_width v) f
                (Vk.vp_minDepth v) (Vk.vp_maxDepth v).
Definition set_vp_minDepth (f : F32.t) (v : Vk.VkViewport) : Vk.VkViewport :=
  Vk.mkViewport (Vk.vp_x v) (Vk.vp_y v) (Vk.vp_width v) (Vk.vp_height v)
                f (Vk.vp_maxDepth v).
Definition set_vp_maxDepth (f : F32.t) (v : Vk.VkViewport) : Vk.VkViewport :=
  Vk.mkViewport (Vk.vp_x v) (Vk.vp_y v) (Vk.vp_width v) (Vk.vp_height v)
                (Vk.vp_minDepth v) f.

(** Assignment through a member of [x_[eye]]. *)
Definition update {A} (x : ref A) (f : A -> A) : M unit :=
  put (fun r => store x (f (load x r)) r).

(** [x] and [y] are [int]s; the two cached sizes are [uint32_t]s, so the
    sum in the right eye's offset is unsigned. *)
Definition UpdateViewportAndScissor (eye : CardboardEye) (x y : Z) : M unit :=
  w <- get current_image_width_ ;;
  (if bool_decide (eye = kLeft) then
     update (scissor_at kLeft) (set_offset (Vk.mkOffset2D x y))
   else
     update (scissor_at kRight)
       (set_offset (Vk.mkOffset2D
          (CInt.to_int32 (CInt.to_uint32 (CInt.to_uint32 x + w / 2))) y))) ;;
  update (viewport_at eye) (set_vp_x (F32.of_Z x)) ;;
  update (viewport_at eye) (set_vp_y (F32.of_Z y)) ;;
  w <- get current_image_width_ ;;
  update (viewport_at eye) (set_vp_width (F32.of_Z w)) ;;
  h <- get current_image_height_ ;;
  update (viewport_at eye) (set_vp_height (F32.of_Z h)) ;;
  update (viewport_at eye) (set_vp_minDepth F32.zero) ;;
  update (viewport_at eye) (set_vp_maxDepth F32.one) ;;
  w <- get current_image_width_ ;;
  h <- get current_image_height_ ;;
  update (scissor_at eye)
    (set_extent (Vk.mkExtent2D (CInt.to_uint32 (w / 2)) (CInt.to_uint32 h))).

(** [index] is an [int]. *)
Definition UpdateDescriptorSets (eye : CardboardEye) (index : Z) : M unit :=
  ubuf <- get (load (uniform_buffers_at eye)) ;;
  let buffer_info := Vk.BufferInfo ubuf 0 sizeof_UniformBufferObject in
  sampler <- get texture_sampler_ ;;
  views <- get (load (image_views_at eye)) ;;
  view <- defined (at_index views index) ;;
  let image_info := Vk.ImageInfo sampler view in
  sets <- get (load (descriptor_sets_at eye)) ;;
  set0 <- defined (at_index sets index) ;;
  set1 <- defined (at_index sets index) ;;
  vk_ (Vk.UpdateDescriptorSets
         [Vk.mkWrite set0 0 image_info; Vk.mkWrite set1 1 buffer_info]).

(** [image_index] is a [uint32_t]; the two helpers taking an [int] get it
    converted. *)
Definition RenderDistortionMesh (eye_description : CardboardEyeTextureDescription)
    (eye : CardboardEye) (command_buffer image_index : Z) : M unit :=
  let ubo := mkUbo (left_u eye_description) (right_u eye_description)
                   (top_v eye_description) (bottom_v eye_description) in
  UpdateUniformBuffer eye ubo ;;
  let current_image := texture eye_description in
  CleanTextureImageView eye (CInt.to_int32 image_index) ;;
  view <- CreateImageView current_image ;;
  views <- get (load (image_views_at eye)) ;;
  views' <- defined (assign_index views image_index view) ;;
  put (store (image_views_at eye) views') ;;
  UpdateDescriptorSets eye (CInt.to_int32 image_index) ;;
  count <- get indices_count_ ;;
  BindCommandBuffer eye command_buffer image_index count.

Definition set_pos_x (f : F32.t) (v : Vertex) : Vertex :=
  mkVertex f (pos_y v) (tex_u v) (tex_v v).
Definition set_pos_y (f : F32.t) (v : Vertex) : Vertex :=
  mkVertex (pos_x v) f (tex_u v) (tex_v v).
Definition set_tex_u (f : F32.t) (v : Vertex) : Vertex :=
  mkVertex (pos_x v) (pos_y v) f (tex_v v).
Definition set_tex_v (f : F32.t) (v : Vertex) : Vertex :=
  mkVertex (pos_x v) (pos_y v) (tex_u v) f.

(** The two conversion loops of [SetMesh]; [2 * i] and [2 * i + 1] are
    [int] expressions. *)
Definition fill_vertex (mesh : CardboardMesh) (i : Z) (verts : list Vertex)
    : M (list Vertex) :=
  k <- defined (CInt.checked (2 * i)) ;;
  x <- defined (at_index (vertices mesh) k) ;;
  verts <- defined (modify_index verts i (set_pos_x x)) ;;
  k <- defined (CInt.checked (2 * i)) ;;
  k <- defined (CInt.checked (k + 1)) ;;
  x <- defined (at_index (vertices mesh) k) ;;
  verts <- defined (modify_index verts i (set_pos_y x)) ;;
  k <- defined (CInt.checked (2 * i)) ;;
  x <- defined (at_index (uvs mesh) k) ;;
  verts <- defined (modify_index verts i (set_tex_u x)) ;;
  k <- defined (CInt.checked (2 * i)) ;;
  k <- defined (CInt.checked (k + 1)) ;;
  x <- defined (at_index (uvs mesh) k) ;;
  defined (modify_index verts i (set_tex_v x)).

Definition fill_index (mesh : CardboardMesh) (i : Z) (idxs : list Z)
    : M (list Z) :=
  x <- defined (at_index (indices mesh) i) ;;
  defined (assign_index idxs i (CInt.to_uint16 x)).

Definition SetMesh (mesh : CardboardMesh) (eye : CardboardEye) : M unit :=
  verts <- defined (resize_int (n_vertices mesh) Vertex_zero []) ;;
  verts <- for_upto (n_vertices mesh) (fill_vertex mesh) verts ;;
  CreateVertexBuffer eye verts ;;
  idxs <- defined (resize_int (n_indices mesh) 0 []) ;;
  idxs <- for_upto (n_indices mesh) (fill_index mesh) idxs ;;
  CreateIndexBuffer eye idxs ;;
  put (set_indices_count_ (n_indices mesh)).

(** [target] points to a [CardboardVulkanDistortionRendererTarget]; [x],
    [y], [width] and [height] are [int]s. *)
Definition RenderEyeToDisplay (target : CardboardVulkanDistortionRendererTarget)
    (x y width height : Z)
    (left_eye right_eye : CardboardEyeTextureDescription) : M unit :=
  let render_target := target in
  let command_buffer := vk_command_buffer render_target in
  let render_pass := vk_render_pass render_target in
  let image_index := CInt.to_uint32 (swapchain_image_index render_target) in
  count <- get swapchain_image_count_ ;;
  if count <=? image_index then
    CARDBOARD_LOGE "Input swapchain image index is above the swapchain length"
  else
    put (set_current_image_width_ (CInt.to_uint32 width)) ;;
    put (set_current_image_height_ (CInt.to_uint32 height)) ;;
    current <- get current_render_pass_ ;;
    (if bool_decide (render_pass <> current) then
       put (set_current_render_pass_ render_pass) ;;
       CreateGraphicsPipeline kLeft ;;
       CreateGraphicsPipeline kRight
     else ret tt) ;;
    UpdateViewportAndScissor kLeft x y ;;
    RenderDistortionMesh left_eye kLeft command_buffer image_index ;;
    UpdateViewportAndScissor kRight x y ;;
    RenderDistortionMesh right_eye kRight command_buffer image_index.

(** The default member initialisers, applied to the storage [new]
    returns: the two pipelines are null and the vectors are empty; every
    other member keeps whatever the storage held. *)
Definition member_init (raw : Renderer) : Renderer :=
  set_graphics_pipeline_ (mkArr2 Vk.VK_NULL_HANDLE Vk.VK_NULL_HANDLE)
    (set_swapchain_images_ []
       (set_swapchain_views_ []
          (set_descriptor_sets_ (mkArr2 [] [])
             (set_image_views_ (mkArr2 [] []) raw)))).

Definition VulkanDistortionRenderer_ctor
    (config : CardboardVulkanDistortionRendererConfig) : M unit :=
  put member_init ;;
  loaded <- LoadVulkan ;;
  if negb loaded then
    CARDBOARD_LOGE "Failed to load vulkan lib in cardboard!"
  else
    put (set_physical_device_ (physical_device config)) ;;
    put (set_logical_device_ (logical_device config)) ;;
    put (set_swapchain_ (vk_swapchain config)) ;;
    swapchain <- get swapchain_ ;;
    n <- GetSwapchainImagesCount swapchain ;;
    put (set_swapchain_image_count_ n) ;;
    n <- get swapchain_image_count_ ;;
    images <- get swapchain_images_ ;;
    put (set_swapchain_images_ (resize (Z.to_nat n) Vk.VK_NULL_HANDLE images)) ;;
    n <- get swapchain_image_count_ ;;
    views <- get swapchain_views_ ;;
    put (set_swapchain_views_ (resize (Z.to_nat n) Vk.VK_NULL_HANDLE views)) ;;
    put (set_current_image_width_ 0) ;;
    put (set_current_image_height_ 0) ;;
    CreateSharedVulkanObjects ;;
    CreatePerEyeVulkanObjects kLeft ;;
    CreatePerEyeVulkanObjects kRight.

Definition VulkanDistortionRenderer_dtor : M unit :=
  n <- get swapchain_image_count_ ;;
  for_upto n (fun i _ =>
    CleanTextureImageView kLeft (CInt.to_int32 i) ;;
    CleanTextureImageView kRight (CInt.to_int32 i) ;;
    views <- get swapchain_views_ ;;
    view <- defined (at_index views i) ;;
    vk_ (Vk.DestroyImageView view)) tt ;;
  h <- get texture_sampler_ ;; vk_ (Vk.DestroySampler h) ;;
  h <- get pipeline_layout_ ;; vk_ (Vk.DestroyPipelineLayout h) ;;
  h <- get descriptor_set_layout_ ;; vk_ (Vk.DestroyDescriptorSetLayout h) ;;
  h <- get (load (descriptor_pool_at kLeft)) ;; vk_ (Vk.DestroyDescriptorPool h) ;;
  h <- get (load (descriptor_pool_at kRight)) ;; vk_ (Vk.DestroyDescriptorPool h) ;;
  CleanPipeline kLeft ;;
  CleanPipeline kRight ;;
  h <- get (load (index_buffers_at kLeft)) ;; vk_ (Vk.DestroyBuffer h) ;;
  h <- get (load (index_buffers_memory_at kLeft)) ;; vk_ (Vk.FreeMemory h) ;;
  h <- get (load (index_buffers_at kRight)) ;; vk_ (Vk.DestroyBuffer h) ;;
  h <- get (load (index_buffers_memory_at kRight)) ;; vk_ (Vk.FreeMemory h) ;;
  h <- get (load (vertex_buffers_at kLeft)) ;; vk_ (Vk.DestroyBuffer h) ;;
  h <- get (load (vertex_buffers_memory_at kLeft)) ;; vk_ (Vk.FreeMemory h) ;;
  h <- get (load (vertex_buffers_at kRight)) ;; vk_ (Vk.DestroyBuffer h) ;;
  h <- get (load (vertex_buffers_memory_at kRight)) ;; vk_ (Vk.FreeMemory h) ;;
  h <- get (load (uniform_buffers_at kLeft)) ;; vk_ (Vk.DestroyBuffer h) ;;
  h <- get (load (uniform_buffers_memory_at kLeft)) ;; vk_ (Vk.FreeMemory h) ;;
  h <- get (load (uniform_buffers_at kRight)) ;; vk_ (Vk.DestroyBuffer h) ;;
  h <- get (load (uniform_buffers_memory_at kRight)) ;; vk_ (Vk.FreeMemory h).

(** ** The C factory *)

(** What the factory returns: null, or a pointer to the object built in
    [this]. *)
Inductive pointer := nullptr | object.

Definition CARDBOARD_IS_NOT_INITIALIZED : M bool :=
  fun w => Some (negb (sdk_initialized (env w)), w).

Definition CARDBOARD_IS_ARG_NULL {A} (arg : option A) : bool :=
  match arg with Some _ => false | None => true end.

Definition CardboardVulkanDistortionRenderer_create
    (config : option CardboardVulkanDistortionRendererConfig) : M pointer :=
  not_initialized <- CARDBOARD_IS_NOT_INITIALIZED ;;
  if not_initialized || CARDBOARD_IS_ARG_NULL config then ret nullptr
  else
    match config with
    | Some c => VulkanDistortionRenderer_ctor c ;; ret object
    | None => ret nullptr
    end.

(** ** Well-formed inputs and reachable objects *)

(** A mesh whose counts are non-negative [int]s with [2 * n_vertices - 1]
    an [int] too, and whose arrays hold at least the entries the counts
    announce. *)
Definition mesh_valid (mesh : CardboardMesh) : bool :=
  (0 <=? n_vertices mesh) && (2 * n_vertices mesh <=? CInt.INT_MAX + 1) &&
  (2 * n_vertices mesh <=? Z.of_nat (length (vertices mesh))) &&
  (2 * n_vertices mesh <=? Z.of_nat (length (uvs mesh))) &&
  (0 <=? n_indices mesh) && (n_indices mesh <=? CInt.INT_MAX) &&
  (n_indices mesh <=? Z.of_nat (length (indices mesh))).

(** What the constructor establishes and every method keeps: the per-eye
    vectors have one entry per swapchain image, and the image count fits
    an [int]. *)
Definition per_eye_sized (r : Renderer) (eye : CardboardEye) : bool :=
  (Z.of_nat (length (aget eye (image_views_ r))) =? swapchain_image_count_ r) &&
  (Z.of_nat (length (aget eye (descriptor_sets_ r))) =? swapchain_image_count_ r).

Definition renderer_inv (r : Renderer) : bool :=
  (0 <=? swapchain_image_count_ r) &&
  (swapchain_image_count_ r <=? CInt.INT_MAX) &&
  per_eye_sized r kLeft && per_eye_sized r kRight.

(** The slot a target decodes to, and whether it names a swapchain image. *)
Definition slot_of (target : CardboardVulkanDistortionRendererTarget) : Z :=
  CInt.to_uint32 (swapchain_image_index target).

Definition slot_valid (r : Renderer)
    (target : CardboardVulkanDistortionRendererTarget) : bool :=
  slot_of target <? swapchain_image_count_ r.

(** ** Reading traces *)

(** The calls a step appended to the trace. *)
Definition emitted (w w' : World) : list Vk.Call :=
  drop (length (Vk.calls (gpu w))) (Vk.calls (gpu w')).

(** Pipeline creations: render pass and the pipeline made. *)
Definition pipeline_builds (evs : list Vk.Call) : list (Z * Z) :=
  omap (fun c => match c with
                 | Vk.vkCreateGraphicsPipelines _ rp _ _ out => Some (rp, out)
                 | _ => None
                 end) evs.

Definition pipeline_destructions (evs : list Vk.Call) : list Z :=
  omap (fun c => match c with
                 | Vk.vkDestroyPipeline p => Some p
                 | _ => None
                 end) evs.

Definition bound_pipelines (evs : list Vk.Call) : list Z :=
  omap (fun c => match c with
                 | Vk.vkCmdBindPipeline _ p => Some p
                 | _ => None
                 end) evs.

Definition viewports_set (evs : list Vk.Call) : list Vk.VkViewport :=
  omap (fun c => match c with
                 | Vk.vkCmdSetViewport _ v => Some v
                 | _ => None
                 end) evs.

Definition scissors_set (evs : list Vk.Call) : list Vk.VkRect2D :=
  omap (fun c => match c with
                 | Vk.vkCmdSetScissor _ s => Some s
                 | _ => None
                 end) evs.

(** The buffers destroyed and the memories freed, in order. *)
Definition released (evs : list Vk.Call) : list Z :=
  omap (fun c => match c with
                 | Vk.vkDestroyBuffer h | Vk.vkFreeMemory h => Some h
                 | _ => None
                 end) evs.

(** The image views created and destroyed, in order. *)
Definition views_created (evs : list Vk.Call) : list Z :=
  omap (fun c => match c with
                 | Vk.vkCreateImageView _ out => Some out
                 | _ => None
                 end) evs.

Definition views_destroyed (evs : list Vk.Call) : list Z :=
  omap (fun c => match c with
                 | Vk.vkDestroyImageView h => Some h
                 | _ => None
                 end) evs.

(** The indexed draws of a command stream, each with the vertex and index
    buffers bound when it is issued, its index count and its instance
    count. *)
Fixpoint indexed_draws_from (vb ib : Z) (evs : list Vk.Call)
    : list (Z * Z * Z * Z) :=
  match evs with
  | [] => []
  | Vk.vkCmdBindVertexBuffers _ b _ :: rest => indexed_draws_from b ib rest
  | Vk.vkCmdBindIndexBuffer _ b _ _ :: rest => indexed_draws_from vb b rest
  | Vk.vkCmdDrawIndexed _ n inst _ _ _ :: rest =>
      (vb, ib, n, inst) :: indexed_draws_from vb ib rest
  | _ :: rest => indexed_draws_from vb ib rest
  end.

Definition indexed_draws (evs : list Vk.Call) : list (Z * Z * Z * Z) :=
  indexed_draws_from Vk.VK_NULL_HANDLE Vk.VK_NULL_HANDLE evs.

(** ** What each step is expected to do *)

(** The calls of one [CreateGraphicsPipeline], on a device whose next
    handle is [n]. *)
Definition pipeline_calls (r : Renderer) (eye : CardboardEye) (n : Z)
    : list Vk.Call :=
  (if bool_decide (aget eye (graphics_pipeline_ r) <> Vk.VK_NULL_HANDLE)
   then [Vk.vkDestroyPipeline (aget eye (graphics_pipeline_ r))] else []) ++
  [Vk.vkCreateShaderModule Vk.distortion_vert n;
   Vk.vkCreateShaderModule Vk.distortion_frag (n + 1);
   Vk.vkCreateGraphicsPipelines (pipeline_layout_ r) (current_render_pass_ r)
     n (n + 1) (n + 2);
   Vk.vkDestroyShaderModule n;
   Vk.vkDestroyShaderModule (n + 1)].

(** The viewport and the scissor [UpdateViewportAndScissor] computes from
    its arguments and the cached size of the draw region. *)
Definition eye_viewport (r : Renderer) (x y : Z) : Vk.VkViewport :=
  Vk.mkViewport (F32.of_Z x) (F32.of_Z y)
    (F32.of_Z (current_image_width_ r)) (F32.of_Z (current_image_height_ r))
    F32.zero F32.one.

Definition eye_scissor (r : Renderer) (eye : CardboardEye) (x y : Z)
    : Vk.VkRect2D :=
  Vk.mkRect2D
    (match eye with
     | kLeft => Vk.mkOffset2D x y
     | kRight =>
         Vk.mkOffset2D
           (CInt.to_int32
              (CInt.to_uint32 (CInt.to_uint32 x + current_image_width_ r / 2)))
           y
     end)
    (Vk.mkExtent2D (CInt.to_uint32 (current_image_width_ r / 2))
                   (CInt.to_uint32 (current_image_height_ r))).

Definition with_viewport_and_scissor (eye : CardboardEye) (x y : Z)
    (r : Renderer) : Renderer :=
  set_scissor_ (aset eye (eye_scissor r eye x y) (scissor_ r))
    (set_viewport_ (aset eye (eye_viewport r x y) (viewport_ r)) r).

(** The calls of one [RenderDistortionMesh], entered in state [r] with the
    slot's cached view [old], when the new view gets handle [view]. *)
Definition uniform_write_calls (r : Renderer) (eye : CardboardEye)
    (desc : CardboardEyeTextureDescription) : list Vk.Call :=
  let m := aget eye (uniform_buffers_memory_ r) in
  [Vk.vkMapMemory m 0 sizeof_UniformBufferObject;
   Vk.host_memcpy m
     (UniformBufferObject_bytes
        (mkUbo (left_u desc) (right_u desc) (top_v desc) (bottom_v desc)))
     sizeof_UniformBufferObject;
   Vk.vkUnmapMemory m].

Definition clean_view_calls (old : Z) : list Vk.Call :=
  if bool_decide (old <> Vk.VK_NULL_HANDLE) then [Vk.vkDestroyImageView old]
  else [].

Definition descriptor_update_call (r : Renderer) (eye : CardboardEye)
    (set view : Z) : Vk.Call :=
  Vk.vkUpdateDescriptorSets
    [Vk.mkWrite set 0 (Vk.ImageInfo (texture_sampler_ r) view);
     Vk.mkWrite set 1
       (Vk.BufferInfo (aget eye (uniform_buffers_ r)) 0
          sizeof_UniformBufferObject)].

Definition bind_and_draw_calls (r : Renderer) (eye : CardboardEye)
    (command_buffer set : Z) : list Vk.Call :=
  [Vk.vkCmdBindPipeline command_buffer (aget eye (graphics_pipeline_ r));
   Vk.vkCmdSetViewport command_buffer (aget eye (viewport_ r));
   Vk.vkCmdSetScissor command_buffer (aget eye (scissor_ r));
   Vk.vkCmdBindVertexBuffers command_buffer (aget eye (vertex_buffers_ r)) 0;
   Vk.vkCmdBindIndexBuffer command_buffer (aget eye (index_buffers_ r)) 0
     Vk.VK_INDEX_TYPE_UINT16;
   Vk.vkCmdBindDescriptorSets command_buffer (pipeline_layout_ r) set;
   Vk.vkCmdDrawIndexed command_buffer (CInt.to_uint32 (indices_count_ r))
     1 0 0 0].

Definition eye_calls (r : Renderer) (eye : CardboardEye)
    (desc : CardboardEyeTextureDescription)
    (command_buffer old set view : Z) : list Vk.Call :=
  uniform_write_calls r eye desc ++
  clean_view_calls old ++
  [Vk.vkCreateImageView (texture desc) view;
   descriptor_update_call r eye set view] ++
  bind_and_draw_calls r eye command_buffer set.

(** The state one valid [RenderEyeToDisplay] leaves, step by step: the
    cached size, the pipelines when the render pass changed, then for each
    eye its viewport and scissor and the new view in the slot. *)
Definition with_size (width height : Z) (r : Renderer) : Renderer :=
  set_current_image_height_ (CInt.to_uint32 height)
    (set_current_image_width_ (CInt.to_uint32 width) r).

Definition render_pass_changed (r : Renderer)
    (target : CardboardVulkanDistortionRendererTarget) : bool :=
  bool_decide (vk_render_pass target <> current_render_pass_ r).

Definition with_pipelines (render_pass n : Z) (r : Renderer) : Renderer :=
  set_graphics_pipeline_ (mkArr2 (n + 2) (n + 5))
    (set_current_render_pass_ render_pass r).

Definition rebuild_calls (render_pass n : Z) (r : Renderer) : list Vk.Call :=
  pipeline_calls (set_current_render_pass_ render_pass r) kLeft n ++
  pipeline_calls (set_current_render_pass_ render_pass r) kRight (n + 3).

Definition with_view (eye : CardboardEye) (slot view : Z) (r : Renderer)
    : Renderer :=
  set_image_views_
    (aset eye (<[Z.to_nat slot := view]> (aget eye (image_views_ r)))
          (image_views_ r)) r.

Definition cached_view (r : Renderer) (eye : CardboardEye) (slot : Z) : Z :=
  default Vk.VK_NULL_HANDLE (at_index (aget eye (image_views_ r)) slot).

Definition slot_set (r : Renderer) (eye : CardboardEye) (slot : Z) : Z :=
  default Vk.VK_NULL_HANDLE (at_index (aget eye (descriptor_sets_ r)) slot).

Record Frame := mkFrame {
  frame_rebuild : list Vk.Call;
  frame_left_state : Renderer;
  frame_left : list Vk.Call;
  frame_right_state : Renderer;
  frame_right : list Vk.Call;
  frame_final : Renderer;
  frame_next : Z }.

Definition frame_of (r : Renderer) (n : Z)
    (target : CardboardVulkanDistortionRendererTarget) (x y width height : Z)
    (left_eye right_eye : CardboardEyeTextureDescription) : Frame :=
  let slot := slot_of target in
  let cb := vk_command_buffer target in
  let changed := render_pass_changed r target in
  let r1 := with_size width height r in
  let r2 := if changed then with_pipelines (vk_render_pass target) n r1 else r1 in
  let k := if changed then 6 else 0 in
  let r3 := with_viewport_and_scissor kLeft x y r2 in
  let r4 := with_view kLeft slot (n + k) r3 in
  let r5 := with_viewport_and_scissor kRight x y r4 in
  let r6 := with_view kRight slot (n + k + 1) r5 in
  mkFrame
    (if changed then rebuild_calls (vk_render_pass target) n r1 else [])
    r3
    (eye_calls r3 kLeft left_eye cb (cached_view r kLeft slot)
               (slot_set r kLeft slot) (n + k))
    r5
    (eye_calls r5 kRight right_eye cb (cached_view r kRight slot)
               (slot_set r kRight slot) (n + k + 1))
    r6
    (n + k + 2).

Definition frame_calls (f : Frame) : list Vk.Call :=
  frame_rebuild f ++ frame_left f ++ frame_right f.

(** ** What [SetMesh] is expected to upload *)

(** The interleaved vertex sequence: vertex [i] is
    [(positions[2i], positions[2i+1], uvs[2i], uvs[2i+1])], for [i] below
    [n_vertices]. *)
Definition vertex_at (mesh : CardboardMesh) (i : nat) : Vertex :=
  mkVertex (nth (2 * i) (vertices mesh) F32.zero)
           (nth (2 * i + 1) (vertices mesh) F32.zero)
           (nth (2 * i) (uvs mesh) F32.zero)
           (nth (2 * i + 1) (uvs mesh) F32.zero).

Definition interleaved (mesh : CardboardMesh) : list Vertex :=
  vertex_at mesh <$> seq 0 (Z.to_nat (n_vertices mesh)).

(** The first [n_indices] indices, each reduced to 16 bits. *)
Definition truncated (mesh : CardboardMesh) : list Z :=
  (fun i => CInt.to_uint16 (nth i (indices mesh) 0)) <$>
    seq 0 (Z.to_nat (n_indices mesh)).

Definition vertex_data (mesh : CardboardMesh) : list byte :=
  mjoin (Vertex_bytes <$> interleaved mesh).

Definition index_data (mesh : CardboardMesh) : list byte :=
  mjoin (Mem.uint16_bytes <$> truncated mesh).

(** The members [SetMesh] assigns: the four handles of [eye] and the
    shared count. *)
Definition with_mesh (eye : CardboardEye) (vb vm ib im count : Z)
    (r : Renderer) : Renderer :=
  set_indices_count_ count
    (set_index_buffers_memory_ (aset eye im (index_buffers_memory_ r))
       (set_index_buffers_ (aset eye ib (index_buffers_ r))
          (set_vertex_buffers_memory_ (aset eye vm (vertex_buffers_memory_ r))
             (set_vertex_buffers_ (aset eye vb (vertex_buffers_ r)) r)))).

(** A sequence of [SetMesh] calls. *)
Fixpoint SetMeshes (calls : list (CardboardMesh * CardboardEye)) : M unit :=
  match calls with
  | [] => ret tt
  | (mesh, eye) :: rest => SetMesh mesh eye ;; SetMeshes rest
  end.

(** ** Orders and shapes the specification speaks of *)

(** The calls a step makes from [w], none when it is undefined. *)
Definition calls_of (m : M unit) (w : World) : list Vk.Call :=
  match m w with
  | Some (_, w') => emitted w w'
  | None => []
  end.

(** The order as the specification lists it: the slot's old view goes,
    the new view comes, the descriptor set is updated, the remap
    rectangle is written, everything is bound, the draw is issued. *)
Definition listed_phase (c : Vk.Call) : option nat :=
  match c with
  | Vk.vkDestroyImageView _ => Some 0%nat
  | Vk.vkCreateImageView _ _ => Some 1%nat
  | Vk.vkUpdateDescriptorSets _ => Some 2%nat
  | Vk.vkMapMemory _ _ _ | Vk.host_memcpy _ _ _ | Vk.vkUnmapMemory _ =>
      Some 3%nat
  | Vk.vkCmdBindPipeline _ _ | Vk.vkCmdSetViewport _ _
  | Vk.vkCmdSetScissor _ _ | Vk.vkCmdBindVertexBuffers _ _ _
  | Vk.vkCmdBindIndexBuffer _ _ _ _ | Vk.vkCmdBindDescriptorSets _ _ _ =>
      Some 4%nat
  | Vk.vkCmdDrawIndexed _ _ _ _ _ _ => Some 5%nat
  | _ => None
  end.

Fixpoint nondecreasing (l : list nat) : bool :=
  match l with
  | a :: (b :: _) as rest => (a <=? b)%nat && nondecreasing rest
  | _ => true
  end.

Definition in_listed_order (evs : list Vk.Call) : bool :=
  nondecreasing (omap listed_phase evs).

(** Every image view a descriptor write names was created earlier in the
    same stream and not destroyed since. *)
Definition names_only (live : list Z) (w : Vk.VkWriteDescriptorSet) : bool :=
  match Vk.info w with
  | Vk.ImageInfo _ view => bool_decide (view ∈ live)
  | Vk.BufferInfo _ _ _ => true
  end.

Fixpoint writes_after_creation (live : list Z) (evs : list Vk.Call) : bool :=
  match evs with
  | [] => true
  | Vk.vkCreateImageView _ out :: rest => writes_after_creation (out :: live) rest
  | Vk.vkDestroyImageView h :: rest =>
      writes_after_creation (filter (fun v => v <> h) live) rest
  | Vk.vkUpdateDescriptorSets ws :: rest =>
      forallb (names_only live) ws && writes_after_creation live rest
  | _ :: rest => writes_after_creation live rest
  end.

(** Calls that only build or drop pipelines and shader modules. *)
Definition is_pipeline_call (c : Vk.Call) : bool :=
  match c with
  | Vk.vkCreateShaderModule _ _ | Vk.vkDestroyShaderModule _
  | Vk.vkCreateGraphicsPipelines _ _ _ _ _ | Vk.vkDestroyPipeline _ => true
  | _ => false
  end.

(** The split as the specification words it: each eye a half-width,
    full-height column, at x-offset 0 for the left eye and
    [x + width / 2] for the right eye, viewport and scissor alike. *)
Definition column_x (eye : CardboardEye) (x width : Z) : Z :=
  match eye with kLeft => 0 | kRight => x + width / 2 end.

Definition column_viewport (eye : CardboardEye) (x y width height : Z)
    : Vk.VkViewport :=
  Vk.mkViewport (F32.of_Z (column_x eye x width)) (F32.of_Z y)
    (F32.of_Z (width / 2)) (F32.of_Z height) F32.zero F32.one.

Definition column_scissor (eye : CardboardEye) (x y width height : Z)
    : Vk.VkRect2D :=
  Vk.mkRect2D (Vk.mkOffset2D (column_x eye x width) y)
              (Vk.mkExtent2D (width / 2) height).

Definition split_in_columns (w : World)
    (target : CardboardVulkanDistortionRendererTarget) (x y width height : Z)
    (left_eye right_eye : CardboardEyeTextureDescription) : Prop :=
  exists w',
    RenderEyeToDisplay target x y width height left_eye right_eye w =
      Some (tt, w') /\
    forall eye,
      aget eye (viewport_ (this w')) = column_viewport eye x y width height /\
      aget eye (scissor_ (this w')) = column_scissor eye x y width height.

(** The split the code makes: the viewport is the whole draw region for
    both eyes, the scissor is the eye's half. *)
Definition region_viewport (x y width height : Z) : Vk.VkViewport :=
  Vk.mkViewport (F32.of_Z x) (F32.of_Z y) (F32.of_Z width) (F32.of_Z height)
    F32.zero F32.one.

Definition half_scissor (eye : CardboardEye) (x y width height : Z)
    : Vk.VkRect2D :=
  Vk.mkRect2D
    (Vk.mkOffset2D (match eye with kLeft => x | kRight => x + width / 2 end) y)
    (Vk.mkExtent2D (width / 2) height).

(** A draw region whose sizes are non-negative [int]s and whose middle
    [x + width / 2] is an [int]. *)
Definition region_in_range (x width height : Z) : bool :=
  (0 <=? width) && (width <=? CInt.INT_MAX) &&
  (0 <=? height) && (height <=? CInt.INT_MAX) &&
  (CInt.INT_MIN <=? x + width / 2) && (x + width / 2 <=? CInt.INT_MAX).

(** The eye draw in the listed order. *)
Definition eye_draw_in_listed_order (w : World)
    (desc : CardboardEyeTextureDescription) (eye : CardboardEye)
    (command_buffer image_index : Z) : Prop :=
  exists w',
    RenderDistortionMesh desc eye command_buffer image_index w = Some (tt, w') /\
    in_listed_order (emitted w w') = true.

(** The factory as the specification words it: null exactly when the
    loader fails or the configuration is absent. *)
Definition null_iff_loader_or_config (w : World)
    (config : option CardboardVulkanDistortionRendererConfig) : Prop :=
  exists p w',
    CardboardVulkanDistortionRenderer_create config w = Some (p, w') /\
    (p = nullptr <-> vulkan_loadable (env w) = false \/ config = None).

(** ** A device, a swapchain of two images and a quad *)

Module Fixture.

Definition viewport0 : Vk.VkViewport :=
  Vk.mkViewport F32.zero F32.zero F32.zero F32.zero F32.zero F32.zero.
Definition scissor0 : Vk.VkRect2D :=
  Vk.mkRect2D (Vk.mkOffset2D 0 0) (Vk.mkExtent2D 0 0).

(** Storage as [new] may return it: every member holds leftovers. *)
Definition storage : Renderer :=
  mkRenderer 11 12 13 14 15 16 17 18 19 20 21 [22] [23]
    (mkArr2 viewport0 viewport0) (mkArr2 scissor0 scissor0)
    (mkArr2 24 25) (mkArr2 26 27) (mkArr2 28 29) (mkArr2 30 31)
    (mkArr2 32 33) (mkArr2 34 35) (mkArr2 36 37) (mkArr2 38 39)
    (mkArr2 [40] [41]) (mkArr2 [42] [43]).

(** One host-visible, host-coherent memory type; swapchain 77 has the
    images 901 and 902. *)
Definition device : Vk.Device :=
  Vk.mkDevice 1 ∅ [] {[ 77 := [901; 902] ]} [6] 1.

Definition fresh (e : Env) : World := mkWorld storage device [] e.

Definition config : CardboardVulkanDistortionRendererConfig :=
  mkConfig 5 6 77.

Definition floats (l : list Z) : list F32.t := F32.of_Z <$> l.

(** Four vertices, six indices (the last one needs more than 16 bits). *)
Definition quad : CardboardMesh :=
  mkMesh [0; 1; 2; 2; 1; 70000] 6
         (floats [0; 0; 1; 0; 0; 1; 1; 1])
         (floats [0; 0; 1; 0; 0; 1; 1; 1]) 4.

(** Three vertices, three indices. *)
Definition triangle : CardboardMesh :=
  mkMesh [0; 1; 2] 3 (floats [0; 0; 1; 0; 0; 1]) (floats [0; 0; 1; 0; 0; 1]) 3.

Definition left_texture : CardboardEyeTextureDescription :=
  mkEyeTexture 500 F32.zero F32.one F32.zero F32.one.
Definition right_texture : CardboardEyeTextureDescription :=
  mkEyeTexture 501 F32.zero F32.one F32.zero F32.one.

(** Render pass 300, command buffer 400. *)
Definition target (slot : Z) : CardboardVulkanDistortionRendererTarget :=
  mkTarget 300 400 slot.

Definition after (m : M unit) (w : World) : World :=
  match m w with
  | Some (_, w') => w'
  | None => w
  end.

(** The renderer built by the factory, then given the quad for both
    eyes. *)
Definition built : World :=
  Eval vm_compute in
    after (CardboardVulkanDistortionRenderer_create (Some config) ;; ret tt)
          (fresh (mkEnv true true)).

Definition ready : World :=
  Eval vm_compute in
    after (SetMesh quad kLeft ;; SetMesh quad kRight) built.

(** The same with one frame drawn into slot 0. *)
Definition drawn : World :=
  Eval vm_compute in
    after (RenderEyeToDisplay (target 0) 0 0 1000 500
             left_texture right_texture) ready.

End Fixture.

(** ** Further readers, expected traces and the ledger of live objects *)

(** Whether memory type [i] passes the two tests of [FindMemoryType]: its
    bit is set in the filter, and its flags include every requested
    property. *)
Definition suitable (typeFilter properties : Z) (types : list Z) (i : nat) : bool :=
  Z.testbit typeFilter (Z.of_nat i) &&
  match types !! i with
  | Some flags => Z.land flags properties =? properties
  | None => false
  end.

(** The memory type [CreateBuffer] asks for on device [d], and what
    [FindMemoryType] logs on the way. *)
Definition found_memory_type (d : Vk.Device) : option Z :=
  first_suitable (Vk.memory_type_bits d) host_visible_coherent 0
    (Vk.memory_types d).

Definition memory_type_log (d : Vk.Device) : list string :=
  match found_memory_type d with
  | Some _ => []
  | None => ["Failed to find suitable memory type!"%string]
  end.

(** The calls of one [CreateBuffer] followed by the upload of [data]. *)
Definition buffer_calls (r : Renderer) (size usage type_index n : Z)
    : list Vk.Call :=
  [Vk.vkCreateBuffer size usage n;
   Vk.vkGetBufferMemoryRequirements n;
   Vk.vkGetPhysicalDeviceMemoryProperties (physical_device_ r);
   Vk.vkAllocateMemory size type_index (n + 1);
   Vk.vkBindBufferMemory n (n + 1) 0].

(** The upload of [data] into the memory of the buffer [n]. *)
Definition upload_calls (size n : Z) (data : list byte) : list Vk.Call :=
  [Vk.vkMapMemory (n + 1) 0 size;
   Vk.host_memcpy (n + 1) data size;
   Vk.vkUnmapMemory (n + 1)].

(** The calls of one [SetMesh] on a device whose next handle is [n]. *)
Definition mesh_calls (r : Renderer) (mesh : CardboardMesh) (type_index n : Z)
    : list Vk.Call :=
  buffer_calls r (n_vertices mesh * 16) Vk.VK_BUFFER_USAGE_VERTEX_BUFFER_BIT
    type_index n ++
  upload_calls (n_vertices mesh * 16) n (vertex_data mesh) ++
  buffer_calls r (n_indices mesh * 2) Vk.VK_BUFFER_USAGE_INDEX_BUFFER_BIT
    type_index (n + 2) ++
  upload_calls (n_indices mesh * 2) (n + 2) (index_data mesh).

(** Calls that destroy an object or free a memory. *)
Definition is_release (c : Vk.Call) : bool :=
  match c with
  | Vk.vkDestroyShaderModule _ | Vk.vkDestroyDescriptorSetLayout _
  | Vk.vkDestroyPipelineLayout _ | Vk.vkDestroySampler _
  | Vk.vkDestroyDescriptorPool _ | Vk.vkDestroyPipeline _
  | Vk.vkDestroyBuffer _ | Vk.vkFreeMemory _ | Vk.vkDestroyImageView _ => true
  | _ => false
  end.

(** A buffer of [uint16_t]s read back. *)
Fixpoint read_uint16s (bs : list byte) : list Z :=
  match bs with
  | b0 :: b1 :: rest => Mem.le_value [b0; b1] :: read_uint16s rest
  | _ => []
  end.

(** A value that fits [uint16_t]. *)
Definition is_uint16 (i : Z) : bool := (0 <=? i) && (i <? 2 ^ 16).

(** Variants of the fixture. *)
Module Variants.



(** A mesh announcing three indices and holding two. *)
Definition short_indices : CardboardMesh :=
  mkMesh [0; 1] 3 (Fixture.floats [0; 0; 1; 0; 0; 1])
         (Fixture.floats [0; 0; 1; 0; 0; 1]) 3.

End Variants.

(** The handle offset of the first view a frame creates: six handles go
    to the pipelines and their shader modules when the render pass
    changed. *)
Definition views_base (r : Renderer)
    (t : CardboardVulkanDistortionRendererTarget) (n : Z) : Z :=
  n + (if render_pass_changed r t then 6 else 0).

(** The destruction a cleaning helper issues for handle [h]. *)
Definition unless_null (c : Z -> Vk.Call) (h : Z) : list Vk.Call :=
  if bool_decide (h <> Vk.VK_NULL_HANDLE) then [c h] else [].

(** The live objects once [h] is destroyed, if it is not null. *)
Definition without (h : Z) (o : gmap Z Vk.Object) : gmap Z Vk.Object :=
  if bool_decide (h <> Vk.VK_NULL_HANDLE) then delete h o else o.

(** What the device holds: the bindings of a descriptor set and the image
    behind a view. *)
Definition descriptor_bindings (d : Vk.Device) (set : Z)
    : option (list (Z * Vk.DescriptorInfo)) :=
  match Vk.objects d !! set with
  | Some (Vk.ODescriptorSet _ bs) => Some bs
  | _ => None
  end.

Definition viewed_image (d : Vk.Device) (view : Z) : option Z :=
  match Vk.objects d !! view with
  | Some (Vk.OImageView image) => Some image
  | _ => None
  end.

(** A slot that names a swapchain image. *)
Definition slot_in_range (r : Renderer) (slot : Z) : bool :=
  (0 <=? slot) && (slot <? swapchain_image_count_ r).

(** Whether slot [target] names one of the images of the swapchain the
    configuration gives. *)
Definition slot_of_swapchain (d : Vk.Device)
    (config : CardboardVulkanDistortionRendererConfig)
    (target : CardboardVulkanDistortionRendererTarget) : bool :=
  (slot_of target <? Z.of_nat (length (Vk.images_of (vk_swapchain config) d))) &&
  (Z.of_nat (length (Vk.images_of (vk_swapchain config) d)) <=? CInt.INT_MAX).

(** ** The ledger of a trace

    What a trace leaves live, as pairs of a handle and, for a descriptor
    set, its pool: every creation enters the handle it made
    (a descriptor set with the pool it came from), every destruction
    strikes the handle out, and the destruction of a pool strikes out its
    sets as well. *)

Definition entry : Type := Z * option Z.

Definition struck (h : Z) (T : list entry) : list entry :=
  filter (fun x => x.1 <> h) T.

Definition ledger_step (T : list entry) (c : Vk.Call) : list entry :=
  match c with
  | Vk.vkCreateShaderModule _ out | Vk.vkCreateDescriptorSetLayout out
  | Vk.vkCreatePipelineLayout _ out | Vk.vkCreateSampler out
  | Vk.vkCreateDescriptorPool _ out
  | Vk.vkCreateGraphicsPipelines _ _ _ _ out | Vk.vkCreateBuffer _ _ out
  | Vk.vkAllocateMemory _ _ out | Vk.vkCreateImageView _ out =>
      (out, None) :: T
  | Vk.vkAllocateDescriptorSets pool _ out =>
      ((fun h => (h, Some pool)) <$> out) ++ T
  | Vk.vkDestroyShaderModule h | Vk.vkDestroyDescriptorSetLayout h
  | Vk.vkDestroyPipelineLayout h | Vk.vkDestroySampler h
  | Vk.vkDestroyPipeline h | Vk.vkDestroyBuffer h | Vk.vkFreeMemory h
  | Vk.vkDestroyImageView h => struck h T
  | Vk.vkDestroyDescriptorPool p =>
      filter (fun x => x.2 <> Some p) (struck p T)
  | _ => T
  end.

Definition ledger (T : list entry) (evs : list Vk.Call) : list entry :=
  foldl ledger_step T evs.

Definition pool_of (ob : Vk.Object) : option Z :=
  match ob with
  | Vk.ODescriptorSet p _ => Some p
  | _ => None
  end.

(** The ledger accounts for the table of live objects. *)
Definition covers (T : list entry) (o : gmap Z Vk.Object) : Prop :=
  forall h ob, o !! h = Some ob -> (h, pool_of ob) ∈ T.

(** Device [d'] follows [d] by some calls that take any ledger accounting
    for the objects of [d] to one accounting for the objects of [d']. *)
Definition in_step (d d' : Vk.Device) : Prop :=
  exists evs,
    Vk.calls d' = Vk.calls d ++ evs /\
    forall T, covers T (Vk.objects d) -> covers (ledger T evs) (Vk.objects d').

(** A computation keeps the ledger in step when every result does. *)
Definition tracked {A} (m : M A) : Prop :=
  forall w a w', m w = Some (a, w') -> in_step (gpu w) (gpu w').

(** The calls of the destructor: per swapchain image the two cached views
    (unless null) and the swapchain view, then the shared objects, the
    pools, the pipelines (unless null) and the six buffers with their
    memories. *)
Definition slot_release_calls (r : Renderer) (i : nat) : list Vk.Call :=
  unless_null Vk.vkDestroyImageView
    (nth i (aget kLeft (image_views_ r)) Vk.VK_NULL_HANDLE) ++
  unless_null Vk.vkDestroyImageView
    (nth i (aget kRight (image_views_ r)) Vk.VK_NULL_HANDLE) ++
  [Vk.vkDestroyImageView (nth i (swapchain_views_ r) Vk.VK_NULL_HANDLE)].

Definition buffer_release_calls (buffers memories : arr2 Z) : list Vk.Call :=
  [Vk.vkDestroyBuffer (aget kLeft buffers); Vk.vkFreeMemory (aget kLeft memories);
   Vk.vkDestroyBuffer (aget kRight buffers); Vk.vkFreeMemory (aget kRight memories)].

Definition shared_release_calls (r : Renderer) : list Vk.Call :=
  [Vk.vkDestroySampler (texture_sampler_ r);
   Vk.vkDestroyPipelineLayout (pipeline_layout_ r);
   Vk.vkDestroyDescriptorSetLayout (descriptor_set_layout_ r);
   Vk.vkDestroyDescriptorPool (aget kLeft (descriptor_pool_ r));
   Vk.vkDestroyDescriptorPool (aget kRight (descriptor_pool_ r))] ++
  unless_null Vk.vkDestroyPipeline (aget kLeft (graphics_pipeline_ r)) ++
  unless_null Vk.vkDestroyPipeline (aget kRight (graphics_pipeline_ r)) ++
  buffer_release_calls (index_buffers_ r) (index_buffers_memory_ r) ++
  buffer_release_calls (vertex_buffers_ r) (vertex_buffers_memory_ r) ++
  buffer_release_calls (uniform_buffers_ r) (uniform_buffers_memory_ r).

Definition dtor_calls (r : Renderer) : list Vk.Call :=
  mjoin (slot_release_calls r <$> seq 0 (Z.to_nat (swapchain_image_count_ r))) ++
  shared_release_calls r.

(** What the destructor needs of the object: the invariant of the methods,
    and one swapchain view per image. *)
Definition destructible (r : Renderer) : bool :=
  renderer_inv r &&
  (Z.of_nat (length (swapchain_views_ r)) =? swapchain_image_count_ r).

(** A vector whose first [i] entries have been set to null. *)
Definition nulled (i : nat) (v : list Z) : list Z :=
  replicate i Vk.VK_NULL_HANDLE ++ drop i v.

(** [k] consecutive handles from [n]. *)
Definition consecutive (n : Z) (k : nat) : list Z :=
  (fun i => n + Z.of_nat i) <$> seq 0 k.

(** The calls of the constructor on a device whose next handle is [n],
    for a swapchain with the images [imgs]. *)
Definition view_calls (n : Z) (imgs : list Z) (k : nat) : list Vk.Call :=
  (fun i => Vk.vkCreateImageView (nth i imgs Vk.VK_NULL_HANDLE) (n + Z.of_nat i))
    <$> seq 0 k.

Definition eye_setup_calls (r : Renderer) (type_index n : Z) : list Vk.Call :=
  let k := Z.to_nat (swapchain_image_count_ r) in
  [Vk.vkCreateDescriptorPool (CInt.to_uint32 (swapchain_image_count_ r)) n] ++
  buffer_calls r sizeof_UniformBufferObject Vk.VK_BUFFER_USAGE_UNIFORM_BUFFER_BIT
    type_index (n + 1) ++
  [Vk.vkAllocateDescriptorSets n (replicate k (descriptor_set_layout_ r))
     (consecutive (n + 3) k)].

(** The members [CreatePerEyeVulkanObjects] assigns. *)
Definition with_eye_objects (eye : CardboardEye) (n : Z) (r : Renderer)
    : Renderer :=
  let k := Z.to_nat (swapchain_image_count_ r) in
  set_image_views_
    (aset eye (replicate k Vk.VK_NULL_HANDLE) (image_views_ r))
    (set_descriptor_sets_ (aset eye (consecutive (n + 3) k) (descriptor_sets_ r))
       (set_uniform_buffers_memory_ (aset eye (n + 2) (uniform_buffers_memory_ r))
          (set_uniform_buffers_ (aset eye (n + 1) (uniform_buffers_ r))
             (set_descriptor_pool_ (aset eye n (descriptor_pool_ r)) r)))).

(** The object the constructor leaves, from the storage [raw]. *)
Definition with_shared_objects
    (config : CardboardVulkanDistortionRendererConfig) (n : Z) (imgs : list Z)
    (raw : Renderer) : Renderer :=
  set_swapchain_views_ (consecutive (n + 3) (length imgs))
    (set_swapchain_images_ imgs
       (set_swapchain_image_count_ (Z.of_nat (length imgs))
          (set_texture_sampler_ (n + 2)
             (set_pipeline_layout_ (n + 1)
                (set_descriptor_set_layout_ n
                   (set_current_image_height_ 0
                      (set_current_image_width_ 0
                         (set_swapchain_ (vk_swapchain config)
                            (set_logical_device_ (logical_device config)
                               (set_physical_device_ (physical_device config)
                                  (member_init raw))))))))))).

Definition ctor_state (config : CardboardVulkanDistortionRendererConfig)
    (n : Z) (imgs : list Z) (raw : Renderer) : Renderer :=
  let k := Z.of_nat (length imgs) in
  with_eye_objects kRight (n + 6 + 2 * k)
    (with_eye_objects kLeft (n + 3 + k)
       (with_shared_objects config n imgs raw)).

Definition ctor_calls (config : CardboardVulkanDistortionRendererConfig)
    (n : Z) (imgs : list Z) (type_index : Z) (raw : Renderer) : list Vk.Call :=
  let k := Z.of_nat (length imgs) in
  let r := with_shared_objects config n imgs raw in
  [Vk.vkGetSwapchainImagesKHR (vk_swapchain config) false;
   Vk.vkCreateDescriptorSetLayout n;
   Vk.vkCreatePipelineLayout n (n + 1);
   Vk.vkGetPhysicalDeviceProperties (physical_device config);
   Vk.vkCreateSampler (n + 2);
   Vk.vkGetSwapchainImagesKHR (vk_swapchain config) true] ++
  view_calls (n + 3) imgs (length imgs) ++
  eye_setup_calls r type_index (n + 3 + k) ++
  eye_setup_calls r type_index (n + 6 + 2 * k).

(** ** What the object holds

    The handles the destructor releases: the shared objects, the pools,
    the uniform buffers, the swapchain views, and the pipelines and cached
    texture views that are not null; and, per eye, the mesh buffers. *)
Definition nonnull (l : list Z) : list Z :=
  filter (fun h => h <> Vk.VK_NULL_HANDLE) l.

Definition held (r : Renderer) : list Z :=
  [descriptor_set_layout_ r; pipeline_layout_ r; texture_sampler_ r;
   aget kLeft (descriptor_pool_ r); aget kRight (descriptor_pool_ r);
   aget kLeft (uniform_buffers_ r); aget kLeft (uniform_buffers_memory_ r);
   aget kRight (uniform_buffers_ r); aget kRight (uniform_buffers_memory_ r)] ++
  swapchain_views_ r ++
  nonnull [aget kLeft (graphics_pipeline_ r); aget kRight (graphics_pipeline_ r)] ++
  nonnull (aget kLeft (image_views_ r)) ++
  nonnull (aget kRight (image_views_ r)).

Definition mesh_held (r : Renderer) (eye : CardboardEye) : list Z :=
  [aget eye (vertex_buffers_ r); aget eye (vertex_buffers_memory_ r);
   aget eye (index_buffers_ r); aget eye (index_buffers_memory_ r)].

(** Every entry of the ledger is a handle the object holds (the mesh
    buffers of the eyes in [eyes] included) or a descriptor set of one of
    its pools. *)
Definition accounted (eyes : list CardboardEye) (r : Renderer)
    (T : list entry) : Prop :=
  forall h tag, (h, tag) ∈ T ->
    match tag with
    | None => h ∈ held r \/ exists eye, eye ∈ eyes /\ h ∈ mesh_held r eye
    | Some p =>
        p = aget kLeft (descriptor_pool_ r) \/
        p = aget kRight (descriptor_pool_ r)
    end.

Definition settled (eyes : list CardboardEye) (w : World) (T : list entry)
    : Prop :=
  destructible (this w) = true /\
  0 < Vk.next_handle (gpu w) /\
  accounted eyes (this w) T.

(** The arguments of one [RenderEyeToDisplay], and a sequence of frames. *)
Record FrameArgs := mkFrameArgs {
  fa_target : CardboardVulkanDistortionRendererTarget;
  fa_x : Z; fa_y : Z; fa_width : Z; fa_height : Z;
  fa_left_eye : CardboardEyeTextureDescription;
  fa_right_eye : CardboardEyeTextureDescription }.

Definition RenderFrame (f : FrameArgs) : M unit :=
  RenderEyeToDisplay (fa_target f) (fa_x f) (fa_y f) (fa_width f) (fa_height f)
    (fa_left_eye f) (fa_right_eye f).

Fixpoint RenderFrames (frames : list FrameArgs) : M unit :=
  match frames with
  | [] => ret tt
  | f :: rest => RenderFrame f ;; RenderFrames rest
  end.

(** The life of a renderer: built by the factory, given a mesh for each
    eye, used for some frames and destroyed. *)
Definition lifecycle (config : CardboardVulkanDistortionRendererConfig)
    (left_mesh right_mesh : CardboardMesh) (frames : list FrameArgs) : M unit :=
  CardboardVulkanDistortionRenderer_create (Some config) ;;
  SetMesh left_mesh kLeft ;;
  SetMesh right_mesh kRight ;;
  RenderFrames frames ;;
  VulkanDistortionRenderer_dtor.

(** Whether a call strikes an entry out. *)
Definition strikes (c : Vk.Call) (x : entry) : Prop :=
  match c with
  | Vk.vkDestroyShaderModule h | Vk.vkDestroyDescriptorSetLayout h
  | Vk.vkDestroyPipelineLayout h | Vk.vkDestroySampler h
  | Vk.vkDestroyPipeline h | Vk.vkDestroyBuffer h | Vk.vkFreeMemory h
  | Vk.vkDestroyImageView h => x.1 = h
  | Vk.vkDestroyDescriptorPool p => x.1 = p \/ x.2 = Some p
  | _ => False
  end.

(** * Proofs *)

#[local] Arguments CInt.to_uint32 : simpl never.
#[local] Arguments CInt.to_int32 : simpl never.
#[local] Arguments CInt.to_uint64 : simpl never.
#[local] Arguments CInt.to_uint16 : simpl never.
#[local] Arguments F32.of_Z : simpl never.
#[local] Arguments Z.to_nat : simpl never.
#[local] Arguments Z.of_nat : simpl never.
#[local] Arguments UniformBufferObject_bytes : simpl never.
#[local] Arguments Vertex_bytes : simpl never.
#[local] Arguments Mem.memcpy : simpl never.
#[local] Arguments Mem.uint16_bytes : simpl never.
#[local] Arguments sizeof_UniformBufferObject : simpl never.
#[local] Arguments CreateSwapchainImageViews : simpl never.
#[local] Arguments CreatePerEyeVulkanObjects : simpl never.
#[local] Arguments VulkanDistortionRenderer_ctor : simpl never.

(** ** Tactics *)

(** Symbolic execution of the monadic code: the monad, the references and
    the device double are unfolded, the methods are not. *)
Ltac run :=
  cbv [bind ret get put vk vk_ defined CALL_VK CARDBOARD_LOGE update load
       store elem this gpu logcat env fst snd
       Vk.create Vk.destroy Vk.record Vk.Cmd Vk.MapMemory Vk.UnmapMemory
       Vk.update Vk.CreateBuffer Vk.AllocateMemory
       Vk.GetBufferMemoryRequirements Vk.GetPhysicalDeviceMemoryProperties
       Vk.BindBufferMemory Vk.host_write
       graphics_pipeline_at vertex_buffers_at vertex_buffers_memory_at
       index_buffers_at index_buffers_memory_at uniform_buffers_at
       uniform_buffers_memory_at descriptor_pool_at descriptor_sets_at
       image_views_at viewport_at scissor_at];
  cbn.

(** Assignments to members of an explicit object, flattened. *)
Ltac flat :=
  cbv [Vk.update with_size with_pipelines with_view with_viewport_and_scissor
       set_physical_device_ set_logical_device_ set_swapchain_ set_current_render_pass_ set_current_image_width_ set_current_image_height_ set_indices_count_ set_swapchain_image_count_ set_texture_sampler_ set_descriptor_set_layout_ set_pipeline_layout_ set_swapchain_images_ set_swapchain_views_ set_viewport_ set_scissor_ set_graphics_pipeline_ set_vertex_buffers_ set_vertex_buffers_memory_ set_index_buffers_ set_index_buffers_memory_ set_uniform_buffers_ set_uniform_buffers_memory_ set_descriptor_pool_ set_descriptor_sets_ set_image_views_
       Vk.next_handle Vk.calls Vk.objects Vk.swapchains Vk.memory_types
       Vk.memory_type_bits aget aset at_kLeft at_kRight
       physical_device_ logical_device_ swapchain_ current_render_pass_ current_image_width_ current_image_height_ indices_count_ swapchain_image_count_ texture_sampler_ descriptor_set_layout_ pipeline_layout_ swapchain_images_ swapchain_views_ viewport_ scissor_ graphics_pipeline_ vertex_buffers_ vertex_buffers_memory_ index_buffers_ index_buffers_memory_ uniform_buffers_ uniform_buffers_memory_ descriptor_pool_ descriptor_sets_ image_views_].

Tactic Notation "flat_in" hyp(H) :=
  cbn [aget aset at_kLeft at_kRight image_views_ descriptor_sets_] in H.

(** Lookups in the table of live objects after insertions. *)
Ltac lookups :=
  repeat first [ rewrite lookup_insert_eq
               | rewrite lookup_insert_ne by lia ].

(** The calls of a frame, by cases on what is rebuilt and destroyed. *)
Ltac frame_cases :=
  cbv [frame_of frame_calls frame_rebuild frame_left frame_right frame_final
       frame_next frame_left_state frame_right_state
       rebuild_calls pipeline_calls eye_calls
       uniform_write_calls clean_view_calls descriptor_update_call
       bind_and_draw_calls render_pass_changed cached_view slot_set];
  flat; repeat case_bool_decide.

(** ** Bytes *)

(** The encoding of floats, on two values. *)
Example F32_bits_one : F32.bits F32.one = 0x3F800000.
Proof. reflexivity. Qed.

Example F32_bits_1000 : F32.bits (F32.of_Z 1000) = 0x447A0000.
Proof. reflexivity. Qed.

Example float_bytes_one :
  Mem.float_bytes F32.one = [Byte.x00; Byte.x00; Byte.x80; Byte.x3f].
Proof. reflexivity. Qed.

Lemma Z_of_byte_of_Z (z : Z) : Mem.Z_of_byte (Mem.byte_of_Z z) = z mod 256.
Proof.
  unfold Mem.Z_of_byte, Mem.byte_of_Z.
  assert (H : 0 <= z mod 256 < 256) by (apply Z.mod_pos_bound; lia).
  destruct (Byte.of_N (Z.to_N (z mod 256))) as [b |] eqn:Hb.
  - apply Byte.to_of_N in Hb. rewrite Hb. lia.
  - apply Byte.of_N_None_iff in Hb. lia.
Qed.

(** [n] little-endian bytes hold the value modulo [256 ^ n]. *)
Lemma le_value_le_bytes (n : nat) (z : Z) :
  Mem.le_value (Mem.le_bytes n z) = z mod 256 ^ Z.of_nat n.
Proof.
  revert z. induction n as [| n IH]; intros z.
  - cbn. by rewrite Z.mod_1_r.
  - cbn [Mem.le_bytes Mem.le_value]. rewrite IH, Z_of_byte_of_Z.
    rewrite Nat2Z.inj_succ, Z.pow_succ_r by lia.
    rewrite Z.rem_mul_r by lia. done.
Qed.

Lemma uint16_bytes_decode (z : Z) :
  Mem.le_value (Mem.uint16_bytes z) = CInt.to_uint16 z.
Proof. apply (le_value_le_bytes 2). Qed.

Lemma float_bytes_decode (f : F32.t) :
  Mem.le_value (Mem.float_bytes f) = F32.bits f mod 2 ^ 32.
Proof. apply (le_value_le_bytes 4). Qed.

Lemma length_Vertex_bytes v : length (Vertex_bytes v) = 16%nat.
Proof. reflexivity. Qed.

Lemma length_uint16_bytes z : length (Mem.uint16_bytes z) = 2%nat.
Proof. reflexivity. Qed.

Lemma length_mjoin_const {A} (f : A -> list byte) (k : nat) (l : list A) :
  (forall x, length (f x) = k) -> length (mjoin (f <$> l)) = (k * length l)%nat.
Proof.
  intros Hf. induction l as [| x l IH]; csimpl; [lia |].
  rewrite length_app, Hf, IH. lia.
Qed.

Lemma memcpy_whole (src : list byte) (n : Z) :
  Z.of_nat (length src) = n ->
  Mem.memcpy (replicate (Z.to_nat n) Byte.x00) src n = src.
Proof.
  intros H. unfold Mem.memcpy.
  rewrite take_ge by lia. rewrite drop_ge by (rewrite length_replicate; lia).
  apply app_nil_r.
Qed.

(** ** Integer conversions *)

Lemma to_int32_small (i : Z) : 0 <= i <= CInt.INT_MAX -> CInt.to_int32 i = i.
Proof.
  intros H. unfold CInt.to_int32, CInt.INT_MAX in *.
  rewrite Z.mod_small by lia.
  destruct (Z.ltb_spec i (2 ^ 31)); lia.
Qed.

Lemma to_uint32_small (i : Z) : 0 <= i < 2 ^ 32 -> CInt.to_uint32 i = i.
Proof. intros H. unfold CInt.to_uint32. apply Z.mod_small. lia. Qed.

Lemma to_uint32_range (i : Z) : 0 <= CInt.to_uint32 i < 2 ^ 32.
Proof. unfold CInt.to_uint32. apply Z.mod_pos_bound. lia. Qed.

Lemma to_int32_of_sum (x k : Z) :
  CInt.INT_MIN <= x + k <= CInt.INT_MAX ->
  CInt.to_int32 (CInt.to_uint32 (CInt.to_uint32 x + k)) = x + k.
Proof.
  unfold CInt.INT_MIN, CInt.INT_MAX, CInt.to_int32, CInt.to_uint32. intros H.
  rewrite Z.mod_mod by lia. rewrite Zplus_mod_idemp_l.
  destruct (Z.le_gt_cases 0 (x + k)).
  - rewrite Z.mod_small by lia. destruct (Z.ltb_spec (x + k) (2 ^ 31)); lia.
  - replace ((x + k) mod 2 ^ 32) with (x + k + 2 ^ 32).
    + destruct (Z.ltb_spec (x + k + 2 ^ 32) (2 ^ 31)); lia.
    + apply Z.mod_unique with (q := -1); lia.
Qed.

Lemma checked_in_range z :
  CInt.INT_MIN <= z <= CInt.INT_MAX -> CInt.checked z = Some z.
Proof.
  intros H. unfold CInt.checked, CInt.in_int.
  destruct (Z.leb_spec CInt.INT_MIN z), (Z.leb_spec z CInt.INT_MAX);
    try lia; done.
Qed.

(** ** Arrays and vectors *)

Section Vectors.

Context {A : Type}.

Lemma at_index_lookup (v : list A) (i : Z) :
  0 <= i -> at_index v i = v !! Z.to_nat i.
Proof. intros H. unfold at_index. destruct (Z.ltb_spec i 0); [lia | done]. Qed.

Lemma at_index_is_Some (v : list A) (i : Z) :
  0 <= i < Z.of_nat (length v) -> is_Some (at_index v i).
Proof.
  intros H. rewrite at_index_lookup by lia. apply lookup_lt_is_Some. lia.
Qed.

Lemma at_index_default (v : list A) (i : Z) (x : A) :
  0 <= i < Z.of_nat (length v) -> at_index v i = Some (default x (at_index v i)).
Proof. intros H. by destruct (at_index_is_Some v i H) as [y ->]. Qed.

Lemma assign_index_Some (v : list A) (i : Z) (x y : A) :
  at_index v i = Some y -> assign_index v i x = Some (<[Z.to_nat i := x]> v).
Proof. intros H. unfold assign_index, modify_index. by rewrite H. Qed.

Lemma at_index_insert_eq (v : list A) (i : Z) (x y : A) :
  at_index v i = Some y -> at_index (<[Z.to_nat i := x]> v) i = Some x.
Proof.
  unfold at_index. destruct (Z.ltb_spec i 0); [done |].
  intros H'. apply list_lookup_insert_eq. by eapply lookup_lt_Some.
Qed.

Lemma at_index_nth (l : list A) (k : nat) (d : A) :
  (k < length l)%nat -> at_index l (Z.of_nat k) = Some (nth k l d).
Proof.
  intros H. rewrite at_index_lookup by lia. rewrite Nat2Z.id.
  destruct (lookup_lt_is_Some_2 l k H) as [x Hx]. rewrite Hx. f_equal.
  symmetry. by apply nth_lookup_Some.
Qed.

Lemma modify_index_nat (l : list A) (k : nat) (f : A -> A) (x : A) :
  l !! k = Some x ->
  modify_index l (Z.of_nat k) f = Some (<[k := f x]> l).
Proof.
  intros H. unfold modify_index. rewrite at_index_lookup by lia.
  rewrite Nat2Z.id, H. done.
Qed.

Lemma write_data_same_length (src v : list A) :
  length src = length v -> write_data src v = Some src.
Proof.
  intros H. unfold write_data. rewrite bool_decide_true by lia.
  rewrite drop_ge by lia. by rewrite app_nil_r.
Qed.

Lemma aget_aset_eq eye (v : A) a : aget eye (aset eye v a) = v.
Proof. by destruct eye. Qed.

Lemma aget_aset_ne eye eye' (v : A) a :
  eye <> eye' -> aget eye' (aset eye v a) = aget eye' a.
Proof. by destruct eye, eye'. Qed.

Lemma aset_aset eye (v v' : A) a : aset eye v (aset eye v' a) = aset eye v a.
Proof. by destruct eye. Qed.

Lemma insert_pair_again (m : gmap Z A) (i j : Z) (a a' b b' : A) :
  i <> j ->
  <[j := b']> (<[i := a']> (<[j := b]> (<[i := a]> m))) =
  <[j := b']> (<[i := a']> m).
Proof.
  intros Hne. apply map_eq. intros k.
  destruct (decide (k = j)) as [-> |]; [by rewrite !lookup_insert_eq |].
  rewrite !(lookup_insert_ne _ j k) by done.
  destruct (decide (k = i)) as [-> |]; [by rewrite !lookup_insert_eq |].
  rewrite !(lookup_insert_ne _ i k) by done.
  rewrite !(lookup_insert_ne _ j k) by done.
  by rewrite !(lookup_insert_ne _ i k) by done.
Qed.

End Vectors.

Lemma const_fmap_replicate {A B} (x : B) (l : list A) :
  (fun _ => x) <$> l = replicate (length l) x.
Proof. induction l as [| a l IH]; [done |]. cbn. by rewrite <- IH. Qed.

(** ** Loops *)

Section Loops.

Context {S : Type}.

Lemma loop_app (l1 l2 : list Z) (body : Z -> S -> M S) (s : S) (w : World) :
  loop (l1 ++ l2) body s w =
  match loop l1 body s w with
  | Some (s', w') => loop l2 body s' w'
  | None => None
  end.
Proof.
  revert s w. induction l1 as [| i l1 IH]; intros s w; [done |].
  cbn. unfold bind. destruct (body i s w) as [[s' w'] |]; [apply IH | done].
Qed.

(** A loop whose body keeps an invariant runs to its end. *)
Lemma loop_invariant (P : S -> World -> Prop) (l : list Z)
    (body : Z -> S -> M S) :
  (forall i s w, i ∈ l -> P s w ->
     exists s' w', body i s w = Some (s', w') /\ P s' w') ->
  forall s w, P s w ->
    exists s' w', loop l body s w = Some (s', w') /\ P s' w'.
Proof.
  induction l as [| i l IH]; intros Hbody s w HP.
  - by exists s, w.
  - destruct (Hbody i s w ltac:(left) HP) as (s1 & w1 & Hrun & HP1).
    destruct (IH (fun j s w Hj => Hbody j s w ltac:(by right)) s1 w1 HP1)
      as (s2 & w2 & Hrun2 & HP2).
    exists s2, w2. cbn. unfold bind. by rewrite Hrun.
Qed.

End Loops.

Lemma seqZ_0_snoc (k : nat) :
  seqZ 0 (Z.of_nat (S k)) = seqZ 0 (Z.of_nat k) ++ [Z.of_nat k].
Proof.
  replace (Z.of_nat (S k)) with (Z.of_nat k + 1) by lia.
  rewrite seqZ_app by lia. done.
Qed.

(** A loop whose body assigns element [i] fills the vector in order. *)
Lemma for_upto_fill {A} (f : nat -> A) (body : Z -> list A -> M (list A))
    (N : nat) (w : World) :
  (forall i cur, (i < N)%nat -> length cur = N ->
     body (Z.of_nat i) cur w = Some (<[i := f i]> cur, w)) ->
  forall init, length init = N ->
    for_upto (Z.of_nat N) body init w = Some (f <$> seq 0 N, w).
Proof.
  intros Hbody init Hlen. unfold for_upto.
  assert (forall k, (k <= N)%nat ->
            loop (seqZ 0 (Z.of_nat k)) body init w =
            Some ((f <$> seq 0 k) ++ drop k init, w)) as Hk.
  { induction k as [| k IH]; intros Hle.
    - by rewrite drop_0.
    - rewrite seqZ_0_snoc, loop_app, IH by lia. cbn [loop]. unfold bind.
      assert (Hl : length ((f <$> seq 0 k) ++ drop k init) = N).
      { rewrite length_app, length_fmap, length_seq, length_drop. lia. }
      rewrite (Hbody k _ ltac:(lia) Hl). unfold ret. f_equal. f_equal.
      destruct (lookup_lt_is_Some_2 init k ltac:(lia)) as [x Hx].
      rewrite (drop_S _ _ _ Hx).
      rewrite insert_app_r_alt by (rewrite length_fmap, length_seq; lia).
      rewrite length_fmap, length_seq, Nat.sub_diag. cbn [insert list_insert].
      rewrite seq_S, fmap_app, <- app_assoc. done. }
  rewrite (Hk N) by lia. rewrite drop_ge by lia. by rewrite app_nil_r.
Qed.

Lemma for_upto_fill_Z {A} (f : nat -> A) (body : Z -> list A -> M (list A))
    (n : Z) (w : World) (init : list A) :
  0 <= n ->
  (forall i cur, (i < Z.to_nat n)%nat -> length cur = Z.to_nat n ->
     body (Z.of_nat i) cur w = Some (<[i := f i]> cur, w)) ->
  length init = Z.to_nat n ->
  for_upto n body init w = Some (f <$> seq 0 (Z.to_nat n), w).
Proof.
  intros Hn Hbody Hlen. rewrite <- (Z2Nat.id n) at 1 by lia.
  by apply for_upto_fill.
Qed.

(** ** Well-formed inputs *)

Lemma renderer_inv_spec r :
  renderer_inv r = true ->
  0 <= swapchain_image_count_ r <= CInt.INT_MAX /\
  forall eye,
    Z.of_nat (length (aget eye (image_views_ r))) = swapchain_image_count_ r /\
    Z.of_nat (length (aget eye (descriptor_sets_ r))) = swapchain_image_count_ r.
Proof.
  unfold renderer_inv, per_eye_sized. intros H.
  repeat (apply andb_prop in H; destruct H as [H ?]).
  repeat match goal with
         | H : (_ <=? _) = true |- _ => apply Z.leb_le in H
         | H : (_ =? _) = true |- _ => apply Z.eqb_eq in H
         | H : _ && _ = true |- _ => apply andb_prop in H; destruct H
         end.
  split; [lia |]. intros []; split; assumption.
Qed.

Lemma slot_valid_spec r t :
  slot_valid r t = true -> 0 <= slot_of t < swapchain_image_count_ r.
Proof.
  unfold slot_valid. intros H%Z.ltb_lt. split; [| done].
  apply to_uint32_range.
Qed.

Lemma slot_valid_count r r' t :
  swapchain_image_count_ r' = swapchain_image_count_ r ->
  slot_valid r' t = slot_valid r t.
Proof. unfold slot_valid. by intros ->. Qed.

Lemma mesh_valid_spec mesh :
  mesh_valid mesh = true ->
  0 <= n_vertices mesh /\ 2 * n_vertices mesh <= CInt.INT_MAX + 1 /\
  2 * n_vertices mesh <= Z.of_nat (length (vertices mesh)) /\
  2 * n_vertices mesh <= Z.of_nat (length (uvs mesh)) /\
  0 <= n_indices mesh <= CInt.INT_MAX /\
  n_indices mesh <= Z.of_nat (length (indices mesh)).
Proof.
  unfold mesh_valid. intros H.
  repeat (apply andb_prop in H; destruct H as [H ?]).
  repeat match goal with
         | H : (_ <=? _) = true |- _ => apply Z.leb_le in H
         end.
  lia.
Qed.

(** ** [SetMesh] *)

Lemma fill_vertex_run mesh (i : nat) (cur : list Vertex) w :
  mesh_valid mesh = true -> (i < Z.to_nat (n_vertices mesh))%nat ->
  length cur = Z.to_nat (n_vertices mesh) ->
  fill_vertex mesh (Z.of_nat i) cur w = Some (<[i := vertex_at mesh i]> cur, w).
Proof.
  intros Hv Hi Hlen. destruct (mesh_valid_spec _ Hv) as (H0 & H1 & H2 & H3 & _).
  unfold CInt.INT_MAX in *.
  destruct (lookup_lt_is_Some_2 cur i ltac:(lia)) as [v0 Hv0].
  unfold fill_vertex.
  assert (Hc1 : CInt.checked (2 * Z.of_nat i) = Some (Z.of_nat (2 * i))).
  { rewrite checked_in_range by (unfold CInt.INT_MIN, CInt.INT_MAX; lia).
    f_equal. lia. }
  assert (Hc2 : CInt.checked (Z.of_nat (2 * i) + 1) = Some (Z.of_nat (2 * i + 1))).
  { rewrite checked_in_range by (unfold CInt.INT_MIN, CInt.INT_MAX; lia).
    f_equal. lia. }
  cbv [bind defined]. rewrite !Hc1.
  rewrite (at_index_nth (vertices mesh) (2 * i) F32.zero) by lia.
  rewrite (modify_index_nat _ _ _ _ Hv0).
  rewrite !Hc2.
  rewrite (at_index_nth (vertices mesh) (2 * i + 1) F32.zero) by lia.
  rewrite (modify_index_nat _ _ _ (set_pos_x (nth (2 * i) (vertices mesh) F32.zero) v0))
    by (apply list_lookup_insert_eq; lia).
  rewrite (at_index_nth (uvs mesh) (2 * i) F32.zero) by lia.
  rewrite list_insert_insert_eq.
  erewrite modify_index_nat by (apply list_lookup_insert_eq; lia).
  rewrite (at_index_nth (uvs mesh) (2 * i + 1) F32.zero) by lia.
  rewrite list_insert_insert_eq.
  erewrite modify_index_nat by (apply list_lookup_insert_eq; lia).
  rewrite list_insert_insert_eq. done.
Qed.

Lemma fill_index_run mesh (i : nat) (cur : list Z) w :
  mesh_valid mesh = true -> (i < Z.to_nat (n_indices mesh))%nat ->
  length cur = Z.to_nat (n_indices mesh) ->
  fill_index mesh (Z.of_nat i) cur w =
  Some (<[i := CInt.to_uint16 (nth i (indices mesh) 0)]> cur, w).
Proof.
  intros Hv Hi Hlen. destruct (mesh_valid_spec _ Hv) as (_ & _ & _ & _ & H4 & H5).
  destruct (lookup_lt_is_Some_2 cur i ltac:(lia)) as [v0 Hv0].
  unfold fill_index, assign_index. cbv [bind defined].
  rewrite (at_index_nth (indices mesh) i 0) by lia.
  rewrite (modify_index_nat _ _ _ _ Hv0). done.
Qed.

Lemma CreateVertexBuffer_run eye verts r d lg e :
  let n := Vk.next_handle d in
  let size := CInt.to_uint64 (sizeof_Vertex * Z.of_nat (length verts)) in
  exists ti evs lg',
    CreateVertexBuffer eye verts (mkWorld r d lg e) =
    Some (tt, mkWorld
      (set_vertex_buffers_memory_ (aset eye (n + 1) (vertex_buffers_memory_ r))
         (set_vertex_buffers_ (aset eye n (vertex_buffers_ r)) r))
      (Vk.update d (n + 2)
         (<[n + 1 := Vk.OMemory size ti
                       (Mem.memcpy (replicate (Z.to_nat size) Byte.x00)
                          (mjoin (Vertex_bytes <$> verts)) size)]>
            (<[n := Vk.OBuffer size Vk.VK_BUFFER_USAGE_VERTEX_BUFFER_BIT (n + 1)]>
               (Vk.objects d)))
         (Vk.calls d ++ evs))
      lg' e).
Proof.
  intros n size. subst n. unfold CreateVertexBuffer, CreateBuffer, FindMemoryType.
  fold size. clearbody size.
  destruct d as [n o c sc mt mb]. run. rewrite !aget_aset_eq. lookups. run.
  destruct (first_suitable mb host_visible_coherent 0 mt) as [ti |]; run;
    rewrite ?aget_aset_eq; lookups; run; rewrite ?aget_aset_eq; lookups; run;
    eexists _, _, _; rewrite insert_pair_again by lia;
    rewrite <- !app_assoc, <- Z.add_assoc; reflexivity.
Qed.

Lemma CreateIndexBuffer_run eye idxs r d lg e :
  let n := Vk.next_handle d in
  let size := CInt.to_uint64 (sizeof_uint16_t * Z.of_nat (length idxs)) in
  exists ti evs lg',
    CreateIndexBuffer eye idxs (mkWorld r d lg e) =
    Some (tt, mkWorld
      (set_index_buffers_memory_ (aset eye (n + 1) (index_buffers_memory_ r))
         (set_index_buffers_ (aset eye n (index_buffers_ r)) r))
      (Vk.update d (n + 2)
         (<[n + 1 := Vk.OMemory size ti
                       (Mem.memcpy (replicate (Z.to_nat size) Byte.x00)
                          (mjoin (Mem.uint16_bytes <$> idxs)) size)]>
            (<[n := Vk.OBuffer size Vk.VK_BUFFER_USAGE_INDEX_BUFFER_BIT (n + 1)]>
               (Vk.objects d)))
         (Vk.calls d ++ evs))
      lg' e).
Proof.
  intros n size. subst n. unfold CreateIndexBuffer, CreateBuffer, FindMemoryType.
  fold size. clearbody size.
  destruct d as [n o c sc mt mb]. run. rewrite !aget_aset_eq. lookups. run.
  destruct (first_suitable mb host_visible_coherent 0 mt) as [ti |]; run;
    rewrite ?aget_aset_eq; lookups; run; rewrite ?aget_aset_eq; lookups; run;
    eexists _, _, _; rewrite insert_pair_again by lia;
    rewrite <- !app_assoc, <- Z.add_assoc; reflexivity.
Qed.

Lemma length_vertex_data mesh :
  0 <= n_vertices mesh ->
  Z.of_nat (length (vertex_data mesh)) = n_vertices mesh * 16.
Proof.
  intros H. unfold vertex_data, interleaved.
  rewrite (length_mjoin_const _ 16) by apply length_Vertex_bytes.
  rewrite length_fmap, length_seq. lia.
Qed.

Lemma length_index_data mesh :
  0 <= n_indices mesh ->
  Z.of_nat (length (index_data mesh)) = n_indices mesh * 2.
Proof.
  intros H. unfold index_data, truncated.
  rewrite (length_mjoin_const _ 2) by apply length_uint16_bytes.
  rewrite length_fmap, length_seq. lia.
Qed.

(** The whole method on an explicit world: the loops produce the
    interleaved vertices and the truncated indices, each buffer gets a
    fresh handle and a memory holding exactly the data. *)
Lemma SetMesh_run mesh eye r d lg e :
  mesh_valid mesh = true ->
  let n := Vk.next_handle d in
  exists ti1 ti2 evs lg',
    SetMesh mesh eye (mkWorld r d lg e) =
    Some (tt, mkWorld
      (with_mesh eye n (n + 1) (n + 2) (n + 3) (n_indices mesh) r)
      (Vk.update d (n + 4)
         (<[n + 3 := Vk.OMemory (n_indices mesh * 2) ti2 (index_data mesh)]>
            (<[n + 2 := Vk.OBuffer (n_indices mesh * 2)
                          Vk.VK_BUFFER_USAGE_INDEX_BUFFER_BIT (n + 3)]>
               (<[n + 1 := Vk.OMemory (n_vertices mesh * 16) ti1 (vertex_data mesh)]>
                  (<[n := Vk.OBuffer (n_vertices mesh * 16)
                            Vk.VK_BUFFER_USAGE_VERTEX_BUFFER_BIT (n + 1)]>
                     (Vk.objects d)))))
         (Vk.calls d ++ evs))
      lg' e).
Proof.
  intros Hv n. destruct (mesh_valid_spec _ Hv) as (H0 & H1 & H2 & H3 & H4 & H5).
  unfold CInt.INT_MAX in *.
  unfold SetMesh, resize_int.
  destruct (Z.ltb_spec (n_vertices mesh) 0) as [| _]; [lia |].
  destruct (Z.ltb_spec (n_indices mesh) 0) as [| _]; [lia |].
  cbv [bind defined].
  rewrite (for_upto_fill_Z (vertex_at mesh) (fill_vertex mesh)); [| lia | |].
  2: { intros i cur Hi Hl. by apply fill_vertex_run. }
  2: { rewrite length_resize. done. }
  fold (interleaved mesh).
  destruct (CreateVertexBuffer_run eye (interleaved mesh) r d lg e)
    as (ti1 & evs1 & lg1 & ->).
  rewrite (for_upto_fill_Z (fun i => CInt.to_uint16 (nth i (indices mesh) 0))
             (fill_index mesh)); [| lia | |].
  2: { intros i cur Hi Hl. by apply fill_index_run. }
  2: { rewrite length_resize. done. }
  fold (truncated mesh).
  match goal with
  | |- context [CreateIndexBuffer eye _ (mkWorld ?r' ?d' ?lg' _)] =>
      destruct (CreateIndexBuffer_run eye (truncated mesh) r' d' lg' e)
        as (ti2 & evs2 & lg2 & ->)
  end.
  exists ti1, ti2, (evs1 ++ evs2), lg2.
  assert (Hs1 : CInt.to_uint64 (sizeof_Vertex * Z.of_nat (length (interleaved mesh)))
                = n_vertices mesh * 16).
  { unfold interleaved. rewrite length_fmap, length_seq.
    unfold CInt.to_uint64, sizeof_Vertex, sizeof_float.
    rewrite Z.mod_small by lia. lia. }
  assert (Hs2 : CInt.to_uint64 (sizeof_uint16_t * Z.of_nat (length (truncated mesh)))
                = n_indices mesh * 2).
  { unfold truncated. rewrite length_fmap, length_seq.
    unfold CInt.to_uint64, sizeof_uint16_t.
    rewrite Z.mod_small by lia. lia. }
  rewrite Hs1, Hs2.
  fold (vertex_data mesh). fold (index_data mesh).
  rewrite !memcpy_whole by (first [apply length_vertex_data | apply length_index_data]; lia).
  unfold put, with_mesh. destruct d as [n0 o c sc mt mb]. subst n. 
  cbv [this gpu logcat env Vk.update]. cbn [Vk.next_handle Vk.objects Vk.calls Vk.swapchains Vk.memory_types Vk.memory_type_bits].
  rewrite <- !app_assoc, <- !Z.add_assoc.
  change (2 + 1) with 3. change (2 + 2) with 4. reflexivity.
Qed.

Lemma SetMesh_world mesh eye w :
  mesh_valid mesh = true ->
  let n := Vk.next_handle (gpu w) in
  exists w' ti1 ti2,
    SetMesh mesh eye w = Some (tt, w') /\
    this w' = with_mesh eye n (n + 1) (n + 2) (n + 3) (n_indices mesh) (this w) /\
    Vk.next_handle (gpu w') = n + 4 /\
    Vk.objects (gpu w') =
      <[n + 3 := Vk.OMemory (n_indices mesh * 2) ti2 (index_data mesh)]>
        (<[n + 2 := Vk.OBuffer (n_indices mesh * 2)
                      Vk.VK_BUFFER_USAGE_INDEX_BUFFER_BIT (n + 3)]>
           (<[n + 1 := Vk.OMemory (n_vertices mesh * 16) ti1 (vertex_data mesh)]>
              (<[n := Vk.OBuffer (n_vertices mesh * 16)
                        Vk.VK_BUFFER_USAGE_VERTEX_BUFFER_BIT (n + 1)]>
                 (Vk.objects (gpu w))))) /\
    env w' = env w.
Proof.
  destruct w as [r d lg e]. intros Hv n. cbn [this gpu] in *.
  destruct (SetMesh_run mesh eye r d lg e Hv) as (ti1 & ti2 & evs & lg' & ->).
  eexists _, ti1, ti2. split; [reflexivity |]. done.
Qed.

Lemma renderer_inv_with_mesh eye vb vm ib im count r :
  renderer_inv (with_mesh eye vb vm ib im count r) = renderer_inv r.
Proof. reflexivity. Qed.

Lemma SetMeshes_app l1 l2 w :
  SetMeshes (l1 ++ l2) w =
  match SetMeshes l1 w with
  | Some (_, w') => SetMeshes l2 w'
  | None => None
  end.
Proof.
  revert w. induction l1 as [| [mesh eye] l1 IH]; intros w; [done |].
  cbn. unfold bind. destruct (SetMesh mesh eye w) as [[[] w'] |]; [apply IH | done].
Qed.

(** A sequence of [SetMesh] calls with valid meshes runs, and keeps what
    the frame depends on apart from the buffers and the count. *)
Lemma SetMeshes_world calls w :
  forallb (fun c => mesh_valid c.1) calls = true ->
  exists w',
    SetMeshes calls w = Some (tt, w') /\
    renderer_inv (this w') = renderer_inv (this w) /\
    swapchain_image_count_ (this w') = swapchain_image_count_ (this w).
Proof.
  revert w. induction calls as [| [mesh eye] calls IH]; intros w Hall.
  - by exists w.
  - cbn in Hall. apply andb_prop in Hall as [Hv Hall].
    destruct (SetMesh_world mesh eye w Hv) as (w1 & ? & ? & Hrun & Hthis & _).
    destruct (IH w1 Hall) as (w2 & Hrun2 & Hinv & Hcount).
    exists w2. cbn. unfold bind. rewrite Hrun. split; [done |].
    rewrite Hinv, Hcount, Hthis. done.
Qed.

(** ** [RenderEyeToDisplay] *)

Lemma UpdateViewportAndScissor_run eye x y r d lg e :
  UpdateViewportAndScissor eye x y (mkWorld r d lg e) =
  Some (tt, mkWorld (with_viewport_and_scissor eye x y r) d lg e).
Proof. destruct eye; reflexivity. Qed.

Lemma RenderDistortionMesh_run desc eye cb slot r d lg e old set :
  0 <= slot <= CInt.INT_MAX ->
  at_index (aget eye (image_views_ r)) slot = Some old ->
  at_index (aget eye (descriptor_sets_ r)) slot = Some set ->
  exists o,
    RenderDistortionMesh desc eye cb slot (mkWorld r d lg e) =
    Some (tt, mkWorld
      (set_image_views_
         (aset eye (<[Z.to_nat slot := Vk.next_handle d]> (aget eye (image_views_ r)))
               (image_views_ r)) r)
      (Vk.update d (Vk.next_handle d + 1) o
         (Vk.calls d ++ eye_calls r eye desc cb old set (Vk.next_handle d)))
      lg e).
Proof.
  intros Hs Hold Hset.
  unfold RenderDistortionMesh, UpdateUniformBuffer, CleanTextureImageView,
    CreateImageView, UpdateDescriptorSets, BindCommandBuffer, eye_calls,
    clean_view_calls, uniform_write_calls, descriptor_update_call,
    bind_and_draw_calls.
  rewrite (to_int32_small slot Hs).
  cbv [Vk.host_write Vk.DestroyImageView Vk.CreateImageView Vk.UpdateDescriptorSets].
  destruct d as [n o c sc mt mb].
  run. rewrite Hold. run.
  case_bool_decide; run.
  - rewrite (assign_index_Some _ _ _ _ Hold). run.
    rewrite !aget_aset_eq.
    rewrite (assign_index_Some _ _ _ _ (at_index_insert_eq _ _ _ _ Hold)).
    run. rewrite !aget_aset_eq, !aset_aset, list_insert_insert_eq.
    rewrite (at_index_insert_eq _ _ _ _ Hold). run.
    repeat (rewrite Hset; run).
    eexists. unfold set_image_views_. cbn. rewrite ?aset_aset, <- ?app_assoc.
    reflexivity.
  - rewrite (assign_index_Some _ _ _ _ Hold). run.
    rewrite !aget_aset_eq.
    rewrite (at_index_insert_eq _ _ _ _ Hold). run.
    repeat (rewrite Hset; run).
    eexists. rewrite <- !app_assoc. reflexivity.
Qed.

Lemma CreateGraphicsPipeline_run eye r d lg e :
  exists o,
    CreateGraphicsPipeline eye (mkWorld r d lg e) =
    Some (tt, mkWorld
      (set_graphics_pipeline_
         (aset eye (Vk.next_handle d + 2) (graphics_pipeline_ r)) r)
      (Vk.update d (Vk.next_handle d + 3) o
         (Vk.calls d ++ pipeline_calls r eye (Vk.next_handle d)))
      lg e).
Proof.
  unfold CreateGraphicsPipeline, CleanPipeline, LoadShader, pipeline_calls.
  cbv [Vk.CreateShaderModule Vk.DestroyPipeline Vk.CreateGraphicsPipelines
       Vk.DestroyShaderModule].
  destruct d as [n o c sc mt mb].
  run. case_bool_decide; run.
  - eexists. unfold set_graphics_pipeline_. cbn.
    rewrite ?aset_aset, <- ?app_assoc. cbn.
    replace (n + 1 + 1 + 1) with (n + 3) by lia.
    replace (n + 1 + 1) with (n + 2) by lia. reflexivity.
  - eexists. rewrite <- ?app_assoc. cbn.
    replace (n + 1 + 1 + 1) with (n + 3) by lia.
    replace (n + 1 + 1) with (n + 2) by lia. reflexivity.
Qed.

(** A frame with a valid slot does what [frame_of] says. *)
Lemma RenderEyeToDisplay_run t x y wd ht l rt r d lg e :
  renderer_inv r = true -> slot_valid r t = true ->
  let f := frame_of r (Vk.next_handle d) t x y wd ht l rt in
  exists o,
    RenderEyeToDisplay t x y wd ht l rt (mkWorld r d lg e) =
    Some (tt, mkWorld (frame_final f)
                (Vk.update d (frame_next f) o (Vk.calls d ++ frame_calls f))
                lg e).
Proof.
  intros Hinv Hslot f.
  destruct (renderer_inv_spec _ Hinv) as [Hcount Hlen].
  pose proof (slot_valid_spec _ _ Hslot) as Hs.
  destruct (Hlen kLeft) as [HvL HsL], (Hlen kRight) as [HvR HsR].
  assert (HoL := at_index_default (aget kLeft (image_views_ r)) (slot_of t)
                   Vk.VK_NULL_HANDLE ltac:(lia)).
  assert (HoR := at_index_default (aget kRight (image_views_ r)) (slot_of t)
                   Vk.VK_NULL_HANDLE ltac:(lia)).
  assert (HdL := at_index_default (aget kLeft (descriptor_sets_ r)) (slot_of t)
                   Vk.VK_NULL_HANDLE ltac:(lia)).
  assert (HdR := at_index_default (aget kRight (descriptor_sets_ r)) (slot_of t)
                   Vk.VK_NULL_HANDLE ltac:(lia)).
  assert (Hr : 0 <= slot_of t <= CInt.INT_MAX) by lia.
  unfold RenderEyeToDisplay. fold (slot_of t).
  cbv [bind get this].
  destruct (Z.leb_spec (swapchain_image_count_ r) (slot_of t)) as [|_]; [lia |].
  subst f. unfold frame_of, frame_calls, render_pass_changed, rebuild_calls,
    cached_view, slot_set.
  cbn [frame_rebuild frame_left frame_right frame_final frame_next].
  cbv [put this gpu logcat env ret].
  set (slot := slot_of t) in *. clearbody slot.
  set (cb := vk_command_buffer t). clearbody cb.
  set (rp := vk_render_pass t). clearbody rp.
  clear Hinv Hslot Hcount Hlen Hs HvL HsL HvR HsR.
  destruct r, d as [n o c sc mt mb].
  flat. flat_in HoL. flat_in HoR. flat_in HdL. flat_in HdR.
  case_bool_decide as Hch.
  - match goal with
    | |- context [CreateGraphicsPipeline kLeft (mkWorld ?r' ?d' _ _)] =>
        destruct (CreateGraphicsPipeline_run kLeft r' d' lg e) as [o1 ->]
    end.
    flat.
    match goal with
    | |- context [CreateGraphicsPipeline kRight (mkWorld ?r' ?d' _ _)] =>
        destruct (CreateGraphicsPipeline_run kRight r' d' lg e) as [o2 ->]
    end.
    flat.
    rewrite UpdateViewportAndScissor_run. flat.
    match goal with
    | |- context [RenderDistortionMesh l kLeft ?cb ?s (mkWorld ?r' ?d' _ _)] =>
        destruct (RenderDistortionMesh_run l kLeft cb s r' d' lg e _ _ Hr HoL HdL)
          as [o3 ->]
    end.
    flat.
    rewrite UpdateViewportAndScissor_run. flat.
    match goal with
    | |- context [RenderDistortionMesh rt kRight ?cb ?s (mkWorld ?r' ?d' _ _)] =>
        destruct (RenderDistortionMesh_run rt kRight cb s r' d' lg e _ _ Hr HoR HdR)
          as [o4 ->]
    end.
    flat.
    exists o4. rewrite <- !app_assoc, <- !Z.add_assoc. reflexivity.
  - rewrite UpdateViewportAndScissor_run. flat.
    match goal with
    | |- context [RenderDistortionMesh l kLeft ?cb ?s (mkWorld ?r' ?d' _ _)] =>
        destruct (RenderDistortionMesh_run l kLeft cb s r' d' lg e _ _ Hr HoL HdL)
          as [o3 ->]
    end.
    flat.
    rewrite UpdateViewportAndScissor_run. flat.
    match goal with
    | |- context [RenderDistortionMesh rt kRight ?cb ?s (mkWorld ?r' ?d' _ _)] =>
        destruct (RenderDistortionMesh_run rt kRight cb s r' d' lg e _ _ Hr HoR HdR)
          as [o4 ->]
    end.
    flat.
    exists o4. rewrite <- !app_assoc, <- !Z.add_assoc, !Z.add_0_r.
    reflexivity.
Qed.

Lemma emitted_update r d lg e r' n o evs lg' e' :
  emitted (mkWorld r d lg e)
          (mkWorld r' (Vk.update d n o (Vk.calls d ++ evs)) lg' e') = evs.
Proof. unfold emitted. cbn. apply drop_app_length. Qed.

Lemma RenderEyeToDisplay_frame t x y wd ht l rt w :
  renderer_inv (this w) = true -> slot_valid (this w) t = true ->
  let f := frame_of (this w) (Vk.next_handle (gpu w)) t x y wd ht l rt in
  exists w',
    RenderEyeToDisplay t x y wd ht l rt w = Some (tt, w') /\
    this w' = frame_final f /\
    emitted w w' = frame_calls f /\
    Vk.next_handle (gpu w') = frame_next f /\
    logcat w' = logcat w /\ env w' = env w.
Proof.
  destruct w as [r d lg e]. intros Hinv Hslot f. cbn [this gpu] in *.
  destruct (RenderEyeToDisplay_run t x y wd ht l rt r d lg e Hinv Hslot)
    as [o ->].
  eexists. split; [reflexivity |]. fold f.
  rewrite emitted_update. done.
Qed.

(** A frame with any other slot only logs. *)
Lemma RenderEyeToDisplay_skip t x y width height l rt w :
  slot_valid (this w) t = false ->
  RenderEyeToDisplay t x y width height l rt w =
    Some (tt, mkWorld (this w) (gpu w)
                (logcat w ++
                 ["Input swapchain image index is above the swapchain length"%string])
                (env w)).
Proof.
  unfold slot_valid. intros Hge%Z.ltb_ge.
  unfold RenderEyeToDisplay. fold (slot_of t). cbv [bind get].
  destruct (Z.leb_spec (swapchain_image_count_ (this w)) (slot_of t)); [| lia].
  reflexivity.
Qed.

(** *** What a frame's calls contain *)

Lemma frame_indexed_draws r n t x y wd ht l rt :
  indexed_draws (frame_calls (frame_of r n t x y wd ht l rt)) =
  [(aget kLeft (vertex_buffers_ r), aget kLeft (index_buffers_ r),
    CInt.to_uint32 (indices_count_ r), 1);
   (aget kRight (vertex_buffers_ r), aget kRight (index_buffers_ r),
    CInt.to_uint32 (indices_count_ r), 1)].
Proof. destruct r. frame_cases; reflexivity. Qed.

Lemma frame_unchanged r n t x y wd ht l rt :
  vk_render_pass t = current_render_pass_ r ->
  let f := frame_of r n t x y wd ht l rt in
  frame_rebuild f = [] /\
  pipeline_builds (frame_calls f) = [] /\
  pipeline_destructions (frame_calls f) = [] /\
  graphics_pipeline_ (frame_final f) = graphics_pipeline_ r /\
  bound_pipelines (frame_calls f) =
    [aget kLeft (graphics_pipeline_ r); aget kRight (graphics_pipeline_ r)] /\
  current_render_pass_ (frame_final f) = vk_render_pass t.
Proof.
  intros H. destruct r, t. cbn in H. subst.
  frame_cases; cbn; first [done | by destruct graphics_pipeline_].
Qed.

Lemma frame_changed r n t x y wd ht l rt :
  vk_render_pass t <> current_render_pass_ r ->
  let f := frame_of r n t x y wd ht l rt in
  pipeline_builds (frame_rebuild f) =
    [(vk_render_pass t, aget kLeft (graphics_pipeline_ (frame_final f)));
     (vk_render_pass t, aget kRight (graphics_pipeline_ (frame_final f)))] /\
  forallb is_pipeline_call (frame_rebuild f) = true /\
  pipeline_builds (frame_left f ++ frame_right f) = [] /\
  bound_pipelines (frame_left f ++ frame_right f) =
    [aget kLeft (graphics_pipeline_ (frame_final f));
     aget kRight (graphics_pipeline_ (frame_final f))] /\
  length (indexed_draws (frame_left f ++ frame_right f)) = 2%nat /\
  graphics_pipeline_ (frame_final f) = mkArr2 (n + 2) (n + 5) /\
  current_render_pass_ (frame_final f) = vk_render_pass t.
Proof.
  intros H. destruct r, t. cbn in H.
  frame_cases; cbn; rewrite <- ?Z.add_assoc; cbn;
    first [done | by exfalso; eauto].
Qed.

Lemma renderer_inv_frame r n t x y wd ht l rt :
  renderer_inv r = true ->
  renderer_inv (frame_final (frame_of r n t x y wd ht l rt)) = true.
Proof.
  intros H. rewrite <- H.
  destruct r. unfold renderer_inv, per_eye_sized.
  frame_cases; flat; by rewrite !length_insert.
Qed.

Lemma at_index_frame_views r n t x y wd ht l rt :
  renderer_inv r = true -> slot_valid r t = true ->
  let f := frame_of r n t x y wd ht l rt in
  exists vL vR,
    at_index (aget kLeft (image_views_ (frame_final f))) (slot_of t) = Some vL /\
    at_index (aget kRight (image_views_ (frame_final f))) (slot_of t) = Some vR /\
    frame_left f =
      eye_calls (frame_left_state f) kLeft l (vk_command_buffer t)
        (cached_view r kLeft (slot_of t)) (slot_set r kLeft (slot_of t)) vL /\
    frame_right f =
      eye_calls (frame_right_state f) kRight rt (vk_command_buffer t)
        (cached_view r kRight (slot_of t)) (slot_set r kRight (slot_of t)) vR.
Proof.
  intros Hinv Hslot f.
  destruct (renderer_inv_spec _ Hinv) as [Hcount Hlen].
  pose proof (slot_valid_spec _ _ Hslot) as Hs.
  destruct (Hlen kLeft) as [HvL _], (Hlen kRight) as [HvR _].
  destruct (at_index_is_Some (aget kLeft (image_views_ r)) (slot_of t)
              ltac:(lia)) as [oL HoL].
  destruct (at_index_is_Some (aget kRight (image_views_ r)) (slot_of t)
              ltac:(lia)) as [oR HoR].
  subst f. unfold frame_of.
  cbn [frame_final frame_left frame_right frame_left_state frame_right_state].
  destruct (render_pass_changed r t);
    (eexists _, _; split; [| split; [| split; reflexivity]]);
    [ apply (at_index_insert_eq _ _ _ oL); exact HoL
    | apply (at_index_insert_eq _ _ _ oR); exact HoR
    | apply (at_index_insert_eq _ _ _ oL); exact HoL
    | apply (at_index_insert_eq _ _ _ oR); exact HoR ].
Qed.

Lemma frame_rebuild_pipeline_only r n t x y wd ht l rt :
  forallb is_pipeline_call (frame_rebuild (frame_of r n t x y wd ht l rt)) = true.
Proof. destruct r. frame_cases; reflexivity. Qed.

Lemma frame_writes_after_creation r n t x y wd ht l rt :
  writes_after_creation [] (frame_calls (frame_of r n t x y wd ht l rt)) = true.
Proof.
  destruct r. frame_cases;
    cbn [writes_after_creation app forallb names_only Vk.info andb];
    rewrite ?bool_decide_true by (apply list_elem_of_here); reflexivity.
Qed.

Lemma frame_viewports r n t x y wd ht l rt :
  let f := frame_of r n t x y wd ht l rt in
  let r1 := with_size wd ht r in
  (forall eye,
     aget eye (viewport_ (frame_final f)) = eye_viewport r1 x y /\
     aget eye (scissor_ (frame_final f)) = eye_scissor r1 eye x y) /\
  viewports_set (frame_calls f) = [eye_viewport r1 x y; eye_viewport r1 x y] /\
  scissors_set (frame_calls f) =
    [eye_scissor r1 kLeft x y; eye_scissor r1 kRight x y].
Proof.
  destruct r. cbv zeta. split; [intros []; split | split];
    frame_cases; reflexivity.
Qed.

Lemma eye_viewport_in_range r x y wd ht :
  0 <= wd <= CInt.INT_MAX -> 0 <= ht <= CInt.INT_MAX ->
  eye_viewport (with_size wd ht r) x y = region_viewport x y wd ht.
Proof.
  unfold CInt.INT_MAX. intros Hw Hh. unfold eye_viewport, region_viewport.
  cbn. by rewrite !to_uint32_small by lia.
Qed.

Lemma eye_scissor_in_range r eye x y wd ht :
  0 <= wd <= CInt.INT_MAX -> 0 <= ht <= CInt.INT_MAX ->
  CInt.INT_MIN <= x + wd / 2 <= CInt.INT_MAX ->
  eye_scissor (with_size wd ht r) eye x y = half_scissor eye x y wd ht.
Proof.
  intros Hw Hh Hx. unfold eye_scissor, half_scissor. cbn.
  assert (0 <= wd / 2 <= wd).
  { split; [apply Z.div_pos; lia | apply Z.div_le_upper_bound; lia]. }
  unfold CInt.INT_MAX in Hw, Hh.
  rewrite !(to_uint32_small wd) by lia.
  rewrite !(to_uint32_small ht) by lia.
  rewrite !(to_uint32_small (wd / 2)) by lia.
  destruct eye; [done |]. by rewrite to_int32_of_sum.
Qed.

(** ** Construction *)

Lemma CreateSwapchainImageViews_run r d lg e :
  let imgs := Vk.images_of (swapchain_ r) d in
  swapchain_image_count_ r = Z.of_nat (length imgs) ->
  length (swapchain_images_ r) = length imgs ->
  length (swapchain_views_ r) = length imgs ->
  exists views n o c,
    CreateSwapchainImageViews (mkWorld r d lg e) =
    Some (tt, mkWorld
      (set_swapchain_views_ views
         (set_swapchain_images_ imgs
            (set_swapchain_image_count_ (Z.of_nat (length imgs)) r)))
      (Vk.update d n o c) lg e).
Proof.
  intros imgs Hcount Himgs Hviews.
  unfold CreateSwapchainImageViews, CreateImageView.
  cbv [Vk.GetSwapchainImages]. fold imgs.
  destruct d as [n o c sc mt mb]. run. rewrite Hcount, Nat2Z.id.
  rewrite firstn_all. fold imgs.
  assert (Hin : Vk.images_of (swapchain_ r) (Vk.mkDevice n o c sc mt mb) = imgs)
    by done.
  rewrite write_data_same_length by done. run.
  set (P := fun (_ : unit) (w : World) =>
              exists views n' o' c',
                length views = length imgs /\
                w = mkWorld
                      (set_swapchain_views_ views
                         (set_swapchain_images_ imgs
                            (set_swapchain_image_count_ (Z.of_nat (length imgs)) r)))
                      (Vk.mkDevice n' o' c' sc mt mb) lg e).
  unfold for_upto.
  match goal with
  | |- context [loop ?l ?body tt ?w0] =>
      destruct (loop_invariant P l body) with (s := tt) (w := w0)
        as ([] & w1 & Hrun & HP)
  end.
  - intros i [] w Hi (views & n' & o' & c' & Hlen & ->).
    apply elem_of_seqZ in Hi.
    cbv [Vk.CreateImageView]. run.
    destruct (at_index_is_Some imgs i ltac:(lia)) as [img ->]. run.
    destruct (at_index_is_Some views i ltac:(lia)) as [v Hv].
    rewrite (assign_index_Some _ _ _ _ Hv). run.
    eexists tt, _. split; [reflexivity |].
    eexists _, _, _, _. split; [| reflexivity]. by rewrite length_insert.
  - exists (swapchain_views_ r), n, o,
      (c ++ [Vk.vkGetSwapchainImagesKHR (swapchain_ r) true]).
    split; [done |]. destruct r; reflexivity.
  - destruct HP as (views & n' & o' & c' & Hlen & ->).
    rewrite Hrun. by exists views, n', o', c'.
Qed.

Lemma length_fresh_sets pool h n o :
  length (Vk.fresh_sets pool h n o).1 = n.
Proof.
  revert h o. induction n as [| n IH]; intros h o; [done |].
  cbn. specialize (IH (h + 1) (<[h := Vk.ODescriptorSet pool []]> o)).
  destruct (Vk.fresh_sets pool (h + 1) n _) as [hs o']. cbn in *. lia.
Qed.

Lemma CreatePerEyeVulkanObjects_run eye r d lg e :
  exists pool ub um sets n o c lg',
    length sets = Z.to_nat (swapchain_image_count_ r) /\
    CreatePerEyeVulkanObjects eye (mkWorld r d lg e) =
    Some (tt, mkWorld
      (set_image_views_
         (aset eye (replicate (Z.to_nat (swapchain_image_count_ r))
                              Vk.VK_NULL_HANDLE) (image_views_ r))
         (set_descriptor_sets_ (aset eye sets (descriptor_sets_ r))
            (set_uniform_buffers_memory_ (aset eye um (uniform_buffers_memory_ r))
               (set_uniform_buffers_ (aset eye ub (uniform_buffers_ r))
                  (set_descriptor_pool_ (aset eye pool (descriptor_pool_ r)) r)))))
      (Vk.update d n o c) lg' e).
Proof.
  unfold CreatePerEyeVulkanObjects, CreateDescriptorPool, CreateUniformBuffers,
    CreateBuffer, FindMemoryType, CreateDescriptorSets.
  cbv [Vk.CreateDescriptorPool Vk.AllocateDescriptorSets].
  destruct d as [n o c sc mt mb]. destruct r. destruct eye.
  all: run; flat; lookups; run; flat.
  all: destruct (first_suitable mb host_visible_coherent 0 mt) as [ti |];
    run; flat; lookups; run; flat.
  all: match goal with
       | |- context [Vk.fresh_sets ?p ?h ?k ?o] =>
           pose proof (length_fresh_sets p h k o) as Hlen;
           destruct (Vk.fresh_sets p h k o) as [hs o']
       end; cbn [fst] in Hlen; rewrite length_replicate in Hlen; run; flat;
       rewrite write_data_same_length by (rewrite length_resize; done);
       run; flat;
       rewrite const_fmap_replicate, length_resize;
       (eexists _, _, _, hs, _, _, _, _; split; [exact Hlen |]);
       reflexivity.
Qed.

Lemma ctor_not_loaded config r d lg e :
  vulkan_loadable e = false ->
  VulkanDistortionRenderer_ctor config (mkWorld r d lg e) =
  Some (tt, mkWorld (member_init r) d
              (lg ++ ["Failed to load vulkan lib in cardboard!"%string]) e).
Proof.
  intros H. unfold VulkanDistortionRenderer_ctor, LoadVulkan.
  cbv [bind put get this gpu logcat env]. rewrite H. reflexivity.
Qed.

(** With the loader available the constructor runs to its end, and sizes
    the per-eye vectors by the number of swapchain images. *)
Lemma ctor_loaded config r d lg e :
  vulkan_loadable e = true ->
  let imgs := Vk.images_of (vk_swapchain config) d in
  exists r' d' lg',
    VulkanDistortionRenderer_ctor config (mkWorld r d lg e) =
      Some (tt, mkWorld r' d' lg' e) /\
    swapchain_image_count_ r' = Z.of_nat (length imgs) /\
    forall eye,
      length (aget eye (image_views_ r')) = length imgs /\
      length (aget eye (descriptor_sets_ r')) = length imgs.
Proof.
  intros H imgs. unfold VulkanDistortionRenderer_ctor, LoadVulkan,
    GetSwapchainImagesCount, CreateSharedVulkanObjects,
    CreateDescriptorSetLayout, CreatePipelineLayout, CreateTextureSampler.
  cbv [Vk.GetSwapchainImagesCount Vk.CreateDescriptorSetLayout
       Vk.CreatePipelineLayout Vk.CreateSampler Vk.GetPhysicalDeviceProperties
       member_init].
  destruct d as [n o c sc mt mb], r, config as [pd ld sw].
  cbv [bind get put this gpu logcat env LoadVulkan]. rewrite H.
  run. flat. rewrite !Nat2Z.id.
  change (Vk.images_of sw (Vk.mkDevice n o c sc mt mb)) with imgs.
  match goal with
  | |- context [CreateSwapchainImageViews (mkWorld ?r1 ?d1 ?lg1 _)] =>
      destruct (CreateSwapchainImageViews_run r1 d1 lg1 e)
        as (views & n1 & o1 & c1 & ->);
        [reflexivity | cbn; by rewrite length_resize
        | cbn; by rewrite length_resize |]
  end.
  flat.
  change (Vk.images_of sw _) with imgs.
  match goal with
  | |- context [CreatePerEyeVulkanObjects kLeft (mkWorld ?r1 ?d1 ?lg1 _)] =>
      destruct (CreatePerEyeVulkanObjects_run kLeft r1 d1 lg1 e)
        as (p2 & ub2 & um2 & sets2 & n2 & o2 & c2 & lg2 & Hlen2 & ->)
  end.
  flat. flat_in Hlen2.
  match goal with
  | |- context [CreatePerEyeVulkanObjects kRight (mkWorld ?r1 ?d1 ?lg1 _)] =>
      destruct (CreatePerEyeVulkanObjects_run kRight r1 d1 lg1 e)
        as (p3 & ub3 & um3 & sets3 & n3 & o3 & c3 & lg3 & Hlen3 & ->)
  end.
  flat. flat_in Hlen3.
  eexists _, _, _. split; [reflexivity |]. flat. split; [done |].
  cbn in Hlen2, Hlen3. rewrite Nat2Z.id in Hlen2, Hlen3.
  intros []; flat; rewrite ?length_replicate, ?Nat2Z.id; done.
Qed.

(** The factory builds an object the methods can use. *)
Lemma factory_establishes_invariant config w :
  sdk_initialized (env w) = true -> vulkan_loadable (env w) = true ->
  Z.of_nat (length (Vk.images_of (vk_swapchain config) (gpu w))) <= CInt.INT_MAX ->
  exists w',
    CardboardVulkanDistortionRenderer_create (Some config) w = Some (object, w') /\
    renderer_inv (this w') = true.
Proof.
  destruct w as [r d lg e]. cbn [env gpu]. intros Hsdk Hvk Hmax.
  destruct (ctor_loaded config r d lg e Hvk) as (r' & d' & lg' & Hrun & Hcount & Hlen).
  exists (mkWorld r' d' lg' e).
  unfold CardboardVulkanDistortionRenderer_create, CARDBOARD_IS_NOT_INITIALIZED.
  cbv [bind env ret]. rewrite Hsdk. cbn. rewrite Hrun. split; [done |].
  cbn [this]. unfold renderer_inv, per_eye_sized.
  destruct (Hlen kLeft) as [-> ->], (Hlen kRight) as [-> ->]. rewrite Hcount.
  rewrite Z.eqb_refl. cbn.
  destruct (Z.leb_spec 0 (Z.of_nat (length (Vk.images_of (vk_swapchain config) d))));
    [| lia].
  destruct (Z.leb_spec (Z.of_nat (length (Vk.images_of (vk_swapchain config) d)))
              CInt.INT_MAX); [done | lia].
Qed.

(** ** The properties of the specification *)

(** C1. The index count used at draw time is one shared value: after any
    sequence of [SetMesh] calls with valid meshes, ending with [mesh] for
    [eye], a frame with a valid slot issues exactly two indexed draws, the
    first with the left eye's buffers bound and the second with the right
    eye's, and both draw [n_indices mesh] indices (one instance), whichever
    eye that last call was for. *)
Theorem draws_use_last_index_count
    (calls : list (CardboardMesh * CardboardEye)) (mesh : CardboardMesh)
    (eye : CardboardEye) (t : CardboardVulkanDistortionRendererTarget)
    (x y width height : Z) (l rt : CardboardEyeTextureDescription)
    (w : World) :
  forallb (fun c => mesh_valid c.1) calls = true ->
  mesh_valid mesh = true ->
  renderer_inv (this w) = true ->
  slot_valid (this w) t = true ->
  exists w1 w2,
    SetMeshes (calls ++ [(mesh, eye)]) w = Some (tt, w1) /\
    RenderEyeToDisplay t x y width height l rt w1 = Some (tt, w2) /\
    indices_count_ (this w1) = n_indices mesh /\
    indexed_draws (emitted w1 w2) =
      [(aget kLeft (vertex_buffers_ (this w1)),
        aget kLeft (index_buffers_ (this w1)), n_indices mesh, 1);
       (aget kRight (vertex_buffers_ (this w1)),
        aget kRight (index_buffers_ (this w1)), n_indices mesh, 1)].
Proof.
  intros Hcalls Hmesh Hinv Hslot.
  destruct (SetMeshes_world calls w Hcalls) as (w0 & Hrun0 & Hinv0 & Hcount0).
  destruct (SetMesh_world mesh eye w0 Hmesh) as (w1 & ? & ? & Hrun1 & Hthis1 & _).
  assert (Hinv1 : renderer_inv (this w1) = true).
  { rewrite Hthis1, renderer_inv_with_mesh. congruence. }
  assert (Hslot1 : slot_valid (this w1) t = true).
  { rewrite <- Hslot. rewrite Hthis1. apply slot_valid_count.
    rewrite <- Hcount0. reflexivity. }
  destruct (RenderEyeToDisplay_frame t x y width height l rt w1 Hinv1 Hslot1)
    as (w2 & Hrun2 & _ & Hcalls2 & _).
  assert (Hn : indices_count_ (this w1) = n_indices mesh) by (by rewrite Hthis1).
  exists w1, w2. split; [| split; [done | split; [done |]]].
  - rewrite SetMeshes_app, Hrun0. cbn. unfold bind. by rewrite Hrun1.
  - rewrite Hcalls2, frame_indexed_draws, Hn.
    destruct (mesh_valid_spec _ Hmesh) as (_ & _ & _ & _ & Hr & _).
    unfold CInt.INT_MAX in Hr. rewrite to_uint32_small by lia. done.
Qed.

Lemma draws_use_last_index_count_witness :
  exists w1 w2,
    SetMeshes ([(Fixture.quad, kLeft)] ++ [(Fixture.triangle, kRight)])
      Fixture.built = Some (tt, w1) /\
    RenderEyeToDisplay (Fixture.target 0) 0 0 1000 500
      Fixture.left_texture Fixture.right_texture w1 = Some (tt, w2) /\
    indices_count_ (this w1) = 3 /\
    indexed_draws (emitted w1 w2) =
      [(aget kLeft (vertex_buffers_ (this w1)),
        aget kLeft (index_buffers_ (this w1)), 3, 1);
       (aget kRight (vertex_buffers_ (this w1)),
        aget kRight (index_buffers_ (this w1)), 3, 1)].
Proof.
  apply (draws_use_last_index_count [(Fixture.quad, kLeft)] Fixture.triangle
           kRight (Fixture.target 0) 0 0 1000 500 Fixture.left_texture
           Fixture.right_texture Fixture.built); reflexivity.
Defined.

(** C2. A [RenderEyeToDisplay] whose target decodes to a slot index at or
    above the swapchain image count returns with the object (every data
    member: image-view caches, handles of uniform buffers, descriptor sets
    and pipelines, cached render pass, cached width and height) and the
    device (trace, live objects, memory contents) as they were; it makes
    no call at all and appends one error message to the log. *)
Theorem out_of_range_slot_is_a_no_op
    (t : CardboardVulkanDistortionRendererTarget) (x y width height : Z)
    (l rt : CardboardEyeTextureDescription) (w : World) :
  slot_valid (this w) t = false ->
  RenderEyeToDisplay t x y width height l rt w =
    Some (tt, mkWorld (this w) (gpu w)
                (logcat w ++
                 ["Input swapchain image index is above the swapchain length"%string])
                (env w)) /\
  calls_of (RenderEyeToDisplay t x y width height l rt) w = [].
Proof.
  intros Hge. pose proof (RenderEyeToDisplay_skip t x y width height l rt w Hge)
    as Hrun.
  split; [exact Hrun |].
  unfold calls_of. rewrite Hrun. unfold emitted. cbn. apply drop_all.
Qed.

Lemma out_of_range_slot_is_a_no_op_witness :
  RenderEyeToDisplay (Fixture.target 2) 0 0 1000 500
    Fixture.left_texture Fixture.right_texture Fixture.ready =
    Some (tt, mkWorld (this Fixture.ready) (gpu Fixture.ready)
                (logcat Fixture.ready ++
                 ["Input swapchain image index is above the swapchain length"%string])
                (env Fixture.ready)) /\
  calls_of (RenderEyeToDisplay (Fixture.target 2) 0 0 1000 500
              Fixture.left_texture Fixture.right_texture) Fixture.ready = [].
Proof.
  apply (out_of_range_slot_is_a_no_op (Fixture.target 2) 0 0 1000 500
           Fixture.left_texture Fixture.right_texture Fixture.ready).
  reflexivity.
Defined.

(** C3. Pipelines are rebuilt exactly when the render pass changes.  On a
    frame with a valid slot the cached handle ends up equal to the one
    supplied.  If the two differed, the frame's calls split into a first
    part that only builds pipelines (exactly two, for the new render pass:
    the left eye's, then the right eye's) and a second part, holding both
    eyes' draws, that builds none and binds those two pipelines.  If they
    were equal, no pipeline is built or destroyed and the draws bind the
    pipelines already there.  A following call with the same handle builds
    no pipeline. *)
Theorem pipelines_rebuilt_exactly_on_render_pass_change
    (t : CardboardVulkanDistortionRendererTarget) (x y width height : Z)
    (l rt : CardboardEyeTextureDescription) (w : World) :
  renderer_inv (this w) = true ->
  slot_valid (this w) t = true ->
  exists w',
    RenderEyeToDisplay t x y width height l rt w = Some (tt, w') /\
    current_render_pass_ (this w') = vk_render_pass t /\
    (vk_render_pass t <> current_render_pass_ (this w) ->
     exists pre post,
       emitted w w' = pre ++ post /\
       pipeline_builds pre =
         [(vk_render_pass t, aget kLeft (graphics_pipeline_ (this w')));
          (vk_render_pass t, aget kRight (graphics_pipeline_ (this w')))] /\
       forallb is_pipeline_call pre = true /\
       pipeline_builds post = [] /\
       bound_pipelines post =
         [aget kLeft (graphics_pipeline_ (this w'));
          aget kRight (graphics_pipeline_ (this w'))] /\
       length (indexed_draws post) = 2%nat) /\
    (vk_render_pass t = current_render_pass_ (this w) ->
     pipeline_builds (emitted w w') = [] /\
     pipeline_destructions (emitted w w') = [] /\
     graphics_pipeline_ (this w') = graphics_pipeline_ (this w) /\
     bound_pipelines (emitted w w') =
       [aget kLeft (graphics_pipeline_ (this w));
        aget kRight (graphics_pipeline_ (this w))]) /\
    (forall (t2 : CardboardVulkanDistortionRendererTarget)
            (x2 y2 width2 height2 : Z)
            (l2 rt2 : CardboardEyeTextureDescription),
       vk_render_pass t2 = vk_render_pass t ->
       exists w'',
         RenderEyeToDisplay t2 x2 y2 width2 height2 l2 rt2 w' = Some (tt, w'') /\
         pipeline_builds (emitted w' w'') = [] /\
         graphics_pipeline_ (this w'') = graphics_pipeline_ (this w')).
Proof.
  intros Hinv Hslot.
  destruct (RenderEyeToDisplay_frame t x y width height l rt w Hinv Hslot)
    as (w' & Hrun & Hthis & Hcalls & _).
  set (f := frame_of (this w) (Vk.next_handle (gpu w)) t x y width height l rt) in *.
  assert (Hrp : current_render_pass_ (this w') = vk_render_pass t).
  { rewrite Hthis. destruct (decide (vk_render_pass t = current_render_pass_ (this w)))
      as [Heq | Hne].
    - apply (frame_unchanged _ (Vk.next_handle (gpu w)) _ x y width height l rt Heq).
    - apply (frame_changed _ (Vk.next_handle (gpu w)) _ x y width height l rt Hne). }
  exists w'. split; [done |]. split; [done |]. split; [| split].
  - intros Hne.
    destruct (frame_changed _ (Vk.next_handle (gpu w)) _ x y width height l rt Hne)
      as (H1 & H2 & H3 & H4 & H5 & _).
    exists (frame_rebuild f), (frame_left f ++ frame_right f).
    rewrite Hcalls, Hthis. done.
  - intros Heq.
    destruct (frame_unchanged _ (Vk.next_handle (gpu w)) _ x y width height l rt Heq)
      as (_ & H1 & H2 & H3 & H4 & _).
    rewrite Hcalls, Hthis. done.
  - intros t2 x2 y2 width2 height2 l2 rt2 Hsame.
    destruct (slot_valid (this w') t2) eqn:Hslot2.
    + assert (Hinv' : renderer_inv (this w') = true).
      { rewrite Hthis. by apply renderer_inv_frame. }
      destruct (RenderEyeToDisplay_frame t2 x2 y2 width2 height2 l2 rt2 w'
                  Hinv' Hslot2) as (w'' & Hrun2 & Hthis2 & Hcalls2 & _).
      assert (Heq : vk_render_pass t2 = current_render_pass_ (this w'))
        by congruence.
      destruct (frame_unchanged _ (Vk.next_handle (gpu w')) _ x2 y2 width2
                  height2 l2 rt2 Heq) as (_ & H1 & _ & H3 & _).
      exists w''. rewrite Hcalls2, Hthis2. done.
    + eexists. split; [by apply RenderEyeToDisplay_skip |].
      unfold emitted. cbn. by rewrite drop_all.
Qed.

Lemma pipelines_rebuilt_exactly_on_render_pass_change_witness :
  exists w',
    RenderEyeToDisplay (Fixture.target 0) 0 0 1000 500 Fixture.left_texture
      Fixture.right_texture Fixture.ready = Some (tt, w') /\
    current_render_pass_ (this w') = vk_render_pass (Fixture.target 0) /\
    (vk_render_pass (Fixture.target 0) <> current_render_pass_ (this Fixture.ready) ->
     exists pre post,
       emitted Fixture.ready w' = pre ++ post /\
       pipeline_builds pre =
         [(vk_render_pass (Fixture.target 0),
           aget kLeft (graphics_pipeline_ (this w')));
          (vk_render_pass (Fixture.target 0),
           aget kRight (graphics_pipeline_ (this w')))] /\
       forallb is_pipeline_call pre = true /\
       pipeline_builds post = [] /\
       bound_pipelines post =
         [aget kLeft (graphics_pipeline_ (this w'));
          aget kRight (graphics_pipeline_ (this w'))] /\
       length (indexed_draws post) = 2%nat) /\
    (vk_render_pass (Fixture.target 0) = current_render_pass_ (this Fixture.ready) ->
     pipeline_builds (emitted Fixture.ready w') = [] /\
     pipeline_destructions (emitted Fixture.ready w') = [] /\
     graphics_pipeline_ (this w') = graphics_pipeline_ (this Fixture.ready) /\
     bound_pipelines (emitted Fixture.ready w') =
       [aget kLeft (graphics_pipeline_ (this Fixture.ready));
        aget kRight (graphics_pipeline_ (this Fixture.ready))]) /\
    (forall (t2 : CardboardVulkanDistortionRendererTarget)
            (x2 y2 width2 height2 : Z)
            (l2 rt2 : CardboardEyeTextureDescription),
       vk_render_pass t2 = vk_render_pass (Fixture.target 0) ->
       exists w'',
         RenderEyeToDisplay t2 x2 y2 width2 height2 l2 rt2 w' = Some (tt, w'') /\
         pipeline_builds (emitted w' w'') = [] /\
         graphics_pipeline_ (this w'') = graphics_pipeline_ (this w')).
Proof.
  apply (pipelines_rebuilt_exactly_on_render_pass_change (Fixture.target 0)
           0 0 1000 500 Fixture.left_texture Fixture.right_texture
           Fixture.ready); reflexivity.
Defined.

(** C4. For a valid mesh with [n_vertices] vertices and [n_indices]
    indices, after [SetMesh mesh eye] the eye's vertex buffer has size
    [n_vertices * 16] and is bound to the eye's vertex memory, which holds
    the bytes of the interleaved sequence
    (positions[2i], positions[2i+1], uvs[2i], uvs[2i+1]), [n_vertices * 16]
    of them; the eye's index buffer has size [n_indices * 2] and its memory
    holds the indices reduced to 16 bits, two bytes each. *)
Theorem SetMesh_uploads_interleaved_vertices_and_short_indices
    (mesh : CardboardMesh) (eye : CardboardEye) (w : World) :
  mesh_valid mesh = true ->
  exists w',
    SetMesh mesh eye w = Some (tt, w') /\
    let vb := aget eye (vertex_buffers_ (this w')) in
    let vm := aget eye (vertex_buffers_memory_ (this w')) in
    let ib := aget eye (index_buffers_ (this w')) in
    let im := aget eye (index_buffers_memory_ (this w')) in
    Vk.buffer_size (gpu w') vb = Some (n_vertices mesh * 16) /\
    Vk.buffer_memory (gpu w') vb = Some vm /\
    Vk.memory_contents (gpu w') vm = Some (vertex_data mesh) /\
    Z.of_nat (length (vertex_data mesh)) = n_vertices mesh * 16 /\
    Vk.buffer_size (gpu w') ib = Some (n_indices mesh * 2) /\
    Vk.buffer_memory (gpu w') ib = Some im /\
    Vk.memory_contents (gpu w') im = Some (index_data mesh) /\
    Z.of_nat (length (index_data mesh)) = n_indices mesh * 2.
Proof.
  intros Hv.
  destruct (SetMesh_world mesh eye w Hv)
    as (w' & ti1 & ti2 & Hrun & Hthis & _ & Hobj & _).
  destruct (mesh_valid_spec _ Hv) as (H0 & _ & _ & _ & H4 & _).
  exists w'. split; [done |]. cbv zeta. rewrite Hthis.
  unfold with_mesh.
  cbn [vertex_buffers_ vertex_buffers_memory_ index_buffers_
       index_buffers_memory_ set_indices_count_ set_index_buffers_memory_
       set_index_buffers_ set_vertex_buffers_memory_ set_vertex_buffers_].
  rewrite !aget_aset_eq.
  unfold Vk.buffer_size, Vk.buffer_memory, Vk.memory_contents. rewrite Hobj.
  lookups.
  repeat split; try done.
  - by apply length_vertex_data.
  - apply length_index_data. lia.
Qed.

Lemma SetMesh_uploads_interleaved_vertices_and_short_indices_witness :
  exists w',
    SetMesh Fixture.quad kLeft Fixture.built = Some (tt, w') /\
    let vb := aget kLeft (vertex_buffers_ (this w')) in
    let vm := aget kLeft (vertex_buffers_memory_ (this w')) in
    let ib := aget kLeft (index_buffers_ (this w')) in
    let im := aget kLeft (index_buffers_memory_ (this w')) in
    Vk.buffer_size (gpu w') vb = Some (n_vertices Fixture.quad * 16) /\
    Vk.buffer_memory (gpu w') vb = Some vm /\
    Vk.memory_contents (gpu w') vm = Some (vertex_data Fixture.quad) /\
    Z.of_nat (length (vertex_data Fixture.quad)) = n_vertices Fixture.quad * 16 /\
    Vk.buffer_size (gpu w') ib = Some (n_indices Fixture.quad * 2) /\
    Vk.buffer_memory (gpu w') ib = Some im /\
    Vk.memory_contents (gpu w') im = Some (index_data Fixture.quad) /\
    Z.of_nat (length (index_data Fixture.quad)) = n_indices Fixture.quad * 2.
Proof.
  apply (SetMesh_uploads_interleaved_vertices_and_short_indices Fixture.quad
           kLeft Fixture.built); reflexivity.
Defined.

(** C5. No buffer/memory pair is ever leaked.  The code does not keep
    this: [CreateBuffer] overwrites the eye's handles without releasing
    the pair they named.  On the fixture, after one frame, a second
    [SetMesh] for the left eye followed by the destructor leaves the left
    eye's first vertex buffer 16, its memory 17, index buffer 18 and its
    memory 19 live on the device: none of them is among the handles the
    destructor releases, and they are the four objects left.  (Every image
    view created is destroyed once.) *)
Theorem replaced_buffers_are_never_released :
  exists w',
    (SetMesh Fixture.triangle kLeft ;; VulkanDistortionRenderer_dtor)
      Fixture.drawn = Some (tt, w') /\
    aget kLeft (vertex_buffers_ (this Fixture.drawn)) = 16 /\
    aget kLeft (vertex_buffers_memory_ (this Fixture.drawn)) = 17 /\
    aget kLeft (index_buffers_ (this Fixture.drawn)) = 18 /\
    aget kLeft (index_buffers_memory_ (this Fixture.drawn)) = 19 /\
    Vk.buffer_size (gpu w') 16 = Some 64 /\
    Vk.buffer_memory (gpu w') 16 = Some 17 /\
    Vk.buffer_size (gpu w') 18 = Some 12 /\
    Vk.buffer_memory (gpu w') 18 = Some 19 /\
    is_Some (Vk.memory_contents (gpu w') 17) /\
    is_Some (Vk.memory_contents (gpu w') 19) /\
    size (Vk.objects (gpu w')) = 4%nat /\
    released (Vk.calls (gpu w')) = [34; 35; 22; 23; 32; 33; 20; 21; 7; 8; 12; 13] /\
    views_created (Vk.calls (gpu w')) = [4; 5; 30; 31] /\
    views_destroyed (Vk.calls (gpu w')) = [30; 31; 4; 5].
Proof.
  eexists. split; [vm_compute; reflexivity |].
  repeat split; try (vm_compute; reflexivity); vm_compute; eexists; reflexivity.
Qed.

(** Without a replacement, destruction releases everything. *)
Example destruction_after_one_frame_releases_everything :
  Vk.objects (gpu (Fixture.after VulkanDistortionRenderer_dtor Fixture.drawn)) = ∅.
Proof. vm_compute. reflexivity. Qed.

(** C6, with the order the code has.  On a frame with a valid slot the
    calls are the pipeline rebuild (if any) followed by the left eye's
    calls and then the right eye's, and each eye's calls are, in this
    order: the write of the remap rectangle into the eye's uniform memory
    (map, copy, unmap); the destruction of the slot's previous image view
    if there is one; the creation of the new view on the supplied texture;
    the update of the slot's descriptor set, naming that new view; the
    binding of pipeline, viewport, scissor, vertex buffer, index buffer and
    descriptor set; one indexed draw with instance count 1.  The new views
    are the ones cached for the slot afterwards, and no descriptor write
    names a view that was not created earlier in the frame. *)
Theorem eye_draw_sequence
    (t : CardboardVulkanDistortionRendererTarget) (x y width height : Z)
    (l rt : CardboardEyeTextureDescription) (w : World) :
  renderer_inv (this w) = true ->
  slot_valid (this w) t = true ->
  let f := frame_of (this w) (Vk.next_handle (gpu w)) t x y width height l rt in
  exists w' vL vR,
    RenderEyeToDisplay t x y width height l rt w = Some (tt, w') /\
    emitted w w' =
      frame_rebuild f ++
      eye_calls (frame_left_state f) kLeft l (vk_command_buffer t)
        (cached_view (this w) kLeft (slot_of t))
        (slot_set (this w) kLeft (slot_of t)) vL ++
      eye_calls (frame_right_state f) kRight rt (vk_command_buffer t)
        (cached_view (this w) kRight (slot_of t))
        (slot_set (this w) kRight (slot_of t)) vR /\
    forallb is_pipeline_call (frame_rebuild f) = true /\
    at_index (aget kLeft (image_views_ (this w'))) (slot_of t) = Some vL /\
    at_index (aget kRight (image_views_ (this w'))) (slot_of t) = Some vR /\
    writes_after_creation [] (emitted w w') = true.
Proof.
  intros Hinv Hslot f.
  destruct (RenderEyeToDisplay_frame t x y width height l rt w Hinv Hslot)
    as (w' & Hrun & Hthis & Hcalls & _). fold f in Hthis, Hcalls.
  destruct (at_index_frame_views (this w) (Vk.next_handle (gpu w)) t x y width
              height l rt Hinv Hslot) as (vL & vR & HL & HR & HcL & HcR).
  fold f in HL, HR, HcL, HcR.
  exists w', vL, vR. rewrite Hthis, Hcalls.
  split; [done |]. split; [| split; [| split; [done | split; [done |]]]].
  - unfold frame_calls. by rewrite HcL, HcR.
  - apply frame_rebuild_pipeline_only.
  - apply frame_writes_after_creation.
Qed.

Lemma eye_draw_sequence_witness :
  let f := frame_of (this Fixture.drawn) (Vk.next_handle (gpu Fixture.drawn))
             (Fixture.target 0) 0 0 1000 500 Fixture.left_texture
             Fixture.right_texture in
  exists w' vL vR,
    RenderEyeToDisplay (Fixture.target 0) 0 0 1000 500 Fixture.left_texture
      Fixture.right_texture Fixture.drawn = Some (tt, w') /\
    emitted Fixture.drawn w' =
      frame_rebuild f ++
      eye_calls (frame_left_state f) kLeft Fixture.left_texture
        (vk_command_buffer (Fixture.target 0))
        (cached_view (this Fixture.drawn) kLeft (slot_of (Fixture.target 0)))
        (slot_set (this Fixture.drawn) kLeft (slot_of (Fixture.target 0))) vL ++
      eye_calls (frame_right_state f) kRight Fixture.right_texture
        (vk_command_buffer (Fixture.target 0))
        (cached_view (this Fixture.drawn) kRight (slot_of (Fixture.target 0)))
        (slot_set (this Fixture.drawn) kRight (slot_of (Fixture.target 0))) vR /\
    forallb is_pipeline_call (frame_rebuild f) = true /\
    at_index (aget kLeft (image_views_ (this w'))) (slot_of (Fixture.target 0)) =
      Some vL /\
    at_index (aget kRight (image_views_ (this w'))) (slot_of (Fixture.target 0)) =
      Some vR /\
    writes_after_creation [] (emitted Fixture.drawn w') = true.
Proof.
  apply (eye_draw_sequence (Fixture.target 0) 0 0 1000 500 Fixture.left_texture
           Fixture.right_texture Fixture.drawn); reflexivity.
Defined.

(** C6 as listed in the specification (the uniform write after the
    descriptor update) fails: on the fixture the left eye's calls start
    with the uniform write. *)
Lemma eye_draw_not_in_listed_order :
  ~ eye_draw_in_listed_order Fixture.ready Fixture.left_texture kLeft 400 0.
Proof.
  intros (w' & Hrun & Hord). vm_compute in Hrun.
  injection Hrun as <-. vm_compute in Hord. discriminate.
Qed.

(** C7, with the split the code makes.  For a draw region whose sizes are
    non-negative [int]s and whose middle is an [int], after a frame with a
    valid slot each eye's viewport is the whole region [(x, y, width,
    height)] with depth range 0 to 1, and each eye's scissor is a
    half-width, full-height column: offset [(x, y)] for the left eye,
    [(x + width / 2, y)] for the right eye, extent [(width / 2, height)];
    these are the values the frame's viewport and scissor commands carry,
    left eye first. *)
Theorem viewport_whole_region_scissor_half_column
    (t : CardboardVulkanDistortionRendererTarget) (x y width height : Z)
    (l rt : CardboardEyeTextureDescription) (w : World) :
  renderer_inv (this w) = true ->
  slot_valid (this w) t = true ->
  region_in_range x width height = true ->
  exists w',
    RenderEyeToDisplay t x y width height l rt w = Some (tt, w') /\
    (forall eye,
       aget eye (viewport_ (this w')) = region_viewport x y width height /\
       aget eye (scissor_ (this w')) = half_scissor eye x y width height) /\
    viewports_set (emitted w w') =
      [region_viewport x y width height; region_viewport x y width height] /\
    scissors_set (emitted w w') =
      [half_scissor kLeft x y width height; half_scissor kRight x y width height].
Proof.
  intros Hinv Hslot Hr.
  assert (0 <= width <= CInt.INT_MAX /\ 0 <= height <= CInt.INT_MAX /\
          CInt.INT_MIN <= x + width / 2 <= CInt.INT_MAX) as (Hw & Hh & Hx).
  { unfold region_in_range in Hr.
    repeat (apply andb_prop in Hr; destruct Hr as [Hr ?]).
    repeat match goal with
           | H : (_ <=? _) = true |- _ => apply Z.leb_le in H
           end.
    lia. }
  destruct (RenderEyeToDisplay_frame t x y width height l rt w Hinv Hslot)
    as (w' & Hrun & Hthis & Hcalls & _).
  destruct (frame_viewports (this w) (Vk.next_handle (gpu w)) t x y width
              height l rt) as (Hst & Hvp & Hsc).
  exists w'. rewrite Hthis, Hcalls, Hvp, Hsc.
  rewrite eye_viewport_in_range, !eye_scissor_in_range by done.
  split; [done |]. split; [| done].
  intros eye. destruct (Hst eye) as [-> ->].
  by rewrite eye_viewport_in_range, eye_scissor_in_range.
Qed.

Lemma viewport_whole_region_scissor_half_column_witness :
  exists w',
    RenderEyeToDisplay (Fixture.target 1) 10 20 1000 500 Fixture.left_texture
      Fixture.right_texture Fixture.ready = Some (tt, w') /\
    (forall eye,
       aget eye (viewport_ (this w')) = region_viewport 10 20 1000 500 /\
       aget eye (scissor_ (this w')) = half_scissor eye 10 20 1000 500) /\
    viewports_set (emitted Fixture.ready w') =
      [region_viewport 10 20 1000 500; region_viewport 10 20 1000 500] /\
    scissors_set (emitted Fixture.ready w') =
      [half_scissor kLeft 10 20 1000 500; half_scissor kRight 10 20 1000 500].
Proof.
  apply (viewport_whole_region_scissor_half_column (Fixture.target 1)
           10 20 1000 500 Fixture.left_texture Fixture.right_texture
           Fixture.ready); reflexivity.
Defined.

(** C7 as worded in the specification (the viewport itself a half-width
    column, at x-offset 0 for the left eye) fails: for the region
    (10, 0, 1000, 500) the left viewport is 1000 wide. *)
Lemma viewport_is_not_a_half_column :
  ~ split_in_columns Fixture.ready (Fixture.target 0) 10 0 1000 500
      Fixture.left_texture Fixture.right_texture.
Proof.
  intros (w' & Hrun & Hsplit). vm_compute in Hrun. injection Hrun as <-.
  destruct (Hsplit kLeft) as [Hvp _]. vm_compute in Hvp. discriminate.
Qed.

(** C8. For the draw region (0, 0, 1000, 500) a frame with a valid slot
    leaves the left eye's viewport at x 0, y 0, width 1000, height 500,
    the left scissor at offset (0, 0) with extent (500, 500) and the
    right scissor at offset (500, 0) with extent (500, 500), and records
    these values in the command buffer. *)
Theorem split_of_1000_by_500
    (t : CardboardVulkanDistortionRendererTarget)
    (l rt : CardboardEyeTextureDescription) (w : World) :
  renderer_inv (this w) = true ->
  slot_valid (this w) t = true ->
  exists w',
    RenderEyeToDisplay t 0 0 1000 500 l rt w = Some (tt, w') /\
    aget kLeft (viewport_ (this w')) =
      Vk.mkViewport (F32.of_Z 0) (F32.of_Z 0) (F32.of_Z 1000) (F32.of_Z 500)
        F32.zero F32.one /\
    aget kLeft (scissor_ (this w')) =
      Vk.mkRect2D (Vk.mkOffset2D 0 0) (Vk.mkExtent2D 500 500) /\
    aget kRight (scissor_ (this w')) =
      Vk.mkRect2D (Vk.mkOffset2D 500 0) (Vk.mkExtent2D 500 500) /\
    viewports_set (emitted w w') =
      [Vk.mkViewport (F32.of_Z 0) (F32.of_Z 0) (F32.of_Z 1000) (F32.of_Z 500)
         F32.zero F32.one;
       Vk.mkViewport (F32.of_Z 0) (F32.of_Z 0) (F32.of_Z 1000) (F32.of_Z 500)
         F32.zero F32.one] /\
    scissors_set (emitted w w') =
      [Vk.mkRect2D (Vk.mkOffset2D 0 0) (Vk.mkExtent2D 500 500);
       Vk.mkRect2D (Vk.mkOffset2D 500 0) (Vk.mkExtent2D 500 500)].
Proof.
  intros Hinv Hslot.
  destruct (RenderEyeToDisplay_frame t 0 0 1000 500 l rt w Hinv Hslot)
    as (w' & Hrun & Hthis & Hcalls & _).
  destruct (frame_viewports (this w) (Vk.next_handle (gpu w)) t 0 0 1000 500
              l rt) as (Hst & Hvp & Hsc).
  exists w'. rewrite Hthis, Hcalls, Hvp, Hsc.
  destruct (Hst kLeft) as [-> ->]. destruct (Hst kRight) as [_ ->].
  done.
Qed.

Lemma split_of_1000_by_500_witness :
  exists w',
    RenderEyeToDisplay (Fixture.target 0) 0 0 1000 500 Fixture.left_texture
      Fixture.right_texture Fixture.ready = Some (tt, w') /\
    aget kLeft (viewport_ (this w')) =
      Vk.mkViewport (F32.of_Z 0) (F32.of_Z 0) (F32.of_Z 1000) (F32.of_Z 500)
        F32.zero F32.one /\
    aget kLeft (scissor_ (this w')) =
      Vk.mkRect2D (Vk.mkOffset2D 0 0) (Vk.mkExtent2D 500 500) /\
    aget kRight (scissor_ (this w')) =
      Vk.mkRect2D (Vk.mkOffset2D 500 0) (Vk.mkExtent2D 500 500) /\
    viewports_set (emitted Fixture.ready w') =
      [Vk.mkViewport (F32.of_Z 0) (F32.of_Z 0) (F32.of_Z 1000) (F32.of_Z 500)
         F32.zero F32.one;
       Vk.mkViewport (F32.of_Z 0) (F32.of_Z 0) (F32.of_Z 1000) (F32.of_Z 500)
         F32.zero F32.one] /\
    scissors_set (emitted Fixture.ready w') =
      [Vk.mkRect2D (Vk.mkOffset2D 0 0) (Vk.mkExtent2D 500 500);
       Vk.mkRect2D (Vk.mkOffset2D 500 0) (Vk.mkExtent2D 500 500)].
Proof.
  apply (split_of_1000_by_500 (Fixture.target 0) Fixture.left_texture
           Fixture.right_texture Fixture.ready); reflexivity.
Defined.

(** C9, with the condition the code tests.  The factory always returns;
    it returns null exactly when the SDK is not initialised or the
    configuration pointer is null, and then changes nothing.  A loader
    that cannot be initialised does not make it return null: the object
    is returned with only its default member initialisers applied, the
    device untouched and one error message logged. *)
Theorem factory_null_iff_sdk_uninitialised_or_config_null
    (config : option CardboardVulkanDistortionRendererConfig) (w : World) :
  exists p w',
    CardboardVulkanDistortionRenderer_create config w = Some (p, w') /\
    (p = nullptr <-> sdk_initialized (env w) = false \/ config = None) /\
    (p = nullptr -> w' = w) /\
    (p = object -> vulkan_loadable (env w) = false ->
     this w' = member_init (this w) /\ gpu w' = gpu w /\
     logcat w' = logcat w ++ ["Failed to load vulkan lib in cardboard!"%string]).
Proof.
  destruct w as [r d lg e].
  unfold CardboardVulkanDistortionRenderer_create, CARDBOARD_IS_NOT_INITIALIZED.
  cbv [bind env ret].
  destruct (sdk_initialized e) eqn:Hsdk; cbn.
  - destruct config as [c |]; cbn.
    + destruct (vulkan_loadable e) eqn:Hvk.
      * destruct (ctor_loaded c r d lg e Hvk) as (r' & d' & lg' & -> & _).
        eexists object, _. split; [reflexivity |].
        split; [| split]; [split; [done | by intros [|]] | done | done].
      * rewrite (ctor_not_loaded c r d lg e Hvk).
        eexists object, _. split; [reflexivity |].
        split; [| split]; [split; [done | by intros [|]] | done | done].
    + eexists nullptr, _. split; [reflexivity |].
      split; [| split]; [by split; [right |] | done | done].
  - eexists nullptr, _. split; [reflexivity |].
    split; [| split]; [by split; [left |] | done | done].
Qed.

(** C9 as worded in the specification (null exactly when the loader fails
    or the configuration is absent) fails: with the SDK initialised, a
    configuration given and no loader, the factory returns an object. *)
Lemma factory_not_null_when_loader_fails :
  ~ null_iff_loader_or_config (Fixture.fresh (mkEnv true false))
      (Some Fixture.config).
Proof.
  intros (p & w' & Hrun & Hiff). vm_compute in Hrun.
  injection Hrun as <- <-. destruct Hiff as [_ Hnull].
  specialize (Hnull (or_introl eq_refl)). discriminate.
Qed.

(** C10. [SetMesh mesh eye] with a valid mesh assigns the vertex buffer,
    vertex memory, index buffer and index memory of [eye] and the shared
    index count, and no other data member: the other eye's four handles,
    both uniform buffers and their memories, the descriptor pools and
    sets, the image-view caches and the pipelines are as before.  On the
    device every object that existed keeps its state; only the four fresh
    handles are added. *)
Theorem SetMesh_touches_one_eye_and_the_shared_count
    (mesh : CardboardMesh) (eye : CardboardEye) (w : World) :
  mesh_valid mesh = true ->
  exists w' vb vm ib im,
    SetMesh mesh eye w = Some (tt, w') /\
    this w' = with_mesh eye vb vm ib im (n_indices mesh) (this w) /\
    aget (other_eye eye) (vertex_buffers_ (this w')) =
      aget (other_eye eye) (vertex_buffers_ (this w)) /\
    aget (other_eye eye) (vertex_buffers_memory_ (this w')) =
      aget (other_eye eye) (vertex_buffers_memory_ (this w)) /\
    aget (other_eye eye) (index_buffers_ (this w')) =
      aget (other_eye eye) (index_buffers_ (this w)) /\
    aget (other_eye eye) (index_buffers_memory_ (this w')) =
      aget (other_eye eye) (index_buffers_memory_ (this w)) /\
    uniform_buffers_ (this w') = uniform_buffers_ (this w) /\
    uniform_buffers_memory_ (this w') = uniform_buffers_memory_ (this w) /\
    descriptor_pool_ (this w') = descriptor_pool_ (this w) /\
    descriptor_sets_ (this w') = descriptor_sets_ (this w) /\
    image_views_ (this w') = image_views_ (this w) /\
    graphics_pipeline_ (this w') = graphics_pipeline_ (this w) /\
    indices_count_ (this w') = n_indices mesh /\
    (forall h, ~ (Vk.next_handle (gpu w) <= h < Vk.next_handle (gpu w) + 4) ->
       Vk.objects (gpu w') !! h = Vk.objects (gpu w) !! h).
Proof.
  intros Hv.
  destruct (SetMesh_world mesh eye w Hv)
    as (w' & ti1 & ti2 & Hrun & Hthis & _ & Hobj & _).
  eexists w', _, _, _, _. split; [done |]. split; [exact Hthis |].
  rewrite Hthis, Hobj.
  repeat split; try (by destruct eye).
  intros h Hh. by rewrite !lookup_insert_ne by lia.
Qed.

Lemma SetMesh_touches_one_eye_and_the_shared_count_witness :
  exists w' vb vm ib im,
    SetMesh Fixture.triangle kRight Fixture.ready = Some (tt, w') /\
    this w' = with_mesh kRight vb vm ib im (n_indices Fixture.triangle)
                (this Fixture.ready) /\
    aget (other_eye kRight) (vertex_buffers_ (this w')) =
      aget (other_eye kRight) (vertex_buffers_ (this Fixture.ready)) /\
    aget (other_eye kRight) (vertex_buffers_memory_ (this w')) =
      aget (other_eye kRight) (vertex_buffers_memory_ (this Fixture.ready)) /\
    aget (other_eye kRight) (index_buffers_ (this w')) =
      aget (other_eye kRight) (index_buffers_ (this Fixture.ready)) /\
    aget (other_eye kRight) (index_buffers_memory_ (this w')) =
      aget (other_eye kRight) (index_buffers_memory_ (this Fixture.ready)) /\
    uniform_buffers_ (this w') = uniform_buffers_ (this Fixture.ready) /\
    uniform_buffers_memory_ (this w') = uniform_buffers_memory_ (this Fixture.ready) /\
    descriptor_pool_ (this w') = descriptor_pool_ (this Fixture.ready) /\
    descriptor_sets_ (this w') = descriptor_sets_ (this Fixture.ready) /\
    image_views_ (this w') = image_views_ (this Fixture.ready) /\
    graphics_pipeline_ (this w') = graphics_pipeline_ (this Fixture.ready) /\
    indices_count_ (this w') = n_indices Fixture.triangle /\
    (forall h,
       ~ (Vk.next_handle (gpu Fixture.ready) <= h
          < Vk.next_handle (gpu Fixture.ready) + 4) ->
       Vk.objects (gpu w') !! h = Vk.objects (gpu Fixture.ready) !! h).
Proof.
  apply (SetMesh_touches_one_eye_and_the_shared_count Fixture.triangle kRight
           Fixture.ready); reflexivity.
Defined.

(** ** Further properties of the code *)

Lemma land_bit (a i : Z) :
  0 <= i -> negb (Z.land a (Z.shiftl 1 i) =? 0) = Z.testbit a i.
Proof.
  intros Hi. rewrite Z.shiftl_1_l.
  destruct (Z.testbit a i) eqn:Hb.
  - apply negb_true_iff, Z.eqb_neq. intros H0.
    assert (Hf : Z.testbit (Z.land a (2 ^ i)) i = true).
    { rewrite Z.land_spec, Hb, Z.pow2_bits_true by lia. done. }
    rewrite H0, Z.bits_0 in Hf. done.
  - apply negb_false_iff, Z.eqb_eq. apply Z.bits_inj_0. intros m.
    rewrite Z.land_spec.
    destruct (decide (m = i)) as [-> |].
    + by rewrite Hb.
    + destruct (Z.le_gt_cases 0 m).
      * rewrite (Z.pow2_bits_false i m) by lia. apply andb_false_r.
      * rewrite (Z.testbit_neg_r (2 ^ i)) by lia. apply andb_false_r.
Qed.

Lemma first_suitable_spec typeFilter properties (types : list Z) (base : nat)
    (all : list Z) :
  drop base all = types ->
  match first_suitable typeFilter properties (Z.of_nat base) types with
  | Some k =>
      exists i, k = Z.of_nat i /\ (base <= i)%nat /\
        suitable typeFilter properties all i = true /\
        forall j, (base <= j < i)%nat -> suitable typeFilter properties all j = false
  | None =>
      forall j, (base <= j)%nat -> suitable typeFilter properties all j = false
  end.
Proof.
  revert base. induction types as [| flags rest IH]; intros base Hdrop.
  - cbn. intros j Hj. unfold suitable.
    rewrite lookup_ge_None_2; [apply andb_false_r |].
    apply drop_nil_inv in Hdrop. lia.
  - assert (Hl : all !! base = Some flags).
    { rewrite <- (Nat.add_0_r base), <- lookup_drop, Hdrop. done. }
    assert (Hrest : drop (S base) all = rest).
    { rewrite (drop_S _ _ _ Hl) in Hdrop. by injection Hdrop. }
    cbn [first_suitable]. rewrite land_bit by lia.
    assert (Hs : suitable typeFilter properties all base =
                 Z.testbit typeFilter (Z.of_nat base) &&
                 (Z.land flags properties =? properties)).
    { unfold suitable. by rewrite Hl. }
    rewrite <- Hs.
    destruct (suitable typeFilter properties all base) eqn:Hb.
    + exists base. repeat split; [lia | done | intros j Hj; lia].
    + specialize (IH (S base) Hrest).
      replace (Z.of_nat base + 1) with (Z.of_nat (S base)) by lia.
      destruct (first_suitable typeFilter properties (Z.of_nat (S base)) rest)
        as [k |].
      * destruct IH as (i & -> & Hi & Hsi & Hlt).
        exists i. repeat split; [lia | done |].
        intros j Hj. destruct (decide (j = base)) as [-> |]; [done |].
        apply Hlt. lia.
      * intros j Hj. destruct (decide (j = base)) as [-> |]; [done |].
        apply IH. lia.
Qed.

(** X1. [FindMemoryType] returns the index of the first memory type whose
    bit is set in the filter and whose flags include every requested
    property, and logs nothing.  When no type passes it logs the failure
    and returns 0, which is also the index of the first type.  The device
    only sees the query of the memory properties.  (A device reports at
    most 32 types, one per bit of the filter.) *)
Theorem FindMemoryType_first_suitable_or_zero (typeFilter properties : Z)
    (w : World) :
  (length (Vk.memory_types (gpu w)) <= 32)%nat ->
  let types := Vk.memory_types (gpu w) in
  let queried :=
    Vk.record
      (Vk.vkGetPhysicalDeviceMemoryProperties (physical_device_ (this w)))
      (gpu w) in
  exists k lg,
    FindMemoryType typeFilter properties w =
      Some (k, mkWorld (this w) queried lg (env w)) /\
    ((exists i : nat,
        k = Z.of_nat i /\ suitable typeFilter properties types i = true /\
        (forall j, (j < i)%nat -> suitable typeFilter properties types j = false) /\
        lg = logcat w) \/
     ((forall j, suitable typeFilter properties types j = false) /\
      k = 0 /\
      lg = logcat w ++ ["Failed to find suitable memory type!"%string])).
Proof.
  intros _ types queried.
  pose proof (first_suitable_spec typeFilter properties types 0 types
                (drop_0 _)) as Hspec.
  unfold FindMemoryType. cbv [bind get vk Vk.GetPhysicalDeviceMemoryProperties].
  cbn [this gpu logcat env fst snd]. fold types. fold queried.
  change (Z.of_nat 0) with 0 in Hspec.
  destruct (first_suitable typeFilter properties 0 types) as [k |].
  - destruct Hspec as (i & -> & _ & Hs & Hlt).
    exists (Z.of_nat i), (logcat w). split; [reflexivity |]. left.
    exists i. repeat split; [done |]. intros j Hj. apply Hlt. lia.
  - exists 0, (logcat w ++ ["Failed to find suitable memory type!"%string]).
    split; [reflexivity |]. right. split; [| done].
    intros j. apply Hspec. lia.
Qed.

Lemma FindMemoryType_first_suitable_or_zero_witness :
  let w := Fixture.ready in
  let types := Vk.memory_types (gpu w) in
  let queried :=
    Vk.record
      (Vk.vkGetPhysicalDeviceMemoryProperties (physical_device_ (this w)))
      (gpu w) in
  exists k lg,
    FindMemoryType 1 host_visible_coherent w =
      Some (k, mkWorld (this w) queried lg (env w)) /\
    ((exists i : nat,
        k = Z.of_nat i /\ suitable 1 host_visible_coherent types i = true /\
        (forall j, (j < i)%nat -> suitable 1 host_visible_coherent types j = false) /\
        lg = logcat w) \/
     ((forall j, suitable 1 host_visible_coherent types j = false) /\
      k = 0 /\
      lg = logcat w ++ ["Failed to find suitable memory type!"%string])).
Proof.
  apply (FindMemoryType_first_suitable_or_zero 1 host_visible_coherent
           Fixture.ready).
  vm_compute. lia.
Defined.

Lemma CreateVertexBuffer_calls eye verts r d lg e :
  let n := Vk.next_handle d in
  let size := CInt.to_uint64 (sizeof_Vertex * Z.of_nat (length verts)) in
  let ti := default 0 (found_memory_type d) in
  CreateVertexBuffer eye verts (mkWorld r d lg e) =
  Some (tt, mkWorld
    (set_vertex_buffers_memory_ (aset eye (n + 1) (vertex_buffers_memory_ r))
       (set_vertex_buffers_ (aset eye n (vertex_buffers_ r)) r))
    (Vk.update d (n + 2)
       (<[n + 1 := Vk.OMemory size ti
                     (Mem.memcpy (replicate (Z.to_nat size) Byte.x00)
                        (mjoin (Vertex_bytes <$> verts)) size)]>
          (<[n := Vk.OBuffer size Vk.VK_BUFFER_USAGE_VERTEX_BUFFER_BIT (n + 1)]>
             (Vk.objects d)))
       (Vk.calls d ++
        buffer_calls r size Vk.VK_BUFFER_USAGE_VERTEX_BUFFER_BIT ti n ++
        upload_calls size n (mjoin (Vertex_bytes <$> verts))))
    (lg ++ memory_type_log d) e).
Proof.
  intros n size ti. subst n ti.
  unfold CreateVertexBuffer, CreateBuffer, FindMemoryType, memory_type_log,
    found_memory_type, buffer_calls, upload_calls.
  fold size. clearbody size.
  destruct d as [n o c sc mt mb]. run. rewrite !aget_aset_eq. lookups. run.
  destruct (first_suitable mb host_visible_coherent 0 mt) as [ti |]; run;
    rewrite ?aget_aset_eq; lookups; run; rewrite ?aget_aset_eq; lookups; run;
    rewrite insert_pair_again by lia;
    rewrite <- ?app_assoc, <- ?Z.add_assoc, ?app_nil_r; destruct r; reflexivity.
Qed.

Lemma CreateIndexBuffer_calls eye idxs r d lg e :
  let n := Vk.next_handle d in
  let size := CInt.to_uint64 (sizeof_uint16_t * Z.of_nat (length idxs)) in
  let ti := default 0 (found_memory_type d) in
  CreateIndexBuffer eye idxs (mkWorld r d lg e) =
  Some (tt, mkWorld
    (set_index_buffers_memory_ (aset eye (n + 1) (index_buffers_memory_ r))
       (set_index_buffers_ (aset eye n (index_buffers_ r)) r))
    (Vk.update d (n + 2)
       (<[n + 1 := Vk.OMemory size ti
                     (Mem.memcpy (replicate (Z.to_nat size) Byte.x00)
                        (mjoin (Mem.uint16_bytes <$> idxs)) size)]>
          (<[n := Vk.OBuffer size Vk.VK_BUFFER_USAGE_INDEX_BUFFER_BIT (n + 1)]>
             (Vk.objects d)))
       (Vk.calls d ++
        buffer_calls r size Vk.VK_BUFFER_USAGE_INDEX_BUFFER_BIT ti n ++
        upload_calls size n (mjoin (Mem.uint16_bytes <$> idxs))))
    (lg ++ memory_type_log d) e).
Proof.
  intros n size ti. subst n ti.
  unfold CreateIndexBuffer, CreateBuffer, FindMemoryType, memory_type_log,
    found_memory_type, buffer_calls, upload_calls.
  fold size. clearbody size.
  destruct d as [n o c sc mt mb]. run. rewrite !aget_aset_eq. lookups. run.
  destruct (first_suitable mb host_visible_coherent 0 mt) as [ti |]; run;
    rewrite ?aget_aset_eq; lookups; run; rewrite ?aget_aset_eq; lookups; run;
    rewrite insert_pair_again by lia;
    rewrite <- ?app_assoc, <- ?Z.add_assoc, ?app_nil_r; destruct r; reflexivity.
Qed.

Lemma SetMesh_calls mesh eye r d lg e :
  mesh_valid mesh = true ->
  let n := Vk.next_handle d in
  let ti := default 0 (found_memory_type d) in
  SetMesh mesh eye (mkWorld r d lg e) =
  Some (tt, mkWorld
    (with_mesh eye n (n + 1) (n + 2) (n + 3) (n_indices mesh) r)
    (Vk.update d (n + 4)
       (<[n + 3 := Vk.OMemory (n_indices mesh * 2) ti (index_data mesh)]>
          (<[n + 2 := Vk.OBuffer (n_indices mesh * 2)
                        Vk.VK_BUFFER_USAGE_INDEX_BUFFER_BIT (n + 3)]>
             (<[n + 1 := Vk.OMemory (n_vertices mesh * 16) ti (vertex_data mesh)]>
                (<[n := Vk.OBuffer (n_vertices mesh * 16)
                          Vk.VK_BUFFER_USAGE_VERTEX_BUFFER_BIT (n + 1)]>
                   (Vk.objects d)))))
       (Vk.calls d ++ mesh_calls r mesh ti n))
    (lg ++ memory_type_log d ++ memory_type_log d) e).
Proof.
  intros Hv n ti. destruct (mesh_valid_spec _ Hv) as (H0 & H1 & H2 & H3 & H4 & H5).
  unfold CInt.INT_MAX in *.
  unfold SetMesh, resize_int.
  destruct (Z.ltb_spec (n_vertices mesh) 0) as [| _]; [lia |].
  destruct (Z.ltb_spec (n_indices mesh) 0) as [| _]; [lia |].
  cbv [bind defined].
  rewrite (for_upto_fill_Z (vertex_at mesh) (fill_vertex mesh)); [| lia | |].
  2: { intros i cur Hi Hl. by apply fill_vertex_run. }
  2: { rewrite length_resize. done. }
  fold (interleaved mesh).
  rewrite CreateVertexBuffer_calls.
  rewrite (for_upto_fill_Z (fun i => CInt.to_uint16 (nth i (indices mesh) 0))
             (fill_index mesh)); [| lia | |].
  2: { intros i cur Hi Hl. by apply fill_index_run. }
  2: { rewrite length_resize. done. }
  fold (truncated mesh).
  rewrite CreateIndexBuffer_calls.
  assert (Hs1 : CInt.to_uint64 (sizeof_Vertex * Z.of_nat (length (interleaved mesh)))
                = n_vertices mesh * 16).
  { unfold interleaved. rewrite length_fmap, length_seq.
    unfold CInt.to_uint64, sizeof_Vertex, sizeof_float.
    rewrite Z.mod_small by lia. lia. }
  assert (Hs2 : CInt.to_uint64 (sizeof_uint16_t * Z.of_nat (length (truncated mesh)))
                = n_indices mesh * 2).
  { unfold truncated. rewrite length_fmap, length_seq.
    unfold CInt.to_uint64, sizeof_uint16_t.
    rewrite Z.mod_small by lia. lia. }
  rewrite Hs1, Hs2.
  fold (vertex_data mesh). fold (index_data mesh).
  rewrite !memcpy_whole by (first [apply length_vertex_data | apply length_index_data]; lia).
  unfold put, with_mesh, mesh_calls. subst n ti.
  cbv [this gpu logcat env found_memory_type memory_type_log buffer_calls].
  destruct d as [n0 o c sc mt mb], r. flat.
  rewrite <- !app_assoc, <- !Z.add_assoc.
  change (2 + 1) with 3. change (2 + 2) with 4. reflexivity.
Qed.

Lemma SetMesh_emitted mesh eye w :
  mesh_valid mesh = true ->
  exists w',
    SetMesh mesh eye w = Some (tt, w') /\
    emitted w w' =
      mesh_calls (this w) mesh (default 0 (found_memory_type (gpu w)))
        (Vk.next_handle (gpu w)) /\
    logcat w' = logcat w ++ memory_type_log (gpu w) ++ memory_type_log (gpu w).
Proof.
  destruct w as [r d lg e]. intros Hv. rewrite (SetMesh_calls _ _ _ _ _ _ Hv).
  eexists. split; [reflexivity |]. by rewrite emitted_update.
Qed.

(** X2. [SetMesh] with a valid mesh destroys nothing and frees nothing, and
    the table of the device is unchanged at every handle below the next
    fresh one: the buffers and memories an earlier [SetMesh] made for the
    eye stay live. *)
Theorem SetMesh_releases_nothing (mesh : CardboardMesh) (eye : CardboardEye)
    (w : World) :
  mesh_valid mesh = true ->
  exists w',
    SetMesh mesh eye w = Some (tt, w') /\
    forallb (fun c => negb (is_release c)) (emitted w w') = true /\
    forall h, h < Vk.next_handle (gpu w) ->
      Vk.objects (gpu w') !! h = Vk.objects (gpu w) !! h.
Proof.
  intros Hv.
  destruct (SetMesh_emitted mesh eye w Hv) as (w' & Hrun & Hcalls & _).
  destruct (SetMesh_world mesh eye w Hv) as (w2 & ? & ? & Hrun2 & _ & _ & Hobj & _).
  assert (w2 = w') as -> by congruence.
  exists w'. split; [done |]. split.
  - rewrite Hcalls. reflexivity.
  - intros h Hh. rewrite Hobj. by lookups.
Qed.

Lemma SetMesh_releases_nothing_witness :
  exists w',
    SetMesh Fixture.triangle kLeft Fixture.drawn = Some (tt, w') /\
    forallb (fun c => negb (is_release c)) (emitted Fixture.drawn w') = true /\
    forall h, h < Vk.next_handle (gpu Fixture.drawn) ->
      Vk.objects (gpu w') !! h = Vk.objects (gpu Fixture.drawn) !! h.
Proof.
  apply (SetMesh_releases_nothing Fixture.triangle kLeft Fixture.drawn).
  reflexivity.
Defined.




Lemma read_uint16s_bytes (l : list Z) :
  read_uint16s (mjoin (Mem.uint16_bytes <$> l)) = CInt.to_uint16 <$> l.
Proof.
  induction l as [| z l IH]; [done |].
  csimpl. change (Mem.uint16_bytes z) with
    [Mem.byte_of_Z z; Mem.byte_of_Z (z / 256)].
  cbn [app read_uint16s]. rewrite IH. f_equal.
  apply (uint16_bytes_decode z).
Qed.

Lemma fmap_nth_seq {A B} (f : A -> B) (l : list A) (d : A) (n : nat) :
  (n <= length l)%nat ->
  (fun i => f (nth i l d)) <$> seq 0 n = f <$> take n l.
Proof.
  intros Hn. apply list_eq. intros i.
  rewrite !list_lookup_fmap.
  destruct (decide (i < n)%nat) as [Hi | Hi].
  - rewrite lookup_seq_lt by done. rewrite lookup_take_lt by done. cbn.
    destruct (lookup_lt_is_Some_2 l i ltac:(lia)) as [x Hx]. rewrite Hx. cbn.
    f_equal. f_equal. by apply nth_lookup_Some.
  - rewrite lookup_seq_ge by lia. rewrite lookup_take_ge by lia. done.
Qed.

Lemma truncated_take mesh :
  mesh_valid mesh = true ->
  truncated mesh = CInt.to_uint16 <$> take (Z.to_nat (n_indices mesh)) (indices mesh).
Proof.
  intros Hv. destruct (mesh_valid_spec _ Hv) as (_ & _ & _ & _ & H4 & H5).
  unfold truncated. apply fmap_nth_seq. lia.
Qed.

Lemma to_uint16_in_range (l : list Z) :
  forallb is_uint16 l = true -> CInt.to_uint16 <$> l = l.
Proof.
  induction l as [| z l IH]; [done |]. cbn. intros [Hz Hl]%andb_prop.
  rewrite IH by done. f_equal. unfold is_uint16 in Hz.
  apply andb_prop in Hz as [H0%Z.leb_le H1%Z.ltb_lt].
  unfold CInt.to_uint16. apply Z.mod_small. lia.
Qed.

(** X4. When the first [n_indices] indices of a valid mesh fit 16 bits, the
    index memory read back as little-endian [uint16_t]s is exactly these
    indices. *)
Theorem SetMesh_indices_read_back (mesh : CardboardMesh) (eye : CardboardEye)
    (w : World) :
  mesh_valid mesh = true ->
  forallb is_uint16 (take (Z.to_nat (n_indices mesh)) (indices mesh)) = true ->
  exists w' bytes,
    SetMesh mesh eye w = Some (tt, w') /\
    Vk.memory_contents (gpu w') (aget eye (index_buffers_memory_ (this w'))) =
      Some bytes /\
    read_uint16s bytes = take (Z.to_nat (n_indices mesh)) (indices mesh).
Proof.
  intros Hv Hr.
  destruct (SetMesh_world mesh eye w Hv)
    as (w' & ti1 & ti2 & Hrun & Hthis & _ & Hobj & _).
  exists w', (index_data mesh). split; [done |]. split.
  - rewrite Hthis. unfold with_mesh.
    cbn [index_buffers_memory_ set_indices_count_ set_index_buffers_memory_].
    rewrite aget_aset_eq. unfold Vk.memory_contents. rewrite Hobj. by lookups.
  - unfold index_data. rewrite read_uint16s_bytes, truncated_take by done.
    rewrite <- list_fmap_compose.
    rewrite <- (to_uint16_in_range _ Hr) at 2.
    apply list_fmap_ext. intros _ z _. cbn.
    unfold CInt.to_uint16. apply Z.mod_mod. lia.
Qed.

Lemma SetMesh_indices_read_back_witness :
  exists w' bytes,
    SetMesh Fixture.triangle kLeft Fixture.built = Some (tt, w') /\
    Vk.memory_contents (gpu w') (aget kLeft (index_buffers_memory_ (this w'))) =
      Some bytes /\
    read_uint16s bytes =
      take (Z.to_nat (n_indices Fixture.triangle)) (indices Fixture.triangle).
Proof.
  apply (SetMesh_indices_read_back Fixture.triangle kLeft Fixture.built);
    reflexivity.
Defined.

Section LoopFailure.

Context {S : Type}.

Lemma loop_fails (l : list Z) (body : Z -> S -> M S) (i : Z) :
  i ∈ l -> (forall s w, body i s w = None) ->
  forall s w, loop l body s w = None.
Proof.
  intros Hi Hbody. induction l as [| j l IH]; intros s w.
  - by apply elem_of_nil in Hi.
  - cbn. unfold bind. apply elem_of_cons in Hi as [<- | Hi].
    + by rewrite Hbody.
    + destruct (body j s w) as [[s' w'] |]; [by apply IH | done].
Qed.

End LoopFailure.

Lemma checked_Some z k : CInt.checked z = Some k -> k = z /\ z <= CInt.INT_MAX.
Proof.
  unfold CInt.checked, CInt.in_int. intros H.
  destruct (Z.leb_spec CInt.INT_MIN z), (Z.leb_spec z CInt.INT_MAX);
    cbn in H; try done. split; [congruence | done].
Qed.

Lemma at_index_ge {A} (l : list A) (i : Z) :
  Z.of_nat (length l) <= i -> at_index l i = None.
Proof.
  intros H. unfold at_index. destruct (Z.ltb_spec i 0); [done |].
  apply lookup_ge_None_2. lia.
Qed.

(** The last vertex is out of reach when the arrays are too short or
    [2 * i + 1] overflows. *)
Lemma fill_vertex_fails mesh verts w :
  0 < n_vertices mesh ->
  CInt.INT_MAX + 1 < 2 * n_vertices mesh \/
  Z.of_nat (length (vertices mesh)) < 2 * n_vertices mesh \/
  Z.of_nat (length (uvs mesh)) < 2 * n_vertices mesh ->
  fill_vertex mesh (n_vertices mesh - 1) verts w = None.
Proof.
  intros Hpos Hbad. unfold fill_vertex. cbv [bind defined].
  set (i := n_vertices mesh - 1) in *.
  destruct (CInt.checked (2 * i)) as [k |] eqn:Hk; [| done].
  apply checked_Some in Hk as [-> Hk].
  destruct (at_index (vertices mesh) (2 * i)); [| done].
  destruct (modify_index verts i _) as [v1 |]; [| done].
  destruct (CInt.checked (2 * i + 1)) as [k |] eqn:Hk1; [| done].
  apply checked_Some in Hk1 as [-> Hk1].
  destruct (at_index (vertices mesh) (2 * i + 1)) eqn:Hv; [| done].
  destruct (modify_index v1 i _) as [v2 |]; [| done].
  destruct (at_index (uvs mesh) (2 * i)); [| done].
  destruct (modify_index v2 i _) as [v3 |]; [| done].
  rewrite (at_index_ge (uvs mesh) (2 * i + 1)); [done |].
  destruct Hbad as [Hbad | [Hbad | Hbad]]; [lia | | lia].
  rewrite at_index_ge in Hv by lia. done.
Qed.

Lemma elem_of_seqZ_0 (i n : Z) : 0 <= i < n -> i ∈ seqZ 0 n.
Proof. intros H. apply elem_of_seqZ. lia. Qed.

Lemma SetMesh_invalid mesh eye w :
  CInt.in_int (n_indices mesh) = true ->
  mesh_valid mesh = false -> SetMesh mesh eye w = None.
Proof.
  intros Hint Hbad. unfold CInt.in_int in Hint.
  apply andb_prop in Hint as [_ Hmax%Z.leb_le].
  unfold mesh_valid in Hbad.
  unfold SetMesh, resize_int. cbv [bind defined].
  destruct (Z.ltb_spec (n_vertices mesh) 0) as [| Hnv]; [done |].
  destruct (Z.leb_spec 0 (n_vertices mesh)) as [_ |]; [| lia].
  cbn [andb] in Hbad.
  destruct (Z.leb_spec (2 * n_vertices mesh) (CInt.INT_MAX + 1)) as [H1 | H1];
    cbn [andb] in Hbad;
    [destruct (Z.leb_spec (2 * n_vertices mesh) (Z.of_nat (length (vertices mesh))))
       as [H2 | H2]; cbn [andb] in Hbad;
     [destruct (Z.leb_spec (2 * n_vertices mesh) (Z.of_nat (length (uvs mesh))))
        as [H3 | H3]; cbn [andb] in Hbad |] |].
  2-4: unfold for_upto;
       rewrite (loop_fails _ _ (n_vertices mesh - 1)); [done | | ];
       [ apply elem_of_seqZ_0; unfold CInt.INT_MAX in *; lia
       | intros s w0; apply fill_vertex_fails; unfold CInt.INT_MAX in *; lia ].
  destruct (for_upto (n_vertices mesh) (fill_vertex mesh) _ w)
    as [[verts [r d lg e]] |]; [| done].
  rewrite CreateVertexBuffer_calls.
  destruct (Z.ltb_spec (n_indices mesh) 0) as [| Hni]; [done |].
  destruct (Z.leb_spec 0 (n_indices mesh)) as [_ |]; [| lia].
  destruct (Z.leb_spec (n_indices mesh) CInt.INT_MAX) as [_ |]; [| lia].
  cbn [andb] in Hbad. apply Z.leb_gt in Hbad.
  unfold for_upto.
  rewrite (loop_fails _ _ (Z.of_nat (length (indices mesh)))); [done | | ].
  - apply elem_of_seqZ_0. lia.
  - intros s w0. unfold fill_index. cbv [bind defined].
    rewrite at_index_ge by lia. done.
Qed.

(** X5. For counts that are [int]s, [SetMesh] has defined behaviour exactly
    when the mesh is valid: the counts are not negative, [2 * n_vertices - 1]
    is an [int], and the three arrays hold the entries the counts announce.
    Otherwise the resize gets a negative count or one of the two loops
    reads past an array. *)
Theorem SetMesh_defined_iff_mesh_valid (mesh : CardboardMesh)
    (eye : CardboardEye) (w : World) :
  CInt.in_int (n_vertices mesh) = true ->
  CInt.in_int (n_indices mesh) = true ->
  (SetMesh mesh eye w = None <-> mesh_valid mesh = false).
Proof.
  intros _ Hni. split.
  - intros Hnone. destruct (mesh_valid mesh) eqn:Hv; [| done].
    destruct (SetMesh_world mesh eye w Hv) as (w' & ? & ? & Hrun & _).
    congruence.
  - by apply SetMesh_invalid.
Qed.

Lemma SetMesh_defined_iff_mesh_valid_witness :
  SetMesh Variants.short_indices kLeft Fixture.built = None <->
  mesh_valid Variants.short_indices = false.
Proof.
  apply (SetMesh_defined_iff_mesh_valid Variants.short_indices kLeft
           Fixture.built); reflexivity.
Defined.

Lemma at_index_insert_ne {A} (v : list A) (i j : Z) (x : A) :
  0 <= j -> i <> j -> at_index (<[Z.to_nat j := x]> v) i = at_index v i.
Proof.
  intros Hj Hne. unfold at_index. destruct (Z.ltb_spec i 0); [done |].
  apply list_lookup_insert_ne. lia.
Qed.

Lemma frame_other_members r n t x y wd ht l rt :
  let r' := frame_final (frame_of r n t x y wd ht l rt) in
  physical_device_ r' = physical_device_ r /\
  logical_device_ r' = logical_device_ r /\
  swapchain_ r' = swapchain_ r /\
  indices_count_ r' = indices_count_ r /\
  swapchain_image_count_ r' = swapchain_image_count_ r /\
  texture_sampler_ r' = texture_sampler_ r /\
  descriptor_set_layout_ r' = descriptor_set_layout_ r /\
  pipeline_layout_ r' = pipeline_layout_ r /\
  swapchain_images_ r' = swapchain_images_ r /\
  swapchain_views_ r' = swapchain_views_ r /\
  vertex_buffers_ r' = vertex_buffers_ r /\
  vertex_buffers_memory_ r' = vertex_buffers_memory_ r /\
  index_buffers_ r' = index_buffers_ r /\
  index_buffers_memory_ r' = index_buffers_memory_ r /\
  uniform_buffers_ r' = uniform_buffers_ r /\
  uniform_buffers_memory_ r' = uniform_buffers_memory_ r /\
  descriptor_pool_ r' = descriptor_pool_ r /\
  descriptor_sets_ r' = descriptor_sets_ r.
Proof. destruct r. cbv zeta. frame_cases; done. Qed.




Lemma frame_view_calls r n t x y wd ht l rt :
  let f := frame_of r n t x y wd ht l rt in
  views_created (frame_calls f) = [views_base r t n; views_base r t n + 1] /\
  views_destroyed (frame_calls f) =
    views_destroyed (clean_view_calls (cached_view r kLeft (slot_of t)) ++
                     clean_view_calls (cached_view r kRight (slot_of t))).
Proof.
  destruct r. cbv zeta. unfold views_base.
  split; frame_cases; reflexivity.
Qed.

Lemma frame_cached_views r n t x y wd ht l rt :
  renderer_inv r = true -> slot_valid r t = true ->
  let f := frame_of r n t x y wd ht l rt in
  cached_view (frame_final f) kLeft (slot_of t) = views_base r t n /\
  cached_view (frame_final f) kRight (slot_of t) = views_base r t n + 1.
Proof.
  intros Hinv Hslot f.
  destruct (renderer_inv_spec _ Hinv) as [Hcount Hlen].
  pose proof (slot_valid_spec _ _ Hslot) as Hs.
  destruct (Hlen kLeft) as [HvL _], (Hlen kRight) as [HvR _].
  destruct (at_index_is_Some (aget kLeft (image_views_ r)) (slot_of t)
              ltac:(lia)) as [oL HoL].
  destruct (at_index_is_Some (aget kRight (image_views_ r)) (slot_of t)
              ltac:(lia)) as [oR HoR].
  subst f. unfold cached_view, frame_of, views_base. cbn [frame_final].
  destruct (render_pass_changed r t); split.
  all: match goal with
       | |- default _ ?e = ?v =>
           assert (H : e = Some v)
             by first [ apply (at_index_insert_eq _ _ _ oL); exact HoL
                      | apply (at_index_insert_eq _ _ _ oR); exact HoR ];
           rewrite H; reflexivity
       end.
Qed.

(** X7. Of two frames in the same slot, the second destroys exactly the two
    image views the first created, the left eye's first.  (Handles are
    positive: a device never hands out the null handle.) *)
Theorem next_frame_in_a_slot_destroys_the_views_of_the_last
    (t t2 : CardboardVulkanDistortionRendererTarget)
    (x y width height x2 y2 width2 height2 : Z)
    (l rt l2 rt2 : CardboardEyeTextureDescription) (w : World) :
  renderer_inv (this w) = true ->
  slot_valid (this w) t = true ->
  0 < Vk.next_handle (gpu w) ->
  slot_of t2 = slot_of t ->
  exists w1 w2 vL vR,
    RenderEyeToDisplay t x y width height l rt w = Some (tt, w1) /\
    RenderEyeToDisplay t2 x2 y2 width2 height2 l2 rt2 w1 = Some (tt, w2) /\
    views_created (emitted w w1) = [vL; vR] /\
    views_destroyed (emitted w1 w2) = [vL; vR].
Proof.
  intros Hinv Hslot Hpos Hsame.
  destruct (RenderEyeToDisplay_frame t x y width height l rt w Hinv Hslot)
    as (w1 & Hrun1 & Hthis1 & Hcalls1 & _).
  assert (Hinv1 : renderer_inv (this w1) = true).
  { rewrite Hthis1. by apply renderer_inv_frame. }
  assert (Hslot1 : slot_valid (this w1) t2 = true).
  { unfold slot_valid. rewrite Hsame. rewrite Hthis1.
    destruct (frame_other_members (this w) (Vk.next_handle (gpu w)) t x y width
                height l rt) as (_ & _ & _ & _ & -> & _).
    exact Hslot. }
  destruct (RenderEyeToDisplay_frame t2 x2 y2 width2 height2 l2 rt2 w1 Hinv1 Hslot1)
    as (w2 & Hrun2 & _ & Hcalls2 & _).
  destruct (frame_view_calls (this w) (Vk.next_handle (gpu w)) t x y width
              height l rt) as [Hc1 _].
  destruct (frame_view_calls (this w1) (Vk.next_handle (gpu w1)) t2 x2 y2 width2
              height2 l2 rt2) as [_ Hd2].
  destruct (frame_cached_views (this w) (Vk.next_handle (gpu w)) t x y width
              height l rt Hinv Hslot) as [HL HR].
  exists w1, w2, (views_base (this w) t (Vk.next_handle (gpu w))),
    (views_base (this w) t (Vk.next_handle (gpu w)) + 1).
  split; [done |]. split; [done |]. split; [by rewrite Hcalls1 |].
  rewrite Hcalls2, Hd2, Hsame, Hthis1, HL, HR.
  unfold clean_view_calls, views_base, Vk.VK_NULL_HANDLE.
  rewrite !bool_decide_true; [reflexivity | |];
    destruct (render_pass_changed (this w) t); lia.
Qed.

Lemma next_frame_in_a_slot_destroys_the_views_of_the_last_witness :
  exists w1 w2 vL vR,
    RenderEyeToDisplay (Fixture.target 1) 0 0 1000 500 Fixture.left_texture
      Fixture.right_texture Fixture.ready = Some (tt, w1) /\
    RenderEyeToDisplay (Fixture.target 1) 0 0 800 600 Fixture.right_texture
      Fixture.left_texture w1 = Some (tt, w2) /\
    views_created (emitted Fixture.ready w1) = [vL; vR] /\
    views_destroyed (emitted w1 w2) = [vL; vR].
Proof.
  apply (next_frame_in_a_slot_destroys_the_views_of_the_last
           (Fixture.target 1) (Fixture.target 1) 0 0 1000 500 0 0 800 600
           Fixture.left_texture Fixture.right_texture
           Fixture.right_texture Fixture.left_texture Fixture.ready);
    reflexivity.
Defined.

(** X8. A negative [width] is stored in the unsigned member
    [current_image_width_] as [2^32 + width]; both viewports get this
    value, converted to a float, as their width, and both scissors half of
    it as the width of their extent. *)
Theorem negative_width_is_read_as_unsigned
    (t : CardboardVulkanDistortionRendererTarget) (x y width height : Z)
    (l rt : CardboardEyeTextureDescription) (w : World) :
  renderer_inv (this w) = true ->
  slot_valid (this w) t = true ->
  CInt.in_int width = true ->
  (width <? 0) = true ->
  exists w',
    RenderEyeToDisplay t x y width height l rt w = Some (tt, w') /\
    current_image_width_ (this w') = 2 ^ 32 + width /\
    forall eye,
      Vk.vp_width (aget eye (viewport_ (this w'))) = F32.of_Z (2 ^ 32 + width) /\
      Vk.ext_width (Vk.extent (aget eye (scissor_ (this w')))) =
        (2 ^ 32 + width) / 2.
Proof.
  intros Hinv Hslot Hint Hneg. apply Z.ltb_lt in Hneg.
  unfold CInt.in_int, CInt.INT_MIN in Hint.
  apply andb_prop in Hint as [Hmin%Z.leb_le _].
  destruct (RenderEyeToDisplay_frame t x y width height l rt w Hinv Hslot)
    as (w' & Hrun & Hthis & _).
  destruct (frame_viewports (this w) (Vk.next_handle (gpu w)) t x y width
              height l rt) as (Hst & _).
  assert (Hw : CInt.to_uint32 width = 2 ^ 32 + width).
  { unfold CInt.to_uint32. symmetry. apply Z.mod_unique with (q := -1); lia. }
  exists w'. rewrite Hthis. split; [done |]. split.
  - rewrite <- Hw. destruct (this w). frame_cases; reflexivity.
  - intros eye. destruct (Hst eye) as [-> ->].
    unfold eye_viewport, eye_scissor, with_size. cbn. rewrite Hw.
    split; [done |]. apply to_uint32_small.
    split; [apply Z.div_pos; lia | apply Z.div_lt_upper_bound; lia].
Qed.

Lemma negative_width_is_read_as_unsigned_witness :
  exists w',
    RenderEyeToDisplay (Fixture.target 0) 0 0 (-2) 500 Fixture.left_texture
      Fixture.right_texture Fixture.ready = Some (tt, w') /\
    current_image_width_ (this w') = 2 ^ 32 + -2 /\
    forall eye,
      Vk.vp_width (aget eye (viewport_ (this w'))) = F32.of_Z (2 ^ 32 + -2) /\
      Vk.ext_width (Vk.extent (aget eye (scissor_ (this w')))) =
        (2 ^ 32 + -2) / 2.
Proof.
  apply (negative_width_is_read_as_unsigned (Fixture.target 0) 0 0 (-2) 500
           Fixture.left_texture Fixture.right_texture Fixture.ready);
    reflexivity.
Defined.

Lemma emitted_self w : emitted w w = [].
Proof. unfold emitted. apply drop_all. Qed.

Lemma emitted_snoc r n o c sc mt mb lg e r' n' o' evs sc' mt' mb' lg' e' :
  emitted (mkWorld r (Vk.mkDevice n o c sc mt mb) lg e)
          (mkWorld r' (Vk.mkDevice n' o' (c ++ evs) sc' mt' mb') lg' e') = evs.
Proof. unfold emitted. cbn. apply drop_app_length. Qed.

Lemma CleanPipeline_run eye r n o c sc mt mb lg e :
  let p := aget eye (graphics_pipeline_ r) in
  CleanPipeline eye (mkWorld r (Vk.mkDevice n o c sc mt mb) lg e) =
  Some (tt,
    if bool_decide (p <> Vk.VK_NULL_HANDLE) then
      mkWorld (set_graphics_pipeline_
                 (aset eye Vk.VK_NULL_HANDLE (graphics_pipeline_ r)) r)
              (Vk.mkDevice n (delete p o) (c ++ [Vk.vkDestroyPipeline p]) sc mt mb)
              lg e
    else mkWorld r (Vk.mkDevice n o c sc mt mb) lg e).
Proof.
  unfold CleanPipeline. cbv [Vk.DestroyPipeline]. run.
  by case_bool_decide.
Qed.

(** X9. [CleanPipeline eye] destroys the eye's pipeline when it is not null
    and nulls the member; the other eye's pipeline is kept, and a second
    call does nothing. *)
Theorem CleanPipeline_destroys_once (eye : CardboardEye) (w : World) :
  exists w',
    CleanPipeline eye w = Some (tt, w') /\
    emitted w w' =
      unless_null Vk.vkDestroyPipeline (aget eye (graphics_pipeline_ (this w))) /\
    aget eye (graphics_pipeline_ (this w')) = Vk.VK_NULL_HANDLE /\
    aget (other_eye eye) (graphics_pipeline_ (this w')) =
      aget (other_eye eye) (graphics_pipeline_ (this w)) /\
    CleanPipeline eye w' = Some (tt, w').
Proof.
  destruct w as [r [n o c sc mt mb] lg e]. rewrite CleanPipeline_run.
  unfold unless_null. cbn [this]. cbv zeta.
  case_bool_decide as Hp.
  - eexists. split; [reflexivity |]. rewrite emitted_snoc, CleanPipeline_run.
    cbn [this graphics_pipeline_ set_graphics_pipeline_].
    rewrite aget_aset_eq, bool_decide_false by (by intros []).
    split; [done |]. split; [done |]. split; [by destruct eye | reflexivity].
  - eexists. split; [reflexivity |]. rewrite emitted_self, CleanPipeline_run.
    cbv zeta. cbn [this]. rewrite bool_decide_false by (intros H; apply H, Hp).
    done.
Qed.

Lemma CleanTextureImageView_run eye index r n o c sc mt mb lg e old :
  at_index (aget eye (image_views_ r)) index = Some old ->
  CleanTextureImageView eye index (mkWorld r (Vk.mkDevice n o c sc mt mb) lg e) =
  Some (tt,
    if bool_decide (old <> Vk.VK_NULL_HANDLE) then
      mkWorld (with_view eye index Vk.VK_NULL_HANDLE r)
              (Vk.mkDevice n (delete old o) (c ++ [Vk.vkDestroyImageView old])
                 sc mt mb) lg e
    else mkWorld r (Vk.mkDevice n o c sc mt mb) lg e).
Proof.
  intros Hold. unfold CleanTextureImageView. cbv [Vk.DestroyImageView]. run.
  rewrite Hold. run. case_bool_decide; [| done]. run.
  rewrite (assign_index_Some _ _ _ _ Hold). reflexivity.
Qed.

(** X10. [CleanTextureImageView eye index] destroys the cached view of the
    slot when it is not null and nulls the entry, leaving every other
    entry; a second call does nothing.  An index outside the vector is an
    access out of bounds. *)
Theorem CleanTextureImageView_destroys_once (eye : CardboardEye) (index : Z)
    (w : World) :
  match at_index (aget eye (image_views_ (this w))) index with
  | Some old =>
      exists w',
        CleanTextureImageView eye index w = Some (tt, w') /\
        emitted w w' = unless_null Vk.vkDestroyImageView old /\
        at_index (aget eye (image_views_ (this w'))) index =
          Some Vk.VK_NULL_HANDLE /\
        (forall eye' j, (eye', j) <> (eye, index) ->
           at_index (aget eye' (image_views_ (this w'))) j =
           at_index (aget eye' (image_views_ (this w))) j) /\
        CleanTextureImageView eye index w' = Some (tt, w')
  | None => CleanTextureImageView eye index w = None
  end.
Proof.
  destruct w as [r [n o c sc mt mb] lg e]. cbn [this].
  destruct (at_index (aget eye (image_views_ r)) index) as [old |] eqn:Hold.
  - rewrite (CleanTextureImageView_run _ _ _ _ _ _ _ _ _ _ _ _ Hold).
    unfold unless_null. case_bool_decide as Hp.
    + assert (Hnew : at_index (aget eye (image_views_
                         (with_view eye index Vk.VK_NULL_HANDLE r))) index =
                     Some Vk.VK_NULL_HANDLE).
      { unfold with_view. cbn [image_views_ set_image_views_].
        rewrite aget_aset_eq. by eapply at_index_insert_eq. }
      eexists. split; [reflexivity |]. rewrite emitted_snoc. cbn [this].
      rewrite (CleanTextureImageView_run _ _ _ _ _ _ _ _ _ _ _ _ Hnew).
      rewrite bool_decide_false by (by intros []).
      split; [done |]. split; [done |]. split; [| done].
      intros eye' j Hne. unfold with_view. cbn [image_views_ set_image_views_].
      destruct (decide (eye' = eye)) as [-> | He].
      * rewrite aget_aset_eq. apply at_index_insert_ne; [| congruence].
        unfold at_index in Hold. destruct (Z.ltb_spec index 0); [done | lia].
      * by destruct eye, eye'.
    + subst old.
      eexists. split; [reflexivity |]. rewrite emitted_self. cbn [this].
      rewrite (CleanTextureImageView_run _ _ _ _ _ _ _ _ _ _ _ _ Hold).
      rewrite bool_decide_false by (by intros []). done.
  - unfold CleanTextureImageView. run. rewrite Hold. reflexivity.
Qed.

#[local] Arguments Vk.apply_write : simpl never.

Lemma without_None h k o : o !! k = None -> without h o !! k = None.
Proof.
  unfold without. intros H. case_bool_decide; [| done].
  destruct (decide (h = k)) as [-> |]; [apply lookup_delete_eq |].
  by rewrite lookup_delete_ne.
Qed.

Lemma CreateGraphicsPipeline_objects eye r n o c sc mt mb lg e :
  o !! n = None -> o !! (n + 1) = None ->
  CreateGraphicsPipeline eye (mkWorld r (Vk.mkDevice n o c sc mt mb) lg e) =
  Some (tt, mkWorld
    (set_graphics_pipeline_ (aset eye (n + 2) (graphics_pipeline_ r)) r)
    (Vk.mkDevice (n + 3)
       (<[n + 2 := Vk.OPipeline (pipeline_layout_ r) (current_render_pass_ r)]>
          (without (aget eye (graphics_pipeline_ r)) o))
       (c ++ pipeline_calls r eye n) sc mt mb)
    lg e).
Proof.
  intros H0 H1.
  assert (Hmap : forall o' : gmap Z Vk.Object, o' !! n = None -> o' !! (n + 1) = None ->
            delete (n + 1) (delete n
              (<[n + 1 + 1 := Vk.OPipeline (pipeline_layout_ r) (current_render_pass_ r)]>
                 (<[n + 1 := Vk.OShaderModule]> (<[n := Vk.OShaderModule]> o')))) =
            <[n + 2 := Vk.OPipeline (pipeline_layout_ r) (current_render_pass_ r)]> o').
  { intros o' Ha Hb. apply map_eq. intros k.
    replace (n + 1 + 1) with (n + 2) by lia.
    destruct (decide (k = n + 1)) as [-> |].
    { rewrite lookup_delete_eq, lookup_insert_ne by lia. done. }
    rewrite lookup_delete_ne by done.
    destruct (decide (k = n)) as [-> |].
    { rewrite lookup_delete_eq, lookup_insert_ne by lia. done. }
    rewrite lookup_delete_ne by done.
    destruct (decide (k = n + 2)) as [-> |].
    { by rewrite !lookup_insert_eq. }
    by rewrite !lookup_insert_ne by done. }
  unfold CreateGraphicsPipeline, CleanPipeline, LoadShader, pipeline_calls, without.
  cbv [Vk.CreateShaderModule Vk.DestroyPipeline Vk.CreateGraphicsPipelines
       Vk.DestroyShaderModule].
  run. case_bool_decide; run.
  - rewrite Hmap.
    + unfold set_graphics_pipeline_. cbn.
      rewrite ?aset_aset, <- ?app_assoc. cbn.
      replace (n + 1 + 1 + 1) with (n + 3) by lia.
      replace (n + 1 + 1) with (n + 2) by lia. destruct r; reflexivity.
    + destruct (decide (aget eye (graphics_pipeline_ r) = n)) as [-> |];
        [apply lookup_delete_eq | by rewrite lookup_delete_ne].
    + destruct (decide (aget eye (graphics_pipeline_ r) = n + 1)) as [-> |];
        [apply lookup_delete_eq | by rewrite lookup_delete_ne].
  - rewrite Hmap by done. rewrite <- ?app_assoc. cbn.
    replace (n + 1 + 1 + 1) with (n + 3) by lia.
    replace (n + 1 + 1) with (n + 2) by lia. reflexivity.
Qed.

(** X11. [CreateGraphicsPipeline eye] leaves one new object on the device,
    the pipeline made with the pipeline layout and the current render
    pass: the two shader modules it loads are destroyed before it returns,
    and the eye's previous pipeline, when not null, is destroyed first.
    (The two handles the modules get are free on the device.) *)
Theorem CreateGraphicsPipeline_keeps_no_shader_module (eye : CardboardEye)
    (w : World) :
  let n := Vk.next_handle (gpu w) in
  Vk.objects (gpu w) !! n = None ->
  Vk.objects (gpu w) !! (n + 1) = None ->
  exists w',
    CreateGraphicsPipeline eye w = Some (tt, w') /\
    emitted w w' = pipeline_calls (this w) eye n /\
    aget eye (graphics_pipeline_ (this w')) = n + 2 /\
    Vk.objects (gpu w') =
      <[n + 2 := Vk.OPipeline (pipeline_layout_ (this w))
                   (current_render_pass_ (this w))]>
        (without (aget eye (graphics_pipeline_ (this w))) (Vk.objects (gpu w))).
Proof.
  destruct w as [r [n o c sc mt mb] lg e]. cbn [this gpu Vk.next_handle Vk.objects].
  intros H0 H1. rewrite CreateGraphicsPipeline_objects by done.
  eexists. split; [reflexivity |]. rewrite emitted_snoc.
  cbn [this gpu Vk.objects graphics_pipeline_ set_graphics_pipeline_].
  by rewrite aget_aset_eq.
Qed.

Lemma CreateGraphicsPipeline_keeps_no_shader_module_witness :
  let n := Vk.next_handle (gpu Fixture.drawn) in
  exists w',
    CreateGraphicsPipeline kRight Fixture.drawn = Some (tt, w') /\
    emitted Fixture.drawn w' = pipeline_calls (this Fixture.drawn) kRight n /\
    aget kRight (graphics_pipeline_ (this w')) = n + 2 /\
    Vk.objects (gpu w') =
      <[n + 2 := Vk.OPipeline (pipeline_layout_ (this Fixture.drawn))
                   (current_render_pass_ (this Fixture.drawn))]>
        (without (aget kRight (graphics_pipeline_ (this Fixture.drawn)))
           (Vk.objects (gpu Fixture.drawn))).
Proof.
  apply (CreateGraphicsPipeline_keeps_no_shader_module kRight Fixture.drawn);
    reflexivity.
Defined.

Lemma RenderDistortionMesh_objects desc eye cb slot r n o c sc mt mb lg e
    old set size ti bytes pool bindings :
  0 <= slot <= CInt.INT_MAX ->
  at_index (aget eye (image_views_ r)) slot = Some old ->
  at_index (aget eye (descriptor_sets_ r)) slot = Some set ->
  o !! aget eye (uniform_buffers_memory_ r) = Some (Vk.OMemory size ti bytes) ->
  o !! set = Some (Vk.ODescriptorSet pool bindings) ->
  o !! n = None ->
  old <> aget eye (uniform_buffers_memory_ r) -> old <> set ->
  let um := aget eye (uniform_buffers_memory_ r) in
  let ubo := mkUbo (left_u desc) (right_u desc) (top_v desc) (bottom_v desc) in
  exists o',
    RenderDistortionMesh desc eye cb slot
      (mkWorld r (Vk.mkDevice n o c sc mt mb) lg e) =
    Some (tt, mkWorld (with_view eye slot n r)
      (Vk.mkDevice (n + 1) o'
         (c ++ eye_calls r eye desc cb old set n) sc mt mb) lg e) /\
    o' !! um =
      Some (Vk.OMemory size ti
              (Mem.memcpy bytes (UniformBufferObject_bytes ubo)
                 sizeof_UniformBufferObject)) /\
    o' !! n = Some (Vk.OImageView (texture desc)) /\
    o' !! set =
      Some (Vk.ODescriptorSet pool
              (Vk.set_binding 1
                 (Vk.BufferInfo (aget eye (uniform_buffers_ r)) 0
                    sizeof_UniformBufferObject)
                 (Vk.set_binding 0 (Vk.ImageInfo (texture_sampler_ r) n)
                    bindings))).
Proof.
  intros Hs Hold Hset Hum Hds Hfresh Hne1 Hne2 um ubo. subst um ubo.
  set (um := aget eye (uniform_buffers_memory_ r)) in *.
  assert (Hn1 : n <> um) by (intros ->; congruence).
  assert (Hn2 : n <> set) by (intros ->; congruence).
  assert (Hn3 : um <> set) by (intros E; rewrite E in Hum; congruence).
  unfold RenderDistortionMesh, UpdateUniformBuffer, CleanTextureImageView,
    CreateImageView, UpdateDescriptorSets, BindCommandBuffer, eye_calls,
    clean_view_calls, uniform_write_calls, descriptor_update_call,
    bind_and_draw_calls.
  rewrite (to_int32_small slot Hs).
  cbv [Vk.host_write Vk.DestroyImageView Vk.CreateImageView Vk.UpdateDescriptorSets].
  run. fold um. rewrite Hum. run. rewrite Hold. run.
  set (o1 := <[um := _]> o).
  assert (Ho1 : forall k, k <> um -> o1 !! k = o !! k).
  { intros k Hk. unfold o1. by rewrite lookup_insert_ne. }
  case_bool_decide; run.
  - rewrite (assign_index_Some _ _ _ _ Hold). run.
    rewrite !aget_aset_eq.
    rewrite (assign_index_Some _ _ _ _ (at_index_insert_eq _ _ _ _ Hold)).
    run. rewrite !aget_aset_eq, !aset_aset, list_insert_insert_eq.
    rewrite (at_index_insert_eq _ _ _ _ Hold). run.
    repeat (rewrite Hset; run).
    eexists. split.
    { unfold with_view, set_image_views_. cbn. rewrite ?aset_aset, <- ?app_assoc.
      reflexivity. }
    unfold Vk.apply_write. cbn [Vk.dstSet Vk.dstBinding Vk.info].
    rewrite lookup_insert_ne, lookup_delete_ne, Ho1, Hds by done.
    rewrite lookup_insert_eq.
    split; [| split].
    + rewrite !lookup_insert_ne, lookup_delete_ne by done.
      unfold o1. by rewrite lookup_insert_eq.
    + by rewrite !lookup_insert_ne, lookup_insert_eq by done.
    + by rewrite lookup_insert_eq.
  - rewrite (assign_index_Some _ _ _ _ Hold). run.
    rewrite !aget_aset_eq.
    rewrite (at_index_insert_eq _ _ _ _ Hold). run.
    repeat (rewrite Hset; run).
    eexists. split.
    { rewrite <- !app_assoc. reflexivity. }
    unfold Vk.apply_write. cbn [Vk.dstSet Vk.dstBinding Vk.info].
    rewrite lookup_insert_ne, Ho1, Hds by done.
    rewrite lookup_insert_eq.
    split; [| split].
    + rewrite !lookup_insert_ne by done.
      unfold o1. by rewrite lookup_insert_eq.
    + by rewrite !lookup_insert_ne, lookup_insert_eq by done.
    + by rewrite lookup_insert_eq.
Qed.

(** X12. After [RenderDistortionMesh] for a slot in range the slot's cached
    view is a view of the texture of the description, binding 0 of the
    slot's descriptor set is the sampler with this view, binding 1 is the
    eye's uniform buffer at offset 0 with 16 bytes, and the uniform memory
    starts with the four floats of the description.  (The uniform memory
    and the descriptor set exist, the next handle is free, and the view
    that is replaced is neither of them.) *)
Theorem RenderDistortionMesh_leaves_the_slot_ready
    (desc : CardboardEyeTextureDescription) (eye : CardboardEye)
    (command_buffer slot : Z) (w : World) (bytes : list byte)
    (bindings : list (Z * Vk.DescriptorInfo)) :
  let memory := aget eye (uniform_buffers_memory_ (this w)) in
  let set := slot_set (this w) eye slot in
  let old := cached_view (this w) eye slot in
  renderer_inv (this w) = true ->
  slot_in_range (this w) slot = true ->
  Vk.memory_contents (gpu w) memory = Some bytes ->
  descriptor_bindings (gpu w) set = Some bindings ->
  Vk.objects (gpu w) !! Vk.next_handle (gpu w) = None ->
  old <> memory ->
  old <> set ->
  exists w',
    RenderDistortionMesh desc eye command_buffer slot w = Some (tt, w') /\
    let view := cached_view (this w') eye slot in
    viewed_image (gpu w') view = Some (texture desc) /\
    descriptor_bindings (gpu w') set =
      Some (Vk.set_binding 1
              (Vk.BufferInfo (aget eye (uniform_buffers_ (this w))) 0
                 sizeof_UniformBufferObject)
              (Vk.set_binding 0
                 (Vk.ImageInfo (texture_sampler_ (this w)) view) bindings)) /\
    Vk.memory_contents (gpu w') memory =
      Some (UniformBufferObject_bytes
              (mkUbo (left_u desc) (right_u desc) (top_v desc) (bottom_v desc)) ++
            drop 16 bytes).
Proof.
  intros memory set old Hinv Hslot Hmem Hbind Hfresh Hne1 Hne2.
  destruct w as [r [n o c sc mt mb] lg e].
  cbn [this gpu Vk.objects Vk.next_handle] in *.
  destruct (renderer_inv_spec _ Hinv) as [Hcount Hlen].
  unfold slot_in_range in Hslot.
  apply andb_prop in Hslot as [H0%Z.leb_le H1%Z.ltb_lt].
  destruct (Hlen eye) as [HvL HsL].
  assert (Hold := at_index_default (aget eye (image_views_ r)) slot
                    Vk.VK_NULL_HANDLE ltac:(lia)).
  assert (Hset := at_index_default (aget eye (descriptor_sets_ r)) slot
                    Vk.VK_NULL_HANDLE ltac:(lia)).
  fold (cached_view r eye slot) in Hold. fold old in Hold.
  fold (slot_set r eye slot) in Hset. fold set in Hset.
  unfold Vk.memory_contents in Hmem. cbn [Vk.objects] in Hmem.
  destruct (o !! memory) as [[| | | | | | | | size ti bs |] |] eqn:Hum;
    try done. injection Hmem as ->.
  unfold descriptor_bindings in Hbind. cbn [Vk.objects] in Hbind.
  destruct (o !! set) as [[| | | | | pool bs | | | |] |] eqn:Hds; try done.
  injection Hbind as ->.
  destruct (RenderDistortionMesh_objects desc eye command_buffer slot r n o c sc
              mt mb lg e old set size ti bytes pool bindings
              ltac:(lia) Hold Hset Hum Hds Hfresh Hne1 Hne2)
    as (o' & Hrun & Hm' & Hv' & Hs').
  eexists. split; [exact Hrun |]. cbn [this gpu].
  assert (Hview : cached_view (with_view eye slot n r) eye slot = n).
  { unfold cached_view, with_view. cbn [image_views_ set_image_views_].
    rewrite aget_aset_eq. by erewrite at_index_insert_eq by exact Hold. }
  cbv zeta. rewrite Hview.
  unfold viewed_image, descriptor_bindings, Vk.memory_contents. cbn [Vk.objects].
  fold memory in Hm'. rewrite Hv', Hs', Hm'. done.
Qed.

Lemma RenderDistortionMesh_leaves_the_slot_ready_witness :
  let w := Fixture.ready in
  let memory := aget kLeft (uniform_buffers_memory_ (this w)) in
  let set := slot_set (this w) kLeft 1 in
  exists w',
    RenderDistortionMesh Fixture.left_texture kLeft 400 1 w = Some (tt, w') /\
    let view := cached_view (this w') kLeft 1 in
    viewed_image (gpu w') view = Some (texture Fixture.left_texture) /\
    descriptor_bindings (gpu w') set =
      Some (Vk.set_binding 1
              (Vk.BufferInfo (aget kLeft (uniform_buffers_ (this w))) 0
                 sizeof_UniformBufferObject)
              (Vk.set_binding 0
                 (Vk.ImageInfo (texture_sampler_ (this w)) view) [])) /\
    Vk.memory_contents (gpu w') memory =
      Some (UniformBufferObject_bytes
              (mkUbo (left_u Fixture.left_texture) (right_u Fixture.left_texture)
                 (top_v Fixture.left_texture) (bottom_v Fixture.left_texture)) ++
            drop 16 (replicate 16 Byte.x00)).
Proof.
  apply (RenderDistortionMesh_leaves_the_slot_ready Fixture.left_texture kLeft
           400 1 Fixture.ready (replicate 16 Byte.x00) []);
    first [reflexivity | vm_compute; lia].
Defined.

Lemma CreateSwapchainImageViews_views r d lg e :
  let imgs := Vk.images_of (swapchain_ r) d in
  swapchain_image_count_ r = Z.of_nat (length imgs) ->
  length (swapchain_images_ r) = length imgs ->
  length (swapchain_views_ r) = length imgs ->
  exists views n o c,
    length views = length imgs /\
    CreateSwapchainImageViews (mkWorld r d lg e) =
    Some (tt, mkWorld
      (set_swapchain_views_ views
         (set_swapchain_images_ imgs
            (set_swapchain_image_count_ (Z.of_nat (length imgs)) r)))
      (Vk.update d n o c) lg e).
Proof.
  intros imgs Hcount Himgs Hviews.
  unfold CreateSwapchainImageViews, CreateImageView.
  cbv [Vk.GetSwapchainImages]. fold imgs.
  destruct d as [n o c sc mt mb]. run. rewrite Hcount, Nat2Z.id.
  rewrite firstn_all. fold imgs.
  assert (Hin : Vk.images_of (swapchain_ r) (Vk.mkDevice n o c sc mt mb) = imgs)
    by done.
  rewrite write_data_same_length by done. run.
  set (P := fun (_ : unit) (w : World) =>
              exists views n' o' c',
                length views = length imgs /\
                w = mkWorld
                      (set_swapchain_views_ views
                         (set_swapchain_images_ imgs
                            (set_swapchain_image_count_ (Z.of_nat (length imgs)) r)))
                      (Vk.mkDevice n' o' c' sc mt mb) lg e).
  unfold for_upto.
  match goal with
  | |- context [loop ?l ?body tt ?w0] =>
      destruct (loop_invariant P l body) with (s := tt) (w := w0)
        as ([] & w1 & Hrun & HP)
  end.
  - intros i [] w Hi (views & n' & o' & c' & Hlen & ->).
    apply elem_of_seqZ in Hi.
    cbv [Vk.CreateImageView]. run.
    destruct (at_index_is_Some imgs i ltac:(lia)) as [img ->]. run.
    destruct (at_index_is_Some views i ltac:(lia)) as [v Hv].
    rewrite (assign_index_Some _ _ _ _ Hv). run.
    eexists tt, _. split; [reflexivity |].
    eexists _, _, _, _. split; [| reflexivity]. by rewrite length_insert.
  - exists (swapchain_views_ r), n, o,
      (c ++ [Vk.vkGetSwapchainImagesKHR (swapchain_ r) true]).
    split; [done |]. destruct r; reflexivity.
  - destruct HP as (views & n' & o' & c' & Hlen & ->).
    rewrite Hrun. by exists views, n', o', c'.
Qed.

Lemma ctor_loaded_members config r d lg e :
  vulkan_loadable e = true ->
  let imgs := Vk.images_of (vk_swapchain config) d in
  exists r' d' lg',
    VulkanDistortionRenderer_ctor config (mkWorld r d lg e) =
      Some (tt, mkWorld r' d' lg' e) /\
    (physical_device_ r' = physical_device config /\
     logical_device_ r' = logical_device config /\
     swapchain_ r' = vk_swapchain config /\
     swapchain_image_count_ r' = Z.of_nat (length imgs) /\
     swapchain_images_ r' = imgs /\
     length (swapchain_views_ r') = length imgs /\
     current_image_width_ r' = 0 /\
     current_image_height_ r' = 0 /\
     graphics_pipeline_ r' = mkArr2 Vk.VK_NULL_HANDLE Vk.VK_NULL_HANDLE /\
     image_views_ r' =
       mkArr2 (replicate (length imgs) Vk.VK_NULL_HANDLE)
              (replicate (length imgs) Vk.VK_NULL_HANDLE)) /\
    (current_render_pass_ r' = current_render_pass_ r /\
     indices_count_ r' = indices_count_ r /\
     vertex_buffers_ r' = vertex_buffers_ r /\
     vertex_buffers_memory_ r' = vertex_buffers_memory_ r /\
     index_buffers_ r' = index_buffers_ r /\
     index_buffers_memory_ r' = index_buffers_memory_ r /\
     viewport_ r' = viewport_ r /\
     scissor_ r' = scissor_ r) /\
    forall eye, length (aget eye (descriptor_sets_ r')) = length imgs.
Proof.
  intros H imgs. unfold VulkanDistortionRenderer_ctor, LoadVulkan,
    GetSwapchainImagesCount, CreateSharedVulkanObjects,
    CreateDescriptorSetLayout, CreatePipelineLayout, CreateTextureSampler.
  cbv [Vk.GetSwapchainImagesCount Vk.CreateDescriptorSetLayout
       Vk.CreatePipelineLayout Vk.CreateSampler Vk.GetPhysicalDeviceProperties
       member_init].
  destruct d as [n o c sc mt mb], r, config as [pd ld sw].
  cbv [bind get put this gpu logcat env LoadVulkan]. rewrite H.
  run. flat. rewrite !Nat2Z.id.
  change (Vk.images_of sw (Vk.mkDevice n o c sc mt mb)) with imgs.
  match goal with
  | |- context [CreateSwapchainImageViews (mkWorld ?r1 ?d1 ?lg1 _)] =>
      destruct (CreateSwapchainImageViews_views r1 d1 lg1 e)
        as (views & n1 & o1 & c1 & Hviews & ->);
        [reflexivity | cbn; by rewrite length_resize
        | cbn; by rewrite length_resize |]
  end.
  flat.
  change (Vk.images_of sw _) with imgs in *.
  match goal with
  | |- context [CreatePerEyeVulkanObjects kLeft (mkWorld ?r1 ?d1 ?lg1 _)] =>
      destruct (CreatePerEyeVulkanObjects_run kLeft r1 d1 lg1 e)
        as (p2 & ub2 & um2 & sets2 & n2 & o2 & c2 & lg2 & Hlen2 & ->)
  end.
  flat. flat_in Hlen2.
  match goal with
  | |- context [CreatePerEyeVulkanObjects kRight (mkWorld ?r1 ?d1 ?lg1 _)] =>
      destruct (CreatePerEyeVulkanObjects_run kRight r1 d1 lg1 e)
        as (p3 & ub3 & um3 & sets3 & n3 & o3 & c3 & lg3 & Hlen3 & ->)
  end.
  flat. flat_in Hlen3.
  eexists _, _, _. split; [reflexivity |]. flat.
  cbn in Hlen2, Hlen3. rewrite Nat2Z.id in Hlen2, Hlen3.
  rewrite !Nat2Z.id.
  split; [by repeat split |]. split; [by repeat split |].
  intros []; flat; done.
Qed.

Lemma factory_builds config w :
  sdk_initialized (env w) = true -> vulkan_loadable (env w) = true ->
  let imgs := Vk.images_of (vk_swapchain config) (gpu w) in
  exists w',
    CardboardVulkanDistortionRenderer_create (Some config) w = Some (object, w') /\
    env w' = env w /\
    (Z.of_nat (length imgs) <= CInt.INT_MAX -> renderer_inv (this w') = true) /\
    (physical_device_ (this w') = physical_device config /\
     logical_device_ (this w') = logical_device config /\
     swapchain_ (this w') = vk_swapchain config /\
     swapchain_image_count_ (this w') = Z.of_nat (length imgs) /\
     swapchain_images_ (this w') = imgs /\
     length (swapchain_views_ (this w')) = length imgs /\
     current_image_width_ (this w') = 0 /\
     current_image_height_ (this w') = 0 /\
     graphics_pipeline_ (this w') = mkArr2 Vk.VK_NULL_HANDLE Vk.VK_NULL_HANDLE /\
     image_views_ (this w') =
       mkArr2 (replicate (length imgs) Vk.VK_NULL_HANDLE)
              (replicate (length imgs) Vk.VK_NULL_HANDLE)) /\
    (current_render_pass_ (this w') = current_render_pass_ (this w) /\
     indices_count_ (this w') = indices_count_ (this w) /\
     vertex_buffers_ (this w') = vertex_buffers_ (this w) /\
     vertex_buffers_memory_ (this w') = vertex_buffers_memory_ (this w) /\
     index_buffers_ (this w') = index_buffers_ (this w) /\
     index_buffers_memory_ (this w') = index_buffers_memory_ (this w) /\
     viewport_ (this w') = viewport_ (this w) /\
     scissor_ (this w') = scissor_ (this w)).
Proof.
  intros Hsdk Hvk imgs. destruct w as [r d lg e]. cbn [env gpu this] in *.
  destruct (ctor_loaded_members config r d lg e Hvk)
    as (r' & d' & lg' & Hrun & Hset & Hkept & Hsets).
  exists (mkWorld r' d' lg' e).
  unfold CardboardVulkanDistortionRenderer_create, CARDBOARD_IS_NOT_INITIALIZED.
  cbv [bind env ret]. rewrite Hsdk. cbn [negb orb CARDBOARD_IS_ARG_NULL].
  rewrite Hrun. cbn [this].
  split; [done |]. split; [done |]. split; [| done].
  intros Hmax. fold imgs in Hset, Hsets.
  destruct Hset as (_ & _ & _ & Hcount & _ & _ & _ & _ & _ & Hviews).
  unfold renderer_inv, per_eye_sized. rewrite Hviews, Hcount.
  rewrite (Hsets kLeft), (Hsets kRight). cbn [aget at_kLeft at_kRight].
  rewrite length_replicate, Z.eqb_refl. cbn.
  destruct (Z.leb_spec 0 (Z.of_nat (length imgs))); [| lia].
  destruct (Z.leb_spec (Z.of_nat (length imgs)) CInt.INT_MAX); [done | lia].
Qed.

(** X13. The constructor, when the loader succeeds, sets the devices, the
    swapchain, the image count, the images, one view per image, the cached
    size (0, 0), null pipelines and null cached views.  It leaves
    [current_render_pass_], [indices_count_], the vertex and index buffers
    with their memories, [viewport_] and [scissor_] as the storage held
    them. *)
Theorem constructor_leaves_some_members_as_found
    (config : CardboardVulkanDistortionRendererConfig) (w : World) :
  sdk_initialized (env w) = true ->
  vulkan_loadable (env w) = true ->
  let imgs := Vk.images_of (vk_swapchain config) (gpu w) in
  exists w',
    CardboardVulkanDistortionRenderer_create (Some config) w = Some (object, w') /\
    (physical_device_ (this w') = physical_device config /\
     logical_device_ (this w') = logical_device config /\
     swapchain_ (this w') = vk_swapchain config /\
     swapchain_image_count_ (this w') = Z.of_nat (length imgs) /\
     swapchain_images_ (this w') = imgs /\
     length (swapchain_views_ (this w')) = length imgs /\
     current_image_width_ (this w') = 0 /\
     current_image_height_ (this w') = 0 /\
     graphics_pipeline_ (this w') = mkArr2 Vk.VK_NULL_HANDLE Vk.VK_NULL_HANDLE /\
     image_views_ (this w') =
       mkArr2 (replicate (length imgs) Vk.VK_NULL_HANDLE)
              (replicate (length imgs) Vk.VK_NULL_HANDLE)) /\
    (current_render_pass_ (this w') = current_render_pass_ (this w) /\
     indices_count_ (this w') = indices_count_ (this w) /\
     vertex_buffers_ (this w') = vertex_buffers_ (this w) /\
     vertex_buffers_memory_ (this w') = vertex_buffers_memory_ (this w) /\
     index_buffers_ (this w') = index_buffers_ (this w) /\
     index_buffers_memory_ (this w') = index_buffers_memory_ (this w) /\
     viewport_ (this w') = viewport_ (this w) /\
     scissor_ (this w') = scissor_ (this w)).
Proof.
  intros Hsdk Hvk imgs.
  destruct (factory_builds config w Hsdk Hvk) as (w' & Hrun & _ & _ & H1 & H2).
  by exists w'.
Qed.

Lemma constructor_leaves_some_members_as_found_witness :
  let w := Fixture.fresh (mkEnv true true) in
  let imgs := Vk.images_of (vk_swapchain Fixture.config) (gpu w) in
  exists w',
    CardboardVulkanDistortionRenderer_create (Some Fixture.config) w =
      Some (object, w') /\
    (physical_device_ (this w') = physical_device Fixture.config /\
     logical_device_ (this w') = logical_device Fixture.config /\
     swapchain_ (this w') = vk_swapchain Fixture.config /\
     swapchain_image_count_ (this w') = Z.of_nat (length imgs) /\
     swapchain_images_ (this w') = imgs /\
     length (swapchain_views_ (this w')) = length imgs /\
     current_image_width_ (this w') = 0 /\
     current_image_height_ (this w') = 0 /\
     graphics_pipeline_ (this w') = mkArr2 Vk.VK_NULL_HANDLE Vk.VK_NULL_HANDLE /\
     image_views_ (this w') =
       mkArr2 (replicate (length imgs) Vk.VK_NULL_HANDLE)
              (replicate (length imgs) Vk.VK_NULL_HANDLE)) /\
    (current_render_pass_ (this w') = current_render_pass_ (this w) /\
     indices_count_ (this w') = indices_count_ (this w) /\
     vertex_buffers_ (this w') = vertex_buffers_ (this w) /\
     vertex_buffers_memory_ (this w') = vertex_buffers_memory_ (this w) /\
     index_buffers_ (this w') = index_buffers_ (this w) /\
     index_buffers_memory_ (this w') = index_buffers_memory_ (this w) /\
     viewport_ (this w') = viewport_ (this w) /\
     scissor_ (this w') = scissor_ (this w)).
Proof.
  apply (constructor_leaves_some_members_as_found Fixture.config
           (Fixture.fresh (mkEnv true true))); reflexivity.
Defined.

(** X14. When the render pass of the first frame equals what the storage
    held in [current_render_pass_], the frame builds no pipeline and binds
    the null pipeline for the draw of each eye. *)
Theorem first_frame_with_the_leftover_render_pass_binds_no_pipeline
    (config : CardboardVulkanDistortionRendererConfig)
    (t : CardboardVulkanDistortionRendererTarget) (x y width height : Z)
    (l rt : CardboardEyeTextureDescription) (w : World) :
  sdk_initialized (env w) = true ->
  vulkan_loadable (env w) = true ->
  slot_of_swapchain (gpu w) config t = true ->
  vk_render_pass t = current_render_pass_ (this w) ->
  exists w1 w2,
    CardboardVulkanDistortionRenderer_create (Some config) w = Some (object, w1) /\
    RenderEyeToDisplay t x y width height l rt w1 = Some (tt, w2) /\
    pipeline_builds (emitted w1 w2) = [] /\
    bound_pipelines (emitted w1 w2) = [Vk.VK_NULL_HANDLE; Vk.VK_NULL_HANDLE] /\
    length (indexed_draws (emitted w1 w2)) = 2%nat.
Proof.
  intros Hsdk Hvk Hslot Hrp.
  unfold slot_of_swapchain in Hslot.
  apply andb_prop in Hslot as [Hslot Hmax%Z.leb_le].
  destruct (factory_builds config w Hsdk Hvk)
    as (w1 & Hrun & _ & Hinv & Hset & Hkept).
  specialize (Hinv Hmax).
  destruct Hset as (_ & _ & _ & Hcount & _ & _ & _ & _ & Hpipes & _).
  destruct Hkept as (Hpass & _).
  assert (Hslot1 : slot_valid (this w1) t = true).
  { unfold slot_valid. by rewrite Hcount. }
  destruct (RenderEyeToDisplay_frame t x y width height l rt w1 Hinv Hslot1)
    as (w2 & Hrun2 & _ & Hcalls & _).
  assert (Heq : vk_render_pass t = current_render_pass_ (this w1)) by congruence.
  destruct (frame_unchanged _ (Vk.next_handle (gpu w1)) _ x y width height l rt Heq)
    as (_ & Hb & _ & _ & Hbound & _).
  exists w1, w2. rewrite Hcalls, Hb, Hbound, Hpipes, frame_indexed_draws. done.
Qed.

Lemma first_frame_with_the_leftover_render_pass_binds_no_pipeline_witness :
  exists w1 w2,
    CardboardVulkanDistortionRenderer_create (Some Fixture.config)
      (Fixture.fresh (mkEnv true true)) = Some (object, w1) /\
    RenderEyeToDisplay (mkTarget 14 400 0) 0 0 1000 500 Fixture.left_texture
      Fixture.right_texture w1 = Some (tt, w2) /\
    pipeline_builds (emitted w1 w2) = [] /\
    bound_pipelines (emitted w1 w2) = [Vk.VK_NULL_HANDLE; Vk.VK_NULL_HANDLE] /\
    length (indexed_draws (emitted w1 w2)) = 2%nat.
Proof.
  apply (first_frame_with_the_leftover_render_pass_binds_no_pipeline
           Fixture.config (mkTarget 14 400 0) 0 0 1000 500 Fixture.left_texture
           Fixture.right_texture (Fixture.fresh (mkEnv true true)));
    reflexivity.
Defined.

Lemma ledger_app T e1 e2 : ledger T (e1 ++ e2) = ledger (ledger T e1) e2.
Proof. apply foldl_app. Qed.

Lemma elem_of_struck x h T : x ∈ struck h T <-> x.1 <> h /\ x ∈ T.
Proof. unfold struck. by rewrite list_elem_of_filter. Qed.

Lemma covers_insert T o h ob :
  covers T o -> covers ((h, pool_of ob) :: T) (<[h := ob]> o).
Proof.
  intros Hc k ob' Hk. destruct (decide (k = h)) as [-> |].
  - rewrite lookup_insert_eq in Hk. injection Hk as <-. left.
  - rewrite lookup_insert_ne in Hk by done. right. by apply Hc.
Qed.

Lemma covers_delete T o h : covers T o -> covers (struck h T) (delete h o).
Proof.
  intros Hc k ob Hk. destruct (decide (k = h)) as [-> |].
  - by rewrite lookup_delete_eq in Hk.
  - rewrite lookup_delete_ne in Hk by done. apply elem_of_struck.
    split; [done |]. by apply Hc.
Qed.

Lemma covers_update T o h ob ob' :
  covers T o -> o !! h = Some ob -> pool_of ob' = pool_of ob ->
  covers T (<[h := ob']> o).
Proof.
  intros Hc Hh Hp k ob'' Hk. destruct (decide (k = h)) as [-> |].
  - rewrite lookup_insert_eq in Hk. injection Hk as <-. rewrite Hp. by apply Hc.
  - rewrite lookup_insert_ne in Hk by done. by apply Hc.
Qed.

Lemma covers_apply_write T o w : covers T o -> covers T (Vk.apply_write o w).
Proof.
  intros Hc. unfold Vk.apply_write.
  destruct (o !! Vk.dstSet w) as [[| | | | | p bs | | | |] |] eqn:Hs; try done.
  by eapply covers_update.
Qed.

Lemma covers_fresh_sets T pool h n o :
  covers T o ->
  covers (((fun x => (x, Some pool)) <$> (Vk.fresh_sets pool h n o).1) ++ T)
         (Vk.fresh_sets pool h n o).2.
Proof.
  revert T h o. induction n as [| n IH]; intros T h o Hc; [done |].
  cbn [Vk.fresh_sets].
  specialize (IH ((h, Some pool) :: T) (h + 1)
                (<[h := Vk.ODescriptorSet pool []]> o)
                (covers_insert T o h (Vk.ODescriptorSet pool []) Hc)).
  destruct (Vk.fresh_sets pool (h + 1) n _) as [hs o']. cbn [fst snd] in *.
  intros k ob Hk. specialize (IH k ob Hk).
  rewrite elem_of_app in IH. rewrite fmap_cons, elem_of_app, !elem_of_cons.
  rewrite elem_of_cons in IH. tauto.
Qed.

Lemma covers_destroy_pool T o p :
  covers T o ->
  covers (filter (fun x => x.2 <> Some p) (struck p T))
         (filter (fun kv => Vk.in_pool p kv.2 = false) (delete p o)).
Proof.
  intros Hc k ob Hk. apply map_lookup_filter_Some in Hk as [Hk Hin].
  cbn in Hin. apply list_elem_of_filter. split.
  - cbn. destruct ob; cbn in *; try done.
    intros [= ->]. by rewrite bool_decide_true in Hin.
  - by apply (covers_delete T o p Hc).
Qed.

Lemma in_step_refl d : in_step d d.
Proof. exists []. split; [by rewrite app_nil_r | done]. Qed.

Lemma in_step_trans d1 d2 d3 : in_step d1 d2 -> in_step d2 d3 -> in_step d1 d3.
Proof.
  intros (e1 & Hc1 & H1) (e2 & Hc2 & H2). exists (e1 ++ e2). split.
  - by rewrite Hc2, Hc1, app_assoc.
  - intros T HT. rewrite ledger_app. by apply H2, H1.
Qed.

Lemma in_step_record c d :
  (forall T, ledger_step T c = T) -> in_step d (Vk.record c d).
Proof.
  intros Hc. exists [c]. split; [done |]. intros T HT. cbn. by rewrite Hc.
Qed.

Lemma in_step_create ob c d :
  (forall h T, ledger_step T (c h) = (h, pool_of ob) :: T) ->
  in_step d (Vk.create ob c d).2.
Proof.
  intros Hc. exists [c (Vk.next_handle d)]. split; [done |]. intros T HT.
  cbn. rewrite Hc. by apply covers_insert.
Qed.

Lemma in_step_destroy h c d :
  (forall T, ledger_step T c = struck h T) -> in_step d (Vk.destroy h c d).
Proof.
  intros Hc. exists [c]. split; [done |]. intros T HT.
  cbn. rewrite Hc. by apply covers_delete.
Qed.

Lemma tracked_ret {A} (a : A) : tracked (ret a).
Proof. intros w a' w' [= <- <-]. apply in_step_refl. Qed.

Lemma tracked_bind {A B} (m : M A) (k : A -> M B) :
  tracked m -> (forall a, tracked (k a)) -> tracked (bind m k).
Proof.
  intros Hm Hk w b w' Hrun. unfold bind in Hrun.
  destruct (m w) as [[a w1] |] eqn:Hmw; [| done].
  eapply in_step_trans; [by eapply Hm | by eapply Hk].
Qed.

Lemma tracked_get {A} (f : Renderer -> A) : tracked (get f).
Proof. intros w a w' [= <- <-]. apply in_step_refl. Qed.

Lemma tracked_put f : tracked (put f).
Proof. intros w a w' [= <- <-]. apply in_step_refl. Qed.

Lemma tracked_update {A} (x : ref A) f : tracked (update x f).
Proof. apply tracked_put. Qed.

Lemma tracked_defined {A} (o : option A) : tracked (defined o).
Proof.
  intros w a w' H. unfold defined in H. destruct o; [| done].
  injection H as <- <-. apply in_step_refl.
Qed.

Lemma tracked_LOGE msg : tracked (CARDBOARD_LOGE msg).
Proof. intros w a w' [= <- <-]. apply in_step_refl. Qed.

Lemma tracked_LoadVulkan : tracked LoadVulkan.
Proof. intros w a w' [= <- <-]. apply in_step_refl. Qed.

Lemma tracked_NOT_INITIALIZED : tracked CARDBOARD_IS_NOT_INITIALIZED.
Proof. intros w a w' [= <- <-]. apply in_step_refl. Qed.

Lemma tracked_vk {A} (f : Vk.Device -> A * Vk.Device) :
  (forall d, in_step d (f d).2) -> tracked (vk f).
Proof.
  intros Hf w a w' H. unfold vk in H. specialize (Hf (gpu w)).
  destruct (f (gpu w)) as [a' d']. injection H as <- <-. exact Hf.
Qed.

Lemma tracked_vk_ (f : Vk.Device -> Vk.Device) :
  (forall d, in_step d (f d)) -> tracked (vk_ f).
Proof. intros Hf w a w' [= <- <-]. apply Hf. Qed.

Lemma tracked_CALL_VK {A} (f : Vk.Device -> Vk.VkResult * A * Vk.Device) :
  (forall d, in_step d (f d).2) -> tracked (CALL_VK f).
Proof.
  intros Hf. unfold CALL_VK. apply tracked_bind; [by apply tracked_vk |].
  intros [[] a]; cbn.
  - apply tracked_ret.
  - apply tracked_bind; [apply tracked_LOGE | intros; apply tracked_ret].
Qed.

Lemma tracked_loop {S} (l : list Z) (body : Z -> S -> M S) (s : S) :
  (forall i s', tracked (body i s')) -> tracked (loop l body s).
Proof.
  intros Hb. revert s. induction l as [| i l IH]; intros s; cbn.
  - apply tracked_ret.
  - apply tracked_bind; [apply Hb | apply IH].
Qed.

Lemma tracked_for_upto {S} (n : Z) (body : Z -> S -> M S) (s : S) :
  (forall i s', tracked (body i s')) -> tracked (for_upto n body s).
Proof. apply tracked_loop. Qed.

(** *** The entry points *)

Lemma in_step_AllocateDescriptorSets pool layouts d :
  in_step d (Vk.AllocateDescriptorSets pool layouts d).2.
Proof.
  unfold Vk.AllocateDescriptorSets.
  pose proof (fun T => covers_fresh_sets T pool (Vk.next_handle d)
                         (length layouts) (Vk.objects d)) as Hc.
  destruct (Vk.fresh_sets pool (Vk.next_handle d) (length layouts) (Vk.objects d))
    as [hs o]. cbn [fst snd] in *.
  eexists [_]. split; [reflexivity |]. intros T HT. cbn. by apply Hc.
Qed.

Lemma in_step_UpdateDescriptorSets writes d :
  in_step d (Vk.UpdateDescriptorSets writes d).
Proof.
  eexists [_]. split; [reflexivity |]. intros T HT. cbn.
  clear -HT. revert HT. generalize (Vk.objects d) as o.
  induction writes as [| w ws IH]; intros o HT; [done |].
  cbn. by apply IH, covers_apply_write.
Qed.

Lemma in_step_BindBufferMemory b m off d :
  in_step d (Vk.BindBufferMemory b m off d).
Proof.
  eexists [_]. split; [reflexivity |]. intros T HT. cbn.
  destruct (Vk.objects d !! b) as [[| | | | | | | s u m0 | |] |] eqn:Hb; try done.
  by eapply covers_update.
Qed.

Lemma in_step_host_write data src size d :
  in_step d (Vk.host_write data src size d).
Proof.
  eexists [_]. split; [reflexivity |]. intros T HT. cbn.
  destruct (Vk.objects d !! data) as [[| | | | | | | | s t old |] |] eqn:Hb;
    try done.
  by eapply covers_update.
Qed.

Lemma in_step_DestroyDescriptorPool p d :
  in_step d (Vk.DestroyDescriptorPool p d).
Proof.
  eexists [_]. split; [reflexivity |]. intros T HT. cbn.
  by apply covers_destroy_pool.
Qed.

Create HintDb track discriminated.

#[local] Hint Resolve tracked_ret tracked_get tracked_put tracked_update
  tracked_defined tracked_LOGE tracked_LoadVulkan tracked_NOT_INITIALIZED
  : track.

#[local] Hint Resolve in_step_AllocateDescriptorSets in_step_UpdateDescriptorSets
  in_step_BindBufferMemory in_step_host_write in_step_DestroyDescriptorPool
  : track.

#[local] Hint Extern 2 (in_step _ (snd (Vk.create _ _ _))) =>
  apply in_step_create; reflexivity : track.
#[local] Hint Extern 2 (in_step _ (Vk.destroy _ _ _)) =>
  apply in_step_destroy; reflexivity : track.
#[local] Hint Extern 2 (in_step _ (Vk.record _ _)) =>
  apply in_step_record; reflexivity : track.
#[local] Hint Extern 3 (in_step _ _) =>
  progress cbv delta [Vk.CreateShaderModule Vk.DestroyShaderModule
    Vk.CreateDescriptorSetLayout Vk.DestroyDescriptorSetLayout
    Vk.CreatePipelineLayout Vk.DestroyPipelineLayout Vk.CreateSampler
    Vk.DestroySampler Vk.CreateDescriptorPool Vk.CreateGraphicsPipelines
    Vk.DestroyPipeline Vk.CreateBuffer Vk.DestroyBuffer Vk.FreeMemory
    Vk.CreateImageView Vk.DestroyImageView Vk.AllocateMemory
    Vk.GetBufferMemoryRequirements Vk.GetPhysicalDeviceMemoryProperties
    Vk.GetPhysicalDeviceProperties Vk.MapMemory Vk.UnmapMemory
    Vk.GetSwapchainImagesCount Vk.GetSwapchainImages Vk.Cmd];
  cbn [fst snd] : track.

Ltac track_step :=
  lazymatch goal with
  | |- tracked (let _ := _ in _) => cbv zeta
  | |- tracked (if ?b then _ else _) => destruct b
  | |- tracked (match ?x with _ => _ end) => destruct x
  | |- tracked (bind _ _) => apply tracked_bind
  | |- tracked (vk _) => apply tracked_vk
  | |- tracked (vk_ _) => apply tracked_vk_
  | |- tracked (CALL_VK _) => apply tracked_CALL_VK
  | |- tracked (loop _ _ _) => apply tracked_loop
  | |- tracked (for_upto _ _ _) => apply tracked_for_upto
  | |- tracked _ => solve [auto 3 with track]
  | |- in_step _ _ => solve [auto 6 with track]
  | |- forall _, _ => intros
  end.

Ltac track := repeat track_step.

Lemma tracked_FindMemoryType tf p : tracked (FindMemoryType tf p).
Proof. unfold FindMemoryType. track. Qed.

#[local] Hint Resolve tracked_FindMemoryType : track.

Lemma tracked_LoadShader s : tracked (LoadShader s).
Proof. unfold LoadShader. track. Qed.
#[local] Hint Resolve tracked_LoadShader : track.

Lemma tracked_CleanPipeline eye : tracked (CleanPipeline eye).
Proof. unfold CleanPipeline. track. Qed.
#[local] Hint Resolve tracked_CleanPipeline : track.

Lemma tracked_CreateGraphicsPipeline eye : tracked (CreateGraphicsPipeline eye).
Proof. unfold CreateGraphicsPipeline. track. Qed.
#[local] Hint Resolve tracked_CreateGraphicsPipeline : track.

Lemma tracked_CreateBuffer size usage props b m :
  tracked (CreateBuffer size usage props b m).
Proof. unfold CreateBuffer. track. Qed.
#[local] Hint Resolve tracked_CreateBuffer : track.

Lemma tracked_CreateVertexBuffer eye vs : tracked (CreateVertexBuffer eye vs).
Proof. unfold CreateVertexBuffer. track. Qed.

Lemma tracked_CreateIndexBuffer eye ix : tracked (CreateIndexBuffer eye ix).
Proof. unfold CreateIndexBuffer. track. Qed.

Lemma tracked_CreateUniformBuffers eye : tracked (CreateUniformBuffers eye).
Proof. unfold CreateUniformBuffers. track. Qed.
#[local] Hint Resolve tracked_CreateVertexBuffer tracked_CreateIndexBuffer
  tracked_CreateUniformBuffers : track.

Lemma tracked_CreateImageView image : tracked (CreateImageView image).
Proof. unfold CreateImageView. track. Qed.
#[local] Hint Resolve tracked_CreateImageView : track.

Lemma tracked_CreateSwapchainImageViews : tracked CreateSwapchainImageViews.
Proof. unfold CreateSwapchainImageViews. track. Qed.

Lemma tracked_CreateSharedVulkanObjects : tracked CreateSharedVulkanObjects.
Proof.
  unfold CreateSharedVulkanObjects, CreateDescriptorSetLayout,
    CreatePipelineLayout, CreateTextureSampler.
  pose proof tracked_CreateSwapchainImageViews. track.
Qed.

Lemma tracked_CreatePerEyeVulkanObjects eye :
  tracked (CreatePerEyeVulkanObjects eye).
Proof.
  unfold CreatePerEyeVulkanObjects, CreateDescriptorPool, CreateDescriptorSets.
  track.
Qed.
#[local] Hint Resolve tracked_CreateSharedVulkanObjects
  tracked_CreatePerEyeVulkanObjects : track.

Lemma tracked_CleanTextureImageView eye index :
  tracked (CleanTextureImageView eye index).
Proof. unfold CleanTextureImageView. track. Qed.
#[local] Hint Resolve tracked_CleanTextureImageView : track.

Lemma tracked_RenderDistortionMesh desc eye cb slot :
  tracked (RenderDistortionMesh desc eye cb slot).
Proof.
  unfold RenderDistortionMesh, UpdateUniformBuffer, UpdateDescriptorSets,
    BindCommandBuffer.
  track.
Qed.

Lemma tracked_UpdateViewportAndScissor eye x y :
  tracked (UpdateViewportAndScissor eye x y).
Proof. unfold UpdateViewportAndScissor. track. Qed.
#[local] Hint Resolve tracked_RenderDistortionMesh
  tracked_UpdateViewportAndScissor : track.

Lemma tracked_SetMesh mesh eye : tracked (SetMesh mesh eye).
Proof. unfold SetMesh, fill_vertex, fill_index. track. Qed.

Lemma tracked_RenderEyeToDisplay t x y width height l rt :
  tracked (RenderEyeToDisplay t x y width height l rt).
Proof. unfold RenderEyeToDisplay. track. Qed.

Lemma tracked_ctor config : tracked (VulkanDistortionRenderer_ctor config).
Proof.
  unfold VulkanDistortionRenderer_ctor, GetSwapchainImagesCount. track.
Qed.

Lemma tracked_dtor : tracked VulkanDistortionRenderer_dtor.
Proof. unfold VulkanDistortionRenderer_dtor. track. Qed.

#[local] Hint Resolve tracked_ctor : track.

Lemma tracked_create config :
  tracked (CardboardVulkanDistortionRenderer_create config).
Proof. unfold CardboardVulkanDistortionRenderer_create. track. Qed.

Section IndexedLoops.

Context {S : Type}.

(** A loop whose body takes an invariant from index [i] to [i + 1]. *)
Lemma for_upto_invariant (P : nat -> S -> World -> Prop) (n : nat)
    (body : Z -> S -> M S) :
  (forall i s w, (i < n)%nat -> P i s w ->
     exists s' w', body (Z.of_nat i) s w = Some (s', w') /\ P (Datatypes.S i) s' w') ->
  forall s w, P 0%nat s w ->
    exists s' w', for_upto (Z.of_nat n) body s w = Some (s', w') /\ P n s' w'.
Proof.
  intros Hbody s w H0. unfold for_upto.
  assert (forall k, (k <= n)%nat ->
            exists s' w', loop (seqZ 0 (Z.of_nat k)) body s w = Some (s', w') /\
                          P k s' w') as Hk.
  { induction k as [| k IH]; intros Hle.
    - by exists s, w.
    - destruct (IH ltac:(lia)) as (s1 & w1 & Hrun & HP).
      destruct (Hbody k s1 w1 ltac:(lia) HP) as (s2 & w2 & Hrun2 & HP2).
      exists s2, w2. rewrite seqZ_0_snoc, loop_app, Hrun. cbn [loop].
      unfold bind. rewrite Hrun2. done. }
  by apply Hk.
Qed.

Lemma for_upto_invariant_Z (P : nat -> S -> World -> Prop) (n : Z)
    (body : Z -> S -> M S) :
  0 <= n ->
  (forall i s w, (i < Z.to_nat n)%nat -> P i s w ->
     exists s' w', body (Z.of_nat i) s w = Some (s', w') /\ P (Datatypes.S i) s' w') ->
  forall s w, P 0%nat s w ->
    exists s' w', for_upto n body s w = Some (s', w') /\ P (Z.to_nat n) s' w'.
Proof.
  intros Hn Hbody s w H0.
  pose proof (for_upto_invariant P (Z.to_nat n) body Hbody s w H0) as H.
  by rewrite Z2Nat.id in H by lia.
Qed.

End IndexedLoops.

Lemma nulled_lookup i v :
  (i < length v)%nat -> nulled i v !! i = Some (nth i v Vk.VK_NULL_HANDLE).
Proof.
  intros Hi. unfold nulled.
  rewrite lookup_app_r by (rewrite length_replicate; lia).
  rewrite length_replicate, Nat.sub_diag, lookup_drop, Nat.add_0_r.
  destruct (lookup_lt_is_Some_2 v i Hi) as [x Hx]. rewrite Hx. f_equal.
  symmetry. by apply nth_lookup_Some.
Qed.

Lemma nulled_insert i v :
  (i < length v)%nat -> <[i := Vk.VK_NULL_HANDLE]> (nulled i v) = nulled (S i) v.
Proof.
  intros Hi. unfold nulled.
  destruct (lookup_lt_is_Some_2 v i Hi) as [x Hx].
  rewrite (drop_S _ _ _ Hx).
  rewrite insert_app_r_alt by (rewrite length_replicate; lia).
  rewrite length_replicate, Nat.sub_diag. cbn [insert list_insert].
  rewrite replicate_S_end, <- app_assoc. done.
Qed.

Lemma nulled_skip i v :
  (i < length v)%nat -> nth i v Vk.VK_NULL_HANDLE = Vk.VK_NULL_HANDLE ->
  nulled i v = nulled (S i) v.
Proof.
  intros Hi Hn. rewrite <- nulled_insert by done.
  symmetry. apply list_insert_id. rewrite nulled_lookup by done. by rewrite Hn.
Qed.

Lemma length_nulled i v : (i <= length v)%nat -> length (nulled i v) = length v.
Proof.
  intros Hi. unfold nulled. rewrite length_app, length_replicate, length_drop. lia.
Qed.

Lemma destructible_spec r :
  destructible r = true ->
  renderer_inv r = true /\
  length (swapchain_views_ r) = Z.to_nat (swapchain_image_count_ r) /\
  length (aget kLeft (image_views_ r)) = Z.to_nat (swapchain_image_count_ r) /\
  length (aget kRight (image_views_ r)) = Z.to_nat (swapchain_image_count_ r) /\
  0 <= swapchain_image_count_ r <= CInt.INT_MAX.
Proof.
  unfold destructible. intros [Hinv Hv%Z.eqb_eq]%andb_prop.
  destruct (renderer_inv_spec _ Hinv) as [Hc Hlen].
  destruct (Hlen kLeft) as [HL _], (Hlen kRight) as [HR _].
  repeat split; try done; lia.
Qed.

Lemma set_image_views_id r :
  set_image_views_
    (mkArr2 (aget kLeft (image_views_ r)) (aget kRight (image_views_ r))) r = r.
Proof. destruct r as [? ? ? ? ? ? ? ? ? ? ? ? ? ? ? ? ? ? ? ? ? ? ? ? []]. reflexivity. Qed.

Lemma image_views_set A r : image_views_ (set_image_views_ A r) = A.
Proof. by destruct r. Qed.

Lemma swapchain_views_set A r :
  swapchain_views_ (set_image_views_ A r) = swapchain_views_ r.
Proof. by destruct r. Qed.

Lemma with_view_set eye slot v A r :
  with_view eye slot v (set_image_views_ A r) =
  set_image_views_ (aset eye (<[Z.to_nat slot := v]> (aget eye A)) A) r.
Proof. destruct r. reflexivity. Qed.

Lemma slot_release_calls_snoc r i :
  mjoin (slot_release_calls r <$> seq 0 (S i)) =
  mjoin (slot_release_calls r <$> seq 0 i) ++ slot_release_calls r i.
Proof.
  rewrite seq_S, fmap_app, join_app. cbn. by rewrite app_nil_r.
Qed.

Lemma bind_Some {A B} (m : M A) (k : A -> M B) w a w1 :
  m w = Some (a, w1) -> bind m k w = k a w1.
Proof. intros H. unfold bind. by rewrite H. Qed.

Lemma dtor_loop_run r n o c sc mt mb lg e :
  destructible r = true ->
  let k := Z.to_nat (swapchain_image_count_ r) in
  exists o',
    for_upto (swapchain_image_count_ r)
      (fun i _ =>
         CleanTextureImageView kLeft (CInt.to_int32 i) ;;
         CleanTextureImageView kRight (CInt.to_int32 i) ;;
         views <- get swapchain_views_ ;;
         view <- defined (at_index views i) ;;
         vk_ (Vk.DestroyImageView view)) tt
      (mkWorld r (Vk.mkDevice n o c sc mt mb) lg e) =
    Some (tt, mkWorld
      (set_image_views_
         (mkArr2 (replicate k Vk.VK_NULL_HANDLE) (replicate k Vk.VK_NULL_HANDLE)) r)
      (Vk.mkDevice n o'
         (c ++ mjoin (slot_release_calls r <$> seq 0 k)) sc mt mb) lg e).
Proof.
  intros Hd k. destruct (destructible_spec _ Hd) as (_ & Hsv & HvL & HvR & Hcount).
  fold k in Hsv, HvL, HvR.
  set (vL := aget kLeft (image_views_ r)) in *.
  set (vR := aget kRight (image_views_ r)) in *.
  set (P := fun (i : nat) (_ : unit) (w : World) =>
              exists o',
                w = mkWorld
                      (set_image_views_ (mkArr2 (nulled i vL) (nulled i vR)) r)
                      (Vk.mkDevice n o'
                         (c ++ mjoin (slot_release_calls r <$> seq 0 i)) sc mt mb)
                      lg e).
  match goal with
  | |- context [for_upto _ ?body tt ?w0] =>
      destruct (for_upto_invariant_Z P (swapchain_image_count_ r) body)
        with (s := tt) (w := w0) as ([] & w1 & Hrun & o' & ->); [lia | | |]
  end.
  - intros i [] w Hi (o' & ->).
    assert (Hlim : 0 <= Z.of_nat i <= CInt.INT_MAX) by lia.
    rewrite (to_int32_small _ Hlim).
    erewrite bind_Some; cycle 1.
    { apply CleanTextureImageView_run.
      rewrite image_views_set. cbn [aget at_kLeft].
      rewrite at_index_lookup, Nat2Z.id by lia.
      apply nulled_lookup. lia. }
    set (oldL := nth i vL Vk.VK_NULL_HANDLE).
    set (oldR := nth i vR Vk.VK_NULL_HANDLE).
    assert (HR : forall A : list Z,
              at_index (aget kRight (image_views_
                 (set_image_views_ (mkArr2 A (nulled i vR)) r))) (Z.of_nat i) =
              Some oldR).
    { intros. rewrite image_views_set. cbn [aget at_kRight].
      rewrite at_index_lookup, Nat2Z.id by lia. apply nulled_lookup. lia. }
    assert (Hsw : at_index (swapchain_views_ r) (Z.of_nat i) =
                  Some (nth i (swapchain_views_ r) Vk.VK_NULL_HANDLE)).
    { apply at_index_nth. lia. }
    assert (Hstep : forall (A B : list Z) o1 c1,
              (views <- get swapchain_views_ ;;
               view <- defined (at_index views (Z.of_nat i)) ;;
               vk_ (Vk.DestroyImageView view))
                (mkWorld (set_image_views_ (mkArr2 A B) r)
                   (Vk.mkDevice n o1 c1 sc mt mb) lg e) =
              Some (tt, mkWorld (set_image_views_ (mkArr2 A B) r)
                   (Vk.mkDevice n
                      (delete (nth i (swapchain_views_ r) Vk.VK_NULL_HANDLE) o1)
                      (c1 ++ [Vk.vkDestroyImageView
                                (nth i (swapchain_views_ r) Vk.VK_NULL_HANDLE)])
                      sc mt mb) lg e)).
    { intros. cbv [Vk.DestroyImageView]. run.
      rewrite Hsw. reflexivity. }
    unfold slot_release_calls, unless_null. fold vL vR oldL oldR.
    case_bool_decide as HnL.
    + rewrite with_view_set, Nat2Z.id. cbn [aget aset at_kLeft at_kRight].
      rewrite nulled_insert by lia.
      erewrite bind_Some by (apply CleanTextureImageView_run, HR).
      case_bool_decide as HnR.
      * rewrite with_view_set, Nat2Z.id. cbn [aget aset at_kLeft at_kRight].
        rewrite nulled_insert by lia. rewrite Hstep.
        eexists tt, _. split; [reflexivity |]. eexists.
        rewrite slot_release_calls_snoc. unfold slot_release_calls, unless_null.
        fold vL vR oldL oldR. rewrite !bool_decide_true by done.
        rewrite <- !app_assoc. reflexivity.
      * rewrite (nulled_skip i vR) by (lia || done). rewrite Hstep.
        eexists tt, _. split; [reflexivity |]. eexists.
        rewrite slot_release_calls_snoc. unfold slot_release_calls, unless_null.
        fold vL vR oldL oldR.
        rewrite bool_decide_true, bool_decide_false by (done || by intros ?).
        rewrite <- !app_assoc. reflexivity.
    + rewrite (nulled_skip i vL) by (lia || done).
      erewrite bind_Some by (apply CleanTextureImageView_run, HR).
      case_bool_decide as HnR.
      * rewrite with_view_set, Nat2Z.id. cbn [aget aset at_kLeft at_kRight].
        rewrite nulled_insert by lia. rewrite Hstep.
        eexists tt, _. split; [reflexivity |]. eexists.
        rewrite slot_release_calls_snoc. unfold slot_release_calls, unless_null.
        fold vL vR oldL oldR.
        rewrite bool_decide_false, bool_decide_true by (done || by intros ?).
        rewrite <- !app_assoc. reflexivity.
      * rewrite (nulled_skip i vR) by (lia || done). rewrite Hstep.
        eexists tt, _. split; [reflexivity |]. eexists.
        rewrite slot_release_calls_snoc. unfold slot_release_calls, unless_null.
        fold vL vR oldL oldR.
        rewrite !bool_decide_false by (by intros ?).
        rewrite <- !app_assoc. reflexivity.
  - exists o. unfold nulled. subst vL vR. rewrite !drop_0. cbn [replicate app].
    rewrite set_image_views_id. cbn. by rewrite app_nil_r.
  - exists o'. rewrite Hrun. unfold nulled.
    rewrite !drop_ge, !app_nil_r by lia. reflexivity.
Qed.

Lemma shared_release_calls_set A r :
  shared_release_calls (set_image_views_ A r) = shared_release_calls r.
Proof. by destruct r. Qed.

Lemma dtor_run r n o c sc mt mb lg e :
  destructible r = true ->
  exists r' o',
    VulkanDistortionRenderer_dtor (mkWorld r (Vk.mkDevice n o c sc mt mb) lg e) =
    Some (tt, mkWorld r' (Vk.mkDevice n o' (c ++ dtor_calls r) sc mt mb) lg e).
Proof.
  intros Hd. destruct (dtor_loop_run r n o c sc mt mb lg e Hd) as [o1 Hloop].
  unfold VulkanDistortionRenderer_dtor.
  erewrite bind_Some by reflexivity. cbn [this].
  erewrite bind_Some by exact Hloop.
  unfold dtor_calls. rewrite app_assoc.
  rewrite <- (shared_release_calls_set
                (mkArr2 (replicate (Z.to_nat (swapchain_image_count_ r)) Vk.VK_NULL_HANDLE)
                        (replicate (Z.to_nat (swapchain_image_count_ r)) Vk.VK_NULL_HANDLE)) r).
  generalize (set_image_views_
                (mkArr2 (replicate (Z.to_nat (swapchain_image_count_ r)) Vk.VK_NULL_HANDLE)
                        (replicate (Z.to_nat (swapchain_image_count_ r)) Vk.VK_NULL_HANDLE)) r)
    as r2.
  generalize (c ++ mjoin (slot_release_calls r <$>
                          seq 0 (Z.to_nat (swapchain_image_count_ r)))) as c2.
  clear. intros c2 r2.
  unfold shared_release_calls, buffer_release_calls, unless_null.
  cbv [Vk.DestroySampler Vk.DestroyPipelineLayout Vk.DestroyDescriptorSetLayout
       Vk.DestroyBuffer Vk.FreeMemory].
  destruct r2.
  do 10 (erewrite bind_Some by reflexivity;
         cbv [this gpu logcat env Vk.destroy Vk.DestroyDescriptorPool load
              descriptor_pool_at elem]; flat).
  erewrite bind_Some by apply CleanPipeline_run. flat. case_bool_decide.
  all: erewrite bind_Some by apply CleanPipeline_run; flat; case_bool_decide.
  all: do 23 (erewrite bind_Some by reflexivity;
              cbv [this gpu logcat env Vk.destroy load elem index_buffers_at
                   index_buffers_memory_at vertex_buffers_at
                   vertex_buffers_memory_at uniform_buffers_at
                   uniform_buffers_memory_at]; flat).
  all: cbv [vk_ this gpu logcat env Vk.destroy]; flat.
  all: eexists _, _; rewrite <- ?app_assoc; reflexivity.
Qed.

Lemma consecutive_S n k : consecutive n (S k) = n :: consecutive (n + 1) k.
Proof.
  unfold consecutive. cbn [seq fmap list_fmap]. rewrite Z.add_0_r. f_equal.
  rewrite <- fmap_S_seq, <- list_fmap_compose. apply list_fmap_ext.
  intros _ i _. cbn. lia.
Qed.

Lemma consecutive_snoc n k :
  consecutive n (S k) = consecutive n k ++ [n + Z.of_nat k].
Proof. unfold consecutive. by rewrite seq_S, fmap_app. Qed.

Lemma length_consecutive n k : length (consecutive n k) = k.
Proof. unfold consecutive. by rewrite length_fmap, length_seq. Qed.

Lemma elem_of_consecutive n k h :
  h ∈ consecutive n k <-> n <= h < n + Z.of_nat k.
Proof.
  unfold consecutive. rewrite list_elem_of_fmap. split.
  - intros (i & -> & Hi%elem_of_seq). lia.
  - intros H. exists (Z.to_nat (h - n)). split; [lia |].
    apply elem_of_seq. lia.
Qed.

Lemma fresh_sets_fst pool h k o :
  (Vk.fresh_sets pool h k o).1 = consecutive h k.
Proof.
  revert h o. induction k as [| k IH]; intros h o; [done |].
  cbn [Vk.fresh_sets]. specialize (IH (h + 1) (<[h := Vk.ODescriptorSet pool []]> o)).
  destruct (Vk.fresh_sets pool (h + 1) k _) as [hs o']. cbn [fst] in *.
  by rewrite consecutive_S, IH.
Qed.

Lemma CreatePerEyeVulkanObjects_calls eye r d lg e :
  let n := Vk.next_handle d in
  let k := Z.to_nat (swapchain_image_count_ r) in
  exists o,
    CreatePerEyeVulkanObjects eye (mkWorld r d lg e) =
    Some (tt, mkWorld (with_eye_objects eye n r)
      (Vk.update d (n + 3 + Z.of_nat k) o
         (Vk.calls d ++ eye_setup_calls r (default 0 (found_memory_type d)) n))
      (lg ++ memory_type_log d) e).
Proof.
  unfold CreatePerEyeVulkanObjects, CreateDescriptorPool, CreateUniformBuffers,
    CreateBuffer, FindMemoryType, CreateDescriptorSets, with_eye_objects,
    eye_setup_calls, buffer_calls, memory_type_log, found_memory_type.
  cbv [Vk.CreateDescriptorPool Vk.AllocateDescriptorSets].
  destruct d as [n o c sc mt mb]. destruct r. destruct eye.
  all: run; flat; lookups; run; flat.
  all: destruct (first_suitable mb host_visible_coherent 0 mt) as [ti |];
    run; flat; lookups; run; flat.
  all: match goal with
       | |- context [Vk.fresh_sets ?p ?h ?k ?o] =>
           pose proof (length_fresh_sets p h k o) as Hlen;
           pose proof (fresh_sets_fst p h k o) as Hfst;
           destruct (Vk.fresh_sets p h k o) as [hs o']
       end; cbn [fst] in Hlen, Hfst; rewrite length_replicate in Hlen, Hfst;
       subst hs; run; flat;
       rewrite write_data_same_length by (rewrite length_resize; done);
       run; flat;
       rewrite const_fmap_replicate, length_resize, length_replicate;
       eexists;
       rewrite <- ?app_assoc, ?app_nil_r; cbn [app];
       rewrite ?Z.add_assoc;
       rewrite ?(Z.add_comm 1 1 : 1 + 1 = 2);
       repeat match goal with
              | |- context [?a + 1 + 1 + 1] =>
                  replace (a + 1 + 1 + 1) with (a + 3) by lia
              | |- context [?a + 1 + 1] =>
                  replace (a + 1 + 1) with (a + 2) by lia
              end;
       reflexivity.
Qed.

Lemma view_calls_snoc n imgs k :
  view_calls n imgs (S k) =
  view_calls n imgs k ++
  [Vk.vkCreateImageView (nth k imgs Vk.VK_NULL_HANDLE) (n + Z.of_nat k)].
Proof. unfold view_calls. by rewrite seq_S, fmap_app. Qed.

Lemma consecutive_insert n i (v : list Z) :
  (i < length v)%nat ->
  <[i := n + Z.of_nat i]> (consecutive n i ++ drop i v) =
  consecutive n (S i) ++ drop (S i) v.
Proof.
  intros Hi. destruct (lookup_lt_is_Some_2 v i Hi) as [x Hx].
  rewrite (drop_S _ _ _ Hx).
  rewrite insert_app_r_alt by (rewrite length_consecutive; lia).
  rewrite length_consecutive, Nat.sub_diag. cbn [insert list_insert].
  rewrite consecutive_snoc, <- app_assoc. done.
Qed.

Lemma CreateSwapchainImageViews_calls r d lg e :
  let imgs := Vk.images_of (swapchain_ r) d in
  let k := length imgs in
  let n := Vk.next_handle d in
  swapchain_image_count_ r = Z.of_nat k ->
  length (swapchain_images_ r) = k ->
  length (swapchain_views_ r) = k ->
  exists o,
    CreateSwapchainImageViews (mkWorld r d lg e) =
    Some (tt, mkWorld
      (set_swapchain_views_ (consecutive n k)
         (set_swapchain_images_ imgs
            (set_swapchain_image_count_ (Z.of_nat k) r)))
      (Vk.update d (n + Z.of_nat k) o
         (Vk.calls d ++
          [Vk.vkGetSwapchainImagesKHR (swapchain_ r) true] ++
          view_calls n imgs k))
      lg e).
Proof.
  intros imgs k n Hcount Himgs Hviews.
  unfold CreateSwapchainImageViews, CreateImageView.
  cbv [Vk.GetSwapchainImages]. fold imgs.
  destruct d as [n0 o c sc mt mb]. cbn [Vk.next_handle] in n. subst n.
  run. rewrite Hcount, Nat2Z.id. unfold k.
  rewrite firstn_all. fold imgs. fold k.
  rewrite write_data_same_length by done. run. fold k.
  set (r1 := set_swapchain_images_ imgs (set_swapchain_image_count_ (Z.of_nat k) r)).
  set (c1 := c ++ [Vk.vkGetSwapchainImagesKHR (swapchain_ r) true]).
  set (P := fun (i : nat) (_ : unit) (w : World) =>
              exists o',
                w = mkWorld
                      (set_swapchain_views_
                         (consecutive n0 i ++ drop i (swapchain_views_ r)) r1)
                      (Vk.mkDevice (n0 + Z.of_nat i) o'
                         (c1 ++ view_calls n0 imgs i) sc mt mb) lg e).
  match goal with
  | |- context [for_upto _ ?body tt ?w0] =>
      destruct (for_upto_invariant P k body) with (s := tt) (w := w0)
        as ([] & w1 & Hrun & o' & ->)
  end.
  - intros i [] w Hi (o' & ->).
    cbv [Vk.CreateImageView]. run.
    replace (swapchain_images_ (set_swapchain_views_
               (consecutive n0 i ++ drop i (swapchain_views_ r)) r1))
      with imgs by (by destruct r).
    rewrite (at_index_nth imgs i Vk.VK_NULL_HANDLE) by lia. run.
    replace (swapchain_views_ (set_swapchain_views_
               (consecutive n0 i ++ drop i (swapchain_views_ r)) r1))
      with (consecutive n0 i ++ drop i (swapchain_views_ r)) by (by destruct r).
    assert (Hlen : length (consecutive n0 i ++ drop i (swapchain_views_ r)) = k).
    { rewrite length_app, length_consecutive, length_drop. lia. }
    destruct (at_index_is_Some (consecutive n0 i ++ drop i (swapchain_views_ r))
                (Z.of_nat i) ltac:(lia)) as [v Hv].
    rewrite (assign_index_Some _ _ _ _ Hv). run. rewrite Nat2Z.id.
    rewrite consecutive_insert by lia.
    eexists tt, _. split; [reflexivity |]. eexists.
    rewrite view_calls_snoc, app_assoc.
    replace (n0 + Z.of_nat (S i)) with (n0 + Z.of_nat i + 1) by lia.
    destruct r; reflexivity.
  - exists o. unfold consecutive, view_calls. cbn [seq fmap list_fmap app].
    rewrite drop_0, Z.add_0_r, app_nil_r. subst r1 c1. destruct r; reflexivity.
  - exists o'. rewrite Hrun.
    rewrite drop_ge, app_nil_r by lia. subst r1 c1.
    rewrite <- app_assoc. destruct r; reflexivity.
Qed.

Lemma ctor_run config raw d lg e :
  vulkan_loadable e = true ->
  let imgs := Vk.images_of (vk_swapchain config) d in
  let n := Vk.next_handle d in
  exists o,
    VulkanDistortionRenderer_ctor config (mkWorld raw d lg e) =
    Some (tt, mkWorld (ctor_state config n imgs raw)
      (Vk.update d (n + 9 + 3 * Z.of_nat (length imgs)) o
         (Vk.calls d ++
          ctor_calls config n imgs (default 0 (found_memory_type d)) raw))
      (lg ++ memory_type_log d ++ memory_type_log d) e).
Proof.
  intros H imgs n. unfold VulkanDistortionRenderer_ctor, LoadVulkan,
    GetSwapchainImagesCount, CreateSharedVulkanObjects,
    CreateDescriptorSetLayout, CreatePipelineLayout, CreateTextureSampler.
  cbv [Vk.GetSwapchainImagesCount Vk.CreateDescriptorSetLayout
       Vk.CreatePipelineLayout Vk.CreateSampler Vk.GetPhysicalDeviceProperties
       member_init].
  destruct d as [n0 o c sc mt mb], raw, config as [pd ld sw].
  cbn [Vk.next_handle] in n. subst n.
  cbv [bind get put this gpu logcat env LoadVulkan]. rewrite H.
  run. flat. rewrite !Nat2Z.id.
  change (Vk.images_of sw (Vk.mkDevice n0 o c sc mt mb)) with imgs.
  match goal with
  | |- context [CreateSwapchainImageViews (mkWorld ?r1 ?d1 ?lg1 _)] =>
      destruct (CreateSwapchainImageViews_calls r1 d1 lg1 e)
        as (o1 & ->);
        [reflexivity | cbn; by rewrite length_resize
        | cbn; by rewrite length_resize |]
  end.
  flat.
  change (Vk.images_of sw _) with imgs in *.
  match goal with
  | |- context [CreatePerEyeVulkanObjects kLeft (mkWorld ?r1 ?d1 ?lg1 _)] =>
      destruct (CreatePerEyeVulkanObjects_calls kLeft r1 d1 lg1 e)
        as (o2 & ->)
  end.
  unfold with_eye_objects at 1. flat.
  match goal with
  | |- context [CreatePerEyeVulkanObjects kRight (mkWorld ?r1 ?d1 ?lg1 _)] =>
      destruct (CreatePerEyeVulkanObjects_calls kRight r1 d1 lg1 e)
        as (o3 & ->)
  end.
  unfold with_eye_objects at 1. flat.
  exists o3.
  unfold ctor_state, ctor_calls, with_eye_objects, with_shared_objects,
    eye_setup_calls, buffer_calls, member_init, memory_type_log,
    found_memory_type.
  flat. cbn [Vk.memory_type_bits Vk.memory_types].
  rewrite !Nat2Z.id.
  rewrite <- ?app_assoc. cbn [app].
  set (k := Z.of_nat (length imgs)).
  replace (n0 + 1 + 1 + 1 + k) with (n0 + 3 + k) by lia.
  replace (n0 + 3 + k + 3 + k) with (n0 + 6 + 2 * k) by lia.
  replace (n0 + 6 + 2 * k + 3 + k) with (n0 + 9 + 3 * k) by lia.
  replace (n0 + 1 + 1) with (n0 + 2) by lia.
  rewrite <- !Z.add_assoc.
  change (1 + 1) with 2. change (2 + 1) with 3.
  reflexivity.
Qed.

Lemma elem_of_nonnull h l : h ∈ nonnull l <-> h <> Vk.VK_NULL_HANDLE /\ h ∈ l.
Proof. unfold nonnull. by rewrite list_elem_of_filter. Qed.

Lemma elem_of_nonnull_insert h (v : list Z) (i : nat) (new : Z) :
  h ∈ nonnull v ->
  (nth i v Vk.VK_NULL_HANDLE <> Vk.VK_NULL_HANDLE -> h <> nth i v Vk.VK_NULL_HANDLE) ->
  h ∈ nonnull (<[i := new]> v).
Proof.
  rewrite !elem_of_nonnull. intros [Hn Hin] Hold. split; [done |].
  apply list_elem_of_lookup in Hin as [j Hj].
  destruct (decide (j = i)) as [-> |].
  - exfalso. rewrite (nth_lookup_Some _ _ Vk.VK_NULL_HANDLE _ Hj) in Hold.
    by apply Hold.
  - apply list_elem_of_lookup. exists j. by rewrite list_lookup_insert_ne.
Qed.

Lemma elem_of_insert_new (v : list Z) (i : nat) (new : Z) :
  (i < length v)%nat -> new ∈ <[i := new]> v.
Proof.
  intros Hi. apply list_elem_of_lookup. exists i.
  by apply list_lookup_insert_eq.
Qed.

(** *** The ledger of each group of calls *)

Lemma ledger_view_calls T n imgs k x :
  x ∈ ledger T (view_calls n imgs k) ->
  x ∈ T \/ exists i, (i < k)%nat /\ x = (n + Z.of_nat i, None).
Proof.
  induction k as [| k IH]; [by left |].
  rewrite view_calls_snoc, ledger_app. cbn [ledger foldl ledger_step].
  intros [-> | Hin]%elem_of_cons.
  - right. exists k. split; [lia | done].
  - destruct (IH Hin) as [? | (i & Hi & ->)]; [by left |].
    right. exists i. split; [lia | done].
Qed.

Lemma ledger_eye_setup_calls T r ti n x :
  x ∈ ledger T (eye_setup_calls r ti n) ->
  x ∈ T \/ x ∈ [(n, None); (n + 1, None); (n + 1 + 1, None)] \/
  (x.2 = Some n).
Proof.
  unfold eye_setup_calls, buffer_calls. cbn [app ledger foldl ledger_step].
  rewrite elem_of_app, list_elem_of_fmap, !elem_of_cons.
  intros [(h & -> & _) | [-> | [-> | [-> | ?]]]]; auto 6.
Qed.

Lemma ledger_mesh_calls T r mesh ti n :
  ledger T (mesh_calls r mesh ti n) =
  (n + 2 + 1, None) :: (n + 2, None) :: (n + 1, None) :: (n, None) :: T.
Proof. reflexivity. Qed.

Lemma ledger_pipeline_calls T r eye n x :
  x ∈ ledger T (pipeline_calls r eye n) ->
  x = (n + 2, None) \/
  (x ∈ T /\
   (aget eye (graphics_pipeline_ r) <> Vk.VK_NULL_HANDLE ->
    x.1 <> aget eye (graphics_pipeline_ r))).
Proof.
  unfold pipeline_calls. rewrite ledger_app.
  cbn [ledger foldl ledger_step]. rewrite !elem_of_struck, !elem_of_cons.
  intros (Hn1 & Hn0 & [-> | [-> | [-> | Hin]]]); [by left | done | done |].
  right. case_bool_decide as Hp; cbn [foldl ledger_step] in Hin.
  - apply elem_of_struck in Hin as [? ?]. done.
  - done.
Qed.

Lemma ledger_eye_calls T r eye desc cb old set view x :
  x ∈ ledger T (eye_calls r eye desc cb old set view) ->
  x = (view, None) \/
  (x ∈ T /\ (old <> Vk.VK_NULL_HANDLE -> x.1 <> old)).
Proof.
  unfold eye_calls, uniform_write_calls, clean_view_calls, descriptor_update_call,
    bind_and_draw_calls.
  rewrite !ledger_app. cbn [ledger foldl ledger_step app].
  rewrite elem_of_cons. intros [-> | Hin]; [by left |]. right.
  case_bool_decide as Hp; cbn [foldl ledger_step] in Hin.
  - apply elem_of_struck in Hin as [? ?]. done.
  - done.
Qed.

Lemma ledger_step_release T c x :
  is_release c = true ->
  x ∈ ledger_step T c <-> x ∈ T /\ ~ strikes c x.
Proof.
  destruct c; cbn; try done; intros _;
    rewrite ?list_elem_of_filter, ?elem_of_struck; tauto.
Qed.

Lemma ledger_releases_nil T evs :
  Forall (fun c => is_release c = true) evs ->
  (forall x, x ∈ T -> exists c, c ∈ evs /\ strikes c x) ->
  ledger T evs = [].
Proof.
  intros Hrel. revert T. induction Hrel as [| c evs Hc Hrel IH]; intros T Hall.
  - destruct T as [| x T]; [done |].
    destruct (Hall x ltac:(left)) as (c & Hin & _). by apply elem_of_nil in Hin.
  - cbn. apply IH. intros x Hx.
    apply (ledger_step_release _ _ _ Hc) in Hx as [Hx Hns].
    destruct (Hall x Hx) as (c' & [-> | Hin]%elem_of_cons & Hs); [done |].
    by exists c'.
Qed.

Lemma Forall_release_unless_null f h :
  (forall x, is_release (f x) = true) ->
  Forall (fun c => is_release c = true) (unless_null f h).
Proof.
  intros Hf. unfold unless_null. case_bool_decide; [| done].
  by constructor.
Qed.

Lemma dtor_calls_release r :
  Forall (fun c => is_release c = true) (dtor_calls r).
Proof.
  unfold dtor_calls, shared_release_calls, buffer_release_calls.
  rewrite !Forall_app. repeat split.
  - apply Forall_forall. intros c (l & Hc & (i & -> & _)%list_elem_of_fmap)%list_elem_of_join.
    revert c Hc. apply Forall_forall. unfold slot_release_calls.
    rewrite !Forall_app. repeat split;
      [by apply Forall_release_unless_null
      | by apply Forall_release_unless_null | by repeat constructor].
  - by repeat constructor.
  - by apply Forall_release_unless_null.
  - by apply Forall_release_unless_null.
  - by repeat constructor.
  - by repeat constructor.
  - by repeat constructor.
Qed.

Lemma elem_of_unless_null f h : h <> Vk.VK_NULL_HANDLE -> f h ∈ unless_null f h.
Proof. intros H. unfold unless_null. rewrite bool_decide_true by done. left. Qed.

Lemma slot_release_calls_in r i c :
  (i < Z.to_nat (swapchain_image_count_ r))%nat ->
  c ∈ slot_release_calls r i -> c ∈ dtor_calls r.
Proof.
  intros Hi Hc. unfold dtor_calls. apply elem_of_app. left.
  apply list_elem_of_join. exists (slot_release_calls r i). split; [done |].
  apply list_elem_of_fmap. exists i. split; [done |]. apply elem_of_seq. lia.
Qed.

Lemma shared_release_calls_in r c :
  c ∈ shared_release_calls r -> c ∈ dtor_calls r.
Proof. intros Hc. unfold dtor_calls. apply elem_of_app. by right. Qed.

Lemma elem_of_nth (l : list Z) (h : Z) :
  h ∈ l -> exists i, (i < length l)%nat /\ nth i l Vk.VK_NULL_HANDLE = h.
Proof.
  intros [i Hi]%list_elem_of_lookup. exists i. split.
  - by eapply lookup_lt_Some.
  - by apply nth_lookup_Some.
Qed.

Ltac find_in :=
  repeat first
    [ apply list_elem_of_here
    | apply list_elem_of_further
    | apply elem_of_unless_null; assumption
    | apply elem_of_app; left; solve [find_in]
    | apply elem_of_app; right ].

(** The destructor strikes out everything the object holds. *)
Lemma dtor_strikes_held r h :
  destructible r = true ->
  h ∈ held r \/ h ∈ mesh_held r kLeft \/ h ∈ mesh_held r kRight ->
  exists c, c ∈ dtor_calls r /\ strikes c (h, None).
Proof.
  intros Hd. destruct (destructible_spec _ Hd) as (_ & Hsv & HvL & HvR & _).
  unfold held, mesh_held.
  rewrite !elem_of_app, !elem_of_nonnull, !elem_of_cons.
  intros H.
  assert (Hshared : forall c, c ∈ shared_release_calls r -> strikes c (h, None) ->
            exists c, c ∈ dtor_calls r /\ strikes c (h, None)).
  { intros c Hc Hs. exists c. split; [by apply shared_release_calls_in | done]. }
  assert (Hslot : forall i c, (i < Z.to_nat (swapchain_image_count_ r))%nat ->
            c ∈ slot_release_calls r i -> strikes c (h, None) ->
            exists c, c ∈ dtor_calls r /\ strikes c (h, None)).
  { intros i c Hi Hc Hs. exists c. split; [by eapply slot_release_calls_in | done]. }
  unfold shared_release_calls, buffer_release_calls in Hshared.
  cbn [aget] in *.
  repeat match goal with
         | H : _ \/ _ |- _ => destruct H as [H | H]
         | H : _ /\ _ |- _ => destruct H as [? H]
         | H : _ ∈ [] |- _ => by apply elem_of_nil in H
         end.
  all: try (subst h;
            match goal with
            | |- exists c, _ /\ strikes c (?h, None) =>
                first
                  [ solve [apply (Hshared (Vk.vkDestroyDescriptorSetLayout h));
                           [find_in | cbn; auto]]
                  | solve [apply (Hshared (Vk.vkDestroyPipelineLayout h));
                           [find_in | cbn; auto]]
                  | solve [apply (Hshared (Vk.vkDestroySampler h));
                           [find_in | cbn; auto]]
                  | solve [apply (Hshared (Vk.vkDestroyDescriptorPool h));
                           [find_in | cbn; auto]]
                  | solve [apply (Hshared (Vk.vkDestroyBuffer h));
                           [find_in | cbn; auto]]
                  | solve [apply (Hshared (Vk.vkFreeMemory h));
                           [find_in | cbn; auto]]
                  | solve [apply (Hshared (Vk.vkDestroyPipeline h));
                           [find_in | cbn; auto]] ]
            end).
  - destruct (elem_of_nth _ _ H) as (i & Hi & <-).
    eapply (Hslot i (Vk.vkDestroyImageView _)); [lia | | reflexivity].
    unfold slot_release_calls. rewrite !elem_of_app, elem_of_cons. tauto.
  - destruct (elem_of_nth _ _ H) as (i & Hi & <-).
    eapply (Hslot i (Vk.vkDestroyImageView _)); [lia | | reflexivity].
    unfold slot_release_calls. rewrite !elem_of_app. left.
    by apply elem_of_unless_null.
  - destruct (elem_of_nth _ _ H) as (i & Hi & <-).
    eapply (Hslot i (Vk.vkDestroyImageView _)); [lia | | reflexivity].
    unfold slot_release_calls. rewrite !elem_of_app. right. left.
    by apply elem_of_unless_null.
Qed.

(** *** Each phase of the life of the object *)

Lemma dtor_settled w T :
  settled [kLeft; kRight] w T ->
  exists w' evs,
    VulkanDistortionRenderer_dtor w = Some (tt, w') /\
    Vk.calls (gpu w') = Vk.calls (gpu w) ++ evs /\
    ledger T evs = [].
Proof.
  intros (Hd & _ & Hacc). destruct w as [r [n o c sc mt mb] lg e].
  cbn [this gpu] in *.
  destruct (dtor_run r n o c sc mt mb lg e Hd) as (r' & o' & ->).
  eexists _, (dtor_calls r). split; [reflexivity |]. split; [done |].
  apply ledger_releases_nil; [apply dtor_calls_release |].
  intros [h [p |]] Hx; specialize (Hacc _ _ Hx); cbn in Hacc.
  - exists (Vk.vkDestroyDescriptorPool p). split; [| by right].
    apply shared_release_calls_in. unfold shared_release_calls.
    destruct Hacc as [-> | ->]; find_in.
  - apply dtor_strikes_held; [done |].
    destruct Hacc as [? | (eye & Heye & ?)]; [by left |].
    right. rewrite !elem_of_cons in Heye.
    destruct Heye as [-> | [-> | []%elem_of_nil]]; auto.
Qed.

Lemma held_with_mesh eye vb vm ib im count r :
  held (with_mesh eye vb vm ib im count r) = held r.
Proof. by destruct r. Qed.

Lemma SetMesh_settled mesh eye eyes w T :
  mesh_valid mesh = true ->
  eye ∉ eyes ->
  settled eyes w T ->
  exists w' evs,
    SetMesh mesh eye w = Some (tt, w') /\
    Vk.calls (gpu w') = Vk.calls (gpu w) ++ evs /\
    settled (eye :: eyes) w' (ledger T evs).
Proof.
  intros Hv Hnew (Hd & Hn & Hacc). destruct w as [r d lg e]. cbn [this gpu] in *.
  rewrite (SetMesh_calls _ _ _ _ _ _ Hv).
  eexists _, _. split; [reflexivity |]. split; [reflexivity |].
  cbv zeta. unfold settled, Vk.update. cbn [this gpu Vk.next_handle].
  split; [exact Hd |]. split; [lia |].
  rewrite ledger_mesh_calls. set (n := Vk.next_handle d) in *.
  intros h tag. rewrite !elem_of_cons.
  assert (Hmine : forall k, k ∈ [n; n + 1; n + 2; n + 2 + 1] ->
            k ∈ held (with_mesh eye n (n + 1) (n + 2) (n + 3) (n_indices mesh) r) \/
            exists eye', eye' ∈ eye :: eyes /\
              k ∈ mesh_held (with_mesh eye n (n + 1) (n + 2) (n + 3)
                               (n_indices mesh) r) eye').
  { intros k Hk. right. exists eye. split; [left |].
    unfold mesh_held, with_mesh.
    cbn [vertex_buffers_ vertex_buffers_memory_ index_buffers_
         index_buffers_memory_ set_indices_count_ set_index_buffers_memory_
         set_index_buffers_ set_vertex_buffers_memory_ set_vertex_buffers_].
    rewrite !aget_aset_eq. by replace (n + 3) with (n + 2 + 1) by lia. }
  intros [[= -> ->] | [[= -> ->] | [[= -> ->] | [[= -> ->] | Hin]]]].
  1-4: apply Hmine; rewrite !elem_of_cons; tauto.
  specialize (Hacc _ _ Hin). destruct tag as [p |].
  - by destruct r.
  - rewrite held_with_mesh. destruct Hacc as [? | (eye' & Heye' & Hh)]; [by left |].
    right. exists eye'. split; [by right |].
    assert (eye' <> eye) by (by intros ->).
    unfold mesh_held, with_mesh in *.
    cbn [vertex_buffers_ vertex_buffers_memory_ index_buffers_
         index_buffers_memory_ set_indices_count_ set_index_buffers_memory_
         set_index_buffers_ set_vertex_buffers_memory_ set_vertex_buffers_].
    by rewrite !(aget_aset_ne eye eye') by done.
Qed.

Lemma ctor_state_fields config n imgs raw :
  let r := ctor_state config n imgs raw in
  let k := Z.of_nat (length imgs) in
  descriptor_set_layout_ r = n /\
  pipeline_layout_ r = n + 1 /\
  texture_sampler_ r = n + 2 /\
  swapchain_views_ r = consecutive (n + 3) (length imgs) /\
  swapchain_image_count_ r = k /\
  descriptor_pool_ r = mkArr2 (n + 3 + k) (n + 6 + 2 * k) /\
  uniform_buffers_ r = mkArr2 (n + 3 + k + 1) (n + 6 + 2 * k + 1) /\
  uniform_buffers_memory_ r = mkArr2 (n + 3 + k + 2) (n + 6 + 2 * k + 2) /\
  graphics_pipeline_ r = mkArr2 Vk.VK_NULL_HANDLE Vk.VK_NULL_HANDLE /\
  image_views_ r =
    mkArr2 (replicate (length imgs) Vk.VK_NULL_HANDLE)
           (replicate (length imgs) Vk.VK_NULL_HANDLE) /\
  descriptor_sets_ r =
    mkArr2 (consecutive (n + 3 + k + 3) (length imgs))
           (consecutive (n + 6 + 2 * k + 3) (length imgs)).
Proof.
  destruct raw. unfold ctor_state, with_eye_objects, with_shared_objects,
    member_init. flat. rewrite !Nat2Z.id. done.
Qed.

Lemma nonnull_replicate_null k : nonnull (replicate k Vk.VK_NULL_HANDLE) = [].
Proof. induction k as [| k IH]; [done |]. cbn. by rewrite decide_False by (by intros ?). Qed.

Lemma ctor_settled config w :
  sdk_initialized (env w) = true ->
  vulkan_loadable (env w) = true ->
  Z.of_nat (length (Vk.images_of (vk_swapchain config) (gpu w))) <= CInt.INT_MAX ->
  0 < Vk.next_handle (gpu w) ->
  exists w' evs,
    CardboardVulkanDistortionRenderer_create (Some config) w = Some (object, w') /\
    Vk.calls (gpu w') = Vk.calls (gpu w) ++ evs /\
    settled [] w' (ledger [] evs).
Proof.
  destruct w as [raw d lg e]. cbn [env gpu this]. intros Hsdk Hvk Hmax Hn.
  destruct (ctor_run config raw d lg e Hvk) as (o & Hrun).
  set (imgs := Vk.images_of (vk_swapchain config) d) in *.
  set (n := Vk.next_handle d) in *. cbv zeta in Hrun.
  eexists _, _. split.
  { unfold CardboardVulkanDistortionRenderer_create, CARDBOARD_IS_NOT_INITIALIZED.
    cbv [bind env ret]. rewrite Hsdk. cbn [negb orb CARDBOARD_IS_ARG_NULL].
    rewrite Hrun. reflexivity. }
  split; [reflexivity |].
  destruct (ctor_state_fields config n imgs raw)
    as (Hsl & Hpl & Hsa & Hsv & Hcount & Hpool & Hub & Hum & Hgp & Hiv & Hds).
  cbv zeta in *. set (k := Z.of_nat (length imgs)) in *.
  unfold settled, Vk.update. cbn [this gpu Vk.next_handle].
  split; [| split; [lia |]].
  - unfold destructible, renderer_inv, per_eye_sized.
    rewrite Hsv, Hcount, Hiv, Hds. cbn [aget at_kLeft at_kRight].
    rewrite !length_replicate, !length_consecutive. fold k. rewrite !Z.eqb_refl.
    destruct (Z.leb_spec 0 k); [| lia].
    destruct (Z.leb_spec k CInt.INT_MAX); [done | lia].
  - intros h tag Hin. unfold ctor_calls in Hin.
    rewrite !ledger_app in Hin. cbn [ledger foldl ledger_step] in Hin.
    fold k in Hin.
    apply ledger_eye_setup_calls in Hin as [Hin | [Hin | Hin]].
    + apply ledger_eye_setup_calls in Hin as [Hin | [Hin | Hin]].
      * apply ledger_view_calls in Hin as [Hin | (i & Hi & Hin)].
        -- rewrite !elem_of_cons in Hin.
           destruct Hin as [[= -> ->] | [[= -> ->] | [[= -> ->] | []%elem_of_nil]]];
             left; unfold held; rewrite Hsl, Hpl, Hsa; find_in.
        -- injection Hin as -> ->. left. unfold held. rewrite Hsv.
           apply elem_of_app. right. apply elem_of_app. left.
           apply elem_of_consecutive. lia.
      * rewrite !elem_of_cons in Hin.
        destruct Hin as [[= -> ->] | [[= -> ->] | [[= -> ->] | []%elem_of_nil]]];
          left; unfold held; rewrite Hpool, Hub, Hum; cbn [aget at_kLeft at_kRight];
          replace (n + 3 + k + 1 + 1) with (n + 3 + k + 2) by lia; find_in.
      * cbn in Hin. subst tag. left. rewrite Hpool. done.
    + rewrite !elem_of_cons in Hin.
      destruct Hin as [[= -> ->] | [[= -> ->] | [[= -> ->] | []%elem_of_nil]]];
        left; unfold held; rewrite Hpool, Hub, Hum; cbn [aget at_kLeft at_kRight];
        replace (n + 6 + 2 * k + 1 + 1) with (n + 6 + 2 * k + 2) by lia; find_in.
    + cbn in Hin. subst tag. right. rewrite Hpool. done.
Qed.

(** *** Frames *)

Lemma cached_view_nth r eye slot :
  0 <= slot ->
  cached_view r eye slot = nth (Z.to_nat slot) (aget eye (image_views_ r)) Vk.VK_NULL_HANDLE.
Proof.
  intros Hs. unfold cached_view, at_index.
  destruct (Z.ltb_spec slot 0); [lia |]. by rewrite nth_lookup.
Qed.

Lemma frame_final_handles r n t x y wd ht l rt :
  let f := frame_of r n t x y wd ht l rt in
  let k := if render_pass_changed r t then 6 else 0 in
  aget kLeft (image_views_ (frame_final f)) =
    <[Z.to_nat (slot_of t) := n + k]> (aget kLeft (image_views_ r)) /\
  aget kRight (image_views_ (frame_final f)) =
    <[Z.to_nat (slot_of t) := n + k + 1]> (aget kRight (image_views_ r)) /\
  graphics_pipeline_ (frame_final f) =
    (if render_pass_changed r t then mkArr2 (n + 2) (n + 5)
     else graphics_pipeline_ r).
Proof.
  destruct r. cbv zeta. unfold render_pass_changed.
  frame_cases; flat; done.
Qed.

Lemma ledger_frame_calls T r n t x y wd ht l rt e :
  e ∈ ledger T (frame_calls (frame_of r n t x y wd ht l rt)) ->
  let k := if render_pass_changed r t then 6 else 0 in
  e = (n + k + 1, None) \/ e = (n + k, None) \/
  (render_pass_changed r t = true /\ (e = (n + 2, None) \/ e = (n + 5, None))) \/
  (e ∈ T /\
   (forall eye, cached_view r eye (slot_of t) <> Vk.VK_NULL_HANDLE ->
      e.1 <> cached_view r eye (slot_of t)) /\
   (render_pass_changed r t = true ->
    forall eye, aget eye (graphics_pipeline_ r) <> Vk.VK_NULL_HANDLE ->
      e.1 <> aget eye (graphics_pipeline_ r))).
Proof.
  unfold frame_calls, frame_of.
  cbn [frame_rebuild frame_left frame_right].
  rewrite !ledger_app. cbv zeta. intros Hin.
  apply ledger_eye_calls in Hin as [-> | [Hin HoR]]; [by left |].
  apply ledger_eye_calls in Hin as [-> | [Hin HoL]]; [by right; left |].
  right. right.
  assert (Hviews : forall eye, cached_view r eye (slot_of t) <> Vk.VK_NULL_HANDLE ->
            e.1 <> cached_view r eye (slot_of t)) by (by intros []).
  destruct (render_pass_changed r t) eqn:Hch.
  - unfold rebuild_calls in Hin. rewrite ledger_app in Hin.
    apply ledger_pipeline_calls in Hin as [-> | [Hin HpR]].
    { left. split; [done |]. right. f_equal. lia. }
    apply ledger_pipeline_calls in Hin as [-> | [Hin HpL]].
    { left. split; [done |]. by left. }
    right. split; [done |]. split; [done |].
    intros _ eye. destruct r, eye; flat_in HpL; flat_in HpR; flat; done.
  - right. split; [done |]. split; [done |]. done.
Qed.

Lemma frame_accounted eyes r n t x y wd ht l rt T :
  destructible r = true -> slot_valid r t = true -> 0 < n ->
  accounted eyes r T ->
  accounted eyes (frame_final (frame_of r n t x y wd ht l rt))
    (ledger T (frame_calls (frame_of r n t x y wd ht l rt))).
Proof.
  intros Hd Hslot Hn Hacc.
  destruct (destructible_spec _ Hd) as (Hinv & Hsv & HvL & HvR & Hcount).
  pose proof (slot_valid_spec _ _ Hslot) as Hs.
  destruct (frame_other_members r n t x y wd ht l rt)
    as (_ & _ & _ & _ & _ & Hsa & Hsl & Hpl & _ & Hviews & Hvb & Hvm & Hib & Him &
        Hub & Hum & Hpool & _).
  destruct (frame_final_handles r n t x y wd ht l rt) as (HiL & HiR & Hgp).
  cbv zeta in *.
  set (f := frame_of r n t x y wd ht l rt) in *.
  set (k := if render_pass_changed r t then 6 else 0) in *.
  assert (Hk : 0 <= k) by (subst k; destruct (render_pass_changed r t); lia).
  assert (HinL : n + k ∈ held (frame_final f)).
  { unfold held. rewrite HiL. do 3 (apply elem_of_app; right).
    apply elem_of_app; left. apply elem_of_nonnull. split; [unfold Vk.VK_NULL_HANDLE; lia |].
    apply elem_of_insert_new. lia. }
  assert (HinR : n + k + 1 ∈ held (frame_final f)).
  { unfold held. rewrite HiR. do 4 (apply elem_of_app; right).
    apply elem_of_nonnull. split; [unfold Vk.VK_NULL_HANDLE; lia |].
    apply elem_of_insert_new. lia. }
  intros h tag Hin. apply ledger_frame_calls in Hin. cbv zeta in Hin. fold k in Hin.
  destruct Hin as [[= -> ->] | [[= -> ->] | [[Hch [[= -> ->] | [= -> ->]]] | (Hin & Hov & Hop)]]].
  - by left.
  - by left.
  - left. unfold held. rewrite Hgp, Hch. cbn [aget at_kLeft at_kRight].
    do 2 (apply elem_of_app; right). apply elem_of_app; left.
    apply elem_of_nonnull. split; [unfold Vk.VK_NULL_HANDLE; lia |]. left.
  - left. unfold held. rewrite Hgp, Hch. cbn [aget at_kLeft at_kRight].
    do 2 (apply elem_of_app; right). apply elem_of_app; left.
    apply elem_of_nonnull. split; [unfold Vk.VK_NULL_HANDLE; lia |]. right. left.
  - specialize (Hacc _ _ Hin). destruct tag as [p |].
    { by rewrite Hpool. }
    destruct Hacc as [Hh | (eye & Heye & Hh)].
    + left. unfold held in *. rewrite Hsa, Hsl, Hpl, Hviews, Hub, Hum, Hpool, HiL, HiR.
      rewrite !elem_of_app in Hh. rewrite !elem_of_app.
      destruct Hh as [Hh | [Hh | [Hh | [Hh | Hh]]]]; [by left | by right; left | | |].
      * right. right. left. rewrite Hgp.
        destruct (render_pass_changed r t); [| done].
        apply elem_of_nonnull in Hh as [Hnn Hh].
        rewrite !elem_of_cons in Hh.
        destruct Hh as [-> | [-> | []%elem_of_nil]]; exfalso;
          by eapply (Hop eq_refl).
      * do 3 right. left. apply elem_of_nonnull_insert; [done |].
        rewrite <- cached_view_nth by lia. apply (Hov kLeft).
      * do 4 right. apply elem_of_nonnull_insert; [done |].
        rewrite <- cached_view_nth by lia. apply (Hov kRight).
    + right. exists eye. split; [done |]. unfold mesh_held in *.
      by rewrite Hvb, Hvm, Hib, Him.
Qed.

Lemma destructible_frame r n t x y wd ht l rt :
  destructible r = true ->
  destructible (frame_final (frame_of r n t x y wd ht l rt)) = true.
Proof.
  unfold destructible. intros [Hinv Hv]%andb_prop.
  destruct (frame_other_members r n t x y wd ht l rt)
    as (_ & _ & _ & _ & Hcount & _ & _ & _ & _ & Hviews & _).
  cbv zeta in *. rewrite Hcount, Hviews, Hv, renderer_inv_frame by done. done.
Qed.

Lemma frame_settled f eyes w T :
  settled eyes w T ->
  exists w' evs,
    RenderFrame f w = Some (tt, w') /\
    Vk.calls (gpu w') = Vk.calls (gpu w) ++ evs /\
    settled eyes w' (ledger T evs).
Proof.
  intros (Hd & Hn & Hacc). destruct w as [r d lg e]. cbn [this gpu] in *.
  unfold RenderFrame.
  destruct (slot_valid r (fa_target f)) eqn:Hslot.
  - destruct (destructible_spec _ Hd) as (Hinv & _).
    destruct (RenderEyeToDisplay_run (fa_target f) (fa_x f) (fa_y f) (fa_width f)
                (fa_height f) (fa_left_eye f) (fa_right_eye f) r d lg e Hinv Hslot)
      as [o ->].
    eexists _, _. split; [reflexivity |]. split; [reflexivity |].
    unfold settled, Vk.update. cbn [this gpu Vk.next_handle].
    split; [by apply destructible_frame |]. split.
    + unfold frame_of. cbn [frame_next]. destruct (render_pass_changed r _); lia.
    + by apply frame_accounted.
  - rewrite RenderEyeToDisplay_skip by done. cbn [this gpu].
    eexists _, []. split; [reflexivity |]. split; [by rewrite app_nil_r |].
    done.
Qed.

Lemma frames_settled frames eyes w T :
  settled eyes w T ->
  exists w' evs,
    RenderFrames frames w = Some (tt, w') /\
    Vk.calls (gpu w') = Vk.calls (gpu w) ++ evs /\
    settled eyes w' (ledger T evs).
Proof.
  revert w T. induction frames as [| f frames IH]; intros w T Hs.
  - exists w, []. split; [done |]. split; [by rewrite app_nil_r | done].
  - destruct (frame_settled f eyes w T Hs) as (w1 & e1 & Hrun1 & Hc1 & Hs1).
    destruct (IH w1 _ Hs1) as (w2 & e2 & Hrun2 & Hc2 & Hs2).
    exists w2, (e1 ++ e2). split.
    + cbn [RenderFrames]. unfold bind. by rewrite Hrun1.
    + split; [by rewrite Hc2, Hc1, app_assoc | by rewrite ledger_app].
Qed.

(** *** The whole life *)

Lemma covers_nil (o : gmap Z Vk.Object) : covers [] o -> o = ∅.
Proof.
  intros Hc. apply map_empty. intros h.
  destruct (o !! h) as [ob |] eqn:Hh; [| done].
  by apply Hc, elem_of_nil in Hh.
Qed.

Lemma tracked_RenderFrames frames : tracked (RenderFrames frames).
Proof.
  induction frames as [| f frames IH]; cbn [RenderFrames].
  - apply tracked_ret.
  - apply tracked_bind; [apply tracked_RenderEyeToDisplay | done].
Qed.

Lemma tracked_lifecycle config mL mR frames :
  tracked (lifecycle config mL mR frames).
Proof.
  unfold lifecycle.
  apply tracked_bind; [apply tracked_create | intros _].
  apply tracked_bind; [apply tracked_SetMesh | intros _].
  apply tracked_bind; [apply tracked_SetMesh | intros _].
  apply tracked_bind; [apply tracked_RenderFrames | intros _].
  apply tracked_dtor.
Qed.

(** X15. A renderer built by the factory, given one valid mesh per eye, used
    for any sequence of frames (the slot valid or not, the render pass
    changing or not) and destroyed: every call returns, every handle that
    was created has been released by the end, and a device that held no
    object holds none again.  (Handles are positive, and the image count
    is an [int].) *)
Theorem a_renderer_used_and_destroyed_leaves_nothing
    (config : CardboardVulkanDistortionRendererConfig)
    (left_mesh right_mesh : CardboardMesh) (frames : list FrameArgs)
    (w : World) :
  sdk_initialized (env w) = true ->
  vulkan_loadable (env w) = true ->
  Z.of_nat (length (Vk.images_of (vk_swapchain config) (gpu w))) <= CInt.INT_MAX ->
  0 < Vk.next_handle (gpu w) ->
  Vk.objects (gpu w) = ∅ ->
  mesh_valid left_mesh = true ->
  mesh_valid right_mesh = true ->
  exists w',
    lifecycle config left_mesh right_mesh frames w = Some (tt, w') /\
    ledger [] (emitted w w') = [] /\
    Vk.objects (gpu w') = ∅.
Proof.
  intros Hsdk Hvk Hmax Hn Hempty HmL HmR.
  destruct (ctor_settled config w Hsdk Hvk Hmax Hn) as (w1 & e1 & Hr1 & Hc1 & Hs1).
  destruct (SetMesh_settled left_mesh kLeft [] w1 _ HmL ltac:(apply not_elem_of_nil) Hs1)
    as (w2 & e2 & Hr2 & Hc2 & Hs2).
  assert (HnotL : kRight ∉ [kLeft]).
  { intros [? | []%elem_of_nil]%elem_of_cons. done. }
  destruct (SetMesh_settled right_mesh kRight [kLeft] w2 _ HmR HnotL Hs2)
    as (w3 & e3 & Hr3 & Hc3 & Hs3).
  destruct (frames_settled frames _ w3 _ Hs3) as (w4 & e4 & Hr4 & Hc4 & Hs4).
  assert (Hs4' : settled [kLeft; kRight] w4
                   (ledger (ledger (ledger (ledger [] e1) e2) e3) e4)).
  { destruct Hs4 as (Hd & Hp & Hacc). split; [done |]. split; [done |].
    intros h tag Hin. specialize (Hacc h tag Hin). destruct tag; [done |].
    destruct Hacc as [? | (eye & Heye & ?)]; [by left |]. right. exists eye.
    split; [| done]. destruct eye; [left | right; left]. }
  destruct (dtor_settled w4 _ Hs4') as (w5 & e5 & Hr5 & Hc5 & Hnil).
  assert (Hrun : lifecycle config left_mesh right_mesh frames w = Some (tt, w5)).
  { unfold lifecycle, bind. by rewrite Hr1, Hr2, Hr3, Hr4. }
  exists w5. split; [done |].
  assert (Hem : emitted w w5 = e1 ++ e2 ++ e3 ++ e4 ++ e5).
  { unfold emitted. rewrite Hc5, Hc4, Hc3, Hc2, Hc1, <- !app_assoc.
    apply drop_app_length. }
  assert (Hled : ledger [] (emitted w w5) = []).
  { by rewrite Hem, !ledger_app. }
  split; [done |].
  destruct (tracked_lifecycle config left_mesh right_mesh frames w tt w5 Hrun)
    as (evs & Hcalls & Hcov).
  assert (evs = emitted w w5) as ->.
  { unfold emitted. by rewrite Hcalls, drop_app_length. }
  apply covers_nil. rewrite <- Hled. apply Hcov. rewrite Hempty.
  intros h ob Hh. by rewrite lookup_empty in Hh.
Qed.

Lemma a_renderer_used_and_destroyed_leaves_nothing_witness :
  exists w',
    lifecycle Fixture.config Fixture.quad Fixture.triangle
      [mkFrameArgs (Fixture.target 0) 0 0 1000 500
         Fixture.left_texture Fixture.right_texture;
       mkFrameArgs (Fixture.target 1) 0 0 1000 500
         Fixture.left_texture Fixture.right_texture;
       mkFrameArgs (mkTarget 301 400 0) 0 0 800 400
         Fixture.right_texture Fixture.left_texture;
       mkFrameArgs (Fixture.target 5) 0 0 1000 500
         Fixture.left_texture Fixture.right_texture]
      (Fixture.fresh (mkEnv true true)) = Some (tt, w') /\
    ledger [] (emitted (Fixture.fresh (mkEnv true true)) w') = [] /\
    Vk.objects (gpu w') = ∅.
Proof.
  apply (a_renderer_used_and_destroyed_leaves_nothing Fixture.config Fixture.quad
           Fixture.triangle _ (Fixture.fresh (mkEnv true true)));
    first [reflexivity | vm_compute; lia | vm_compute; discriminate].
Defined.

Lemma released_app e1 e2 : released (e1 ++ e2) = released e1 ++ released e2.
Proof. apply omap_app. Qed.

Lemma released_unless_null_view h : released (unless_null Vk.vkDestroyImageView h) = [].
Proof. unfold unless_null. by case_bool_decide. Qed.

Lemma released_unless_null_pipeline h :
  released (unless_null Vk.vkDestroyPipeline h) = [].
Proof. unfold unless_null. by case_bool_decide. Qed.

Lemma released_slots r l : released (mjoin (slot_release_calls r <$> l)) = [].
Proof.
  induction l as [| i l IH]; [done |].
  change (mjoin (slot_release_calls r <$> i :: l))
    with (slot_release_calls r i ++ mjoin (slot_release_calls r <$> l)).
  rewrite released_app, IH.
  unfold slot_release_calls.
  by rewrite !released_app, !released_unless_null_view.
Qed.

Lemma released_dtor_calls r :
  released (dtor_calls r) =
  [aget kLeft (index_buffers_ r); aget kLeft (index_buffers_memory_ r);
   aget kRight (index_buffers_ r); aget kRight (index_buffers_memory_ r);
   aget kLeft (vertex_buffers_ r); aget kLeft (vertex_buffers_memory_ r);
   aget kRight (vertex_buffers_ r); aget kRight (vertex_buffers_memory_ r);
   aget kLeft (uniform_buffers_ r); aget kLeft (uniform_buffers_memory_ r);
   aget kRight (uniform_buffers_ r); aget kRight (uniform_buffers_memory_ r)].
Proof.
  unfold dtor_calls, shared_release_calls.
  by rewrite !released_app, released_slots, !released_unless_null_pipeline.
Qed.

(** X16. The destructor of an object whose per-image vectors have one entry
    per swapchain image returns, and issues exactly these calls: for each
    image the destruction of the left and of the right cached view (when
    not null) and of the swapchain view; then the sampler, the pipeline
    layout, the descriptor set layout, the two pools, the two pipelines
    (when not null), and the index, vertex and uniform buffers, each
    followed by its memory, left before right.  It creates nothing and
    logs nothing. *)
Theorem destructor_releases_in_order (w : World) :
  destructible (this w) = true ->
  exists w',
    VulkanDistortionRenderer_dtor w = Some (tt, w') /\
    emitted w w' = dtor_calls (this w) /\
    Vk.next_handle (gpu w') = Vk.next_handle (gpu w) /\
    logcat w' = logcat w.
Proof.
  intros Hd. destruct w as [r [n o c sc mt mb] lg e]. cbn [this] in *.
  destruct (dtor_run r n o c sc mt mb lg e Hd) as (r' & o' & ->).
  eexists. split; [reflexivity |]. unfold emitted. cbn [gpu Vk.calls Vk.next_handle logcat].
  by rewrite drop_app_length.
Qed.

Lemma destructor_releases_in_order_witness :
  exists w',
    VulkanDistortionRenderer_dtor Fixture.drawn = Some (tt, w') /\
    emitted Fixture.drawn w' = dtor_calls (this Fixture.drawn) /\
    Vk.next_handle (gpu w') = Vk.next_handle (gpu Fixture.drawn) /\
    logcat w' = logcat Fixture.drawn.
Proof.
  apply (destructor_releases_in_order Fixture.drawn). reflexivity.
Defined.

(** X17. A renderer destroyed before any [SetMesh]: the destructor destroys
    and frees, as vertex and index buffers and memories, the eight handles
    the storage held before construction, which the constructor never
    assigned; then the four uniform handles the constructor made. *)
Theorem destroying_without_a_mesh_releases_the_leftover_handles
    (config : CardboardVulkanDistortionRendererConfig) (w : World) :
  sdk_initialized (env w) = true ->
  vulkan_loadable (env w) = true ->
  Z.of_nat (length (Vk.images_of (vk_swapchain config) (gpu w))) <= CInt.INT_MAX ->
  exists w1 w2,
    CardboardVulkanDistortionRenderer_create (Some config) w = Some (object, w1) /\
    VulkanDistortionRenderer_dtor w1 = Some (tt, w2) /\
    released (emitted w1 w2) =
    [aget kLeft (index_buffers_ (this w)); aget kLeft (index_buffers_memory_ (this w));
     aget kRight (index_buffers_ (this w)); aget kRight (index_buffers_memory_ (this w));
     aget kLeft (vertex_buffers_ (this w)); aget kLeft (vertex_buffers_memory_ (this w));
     aget kRight (vertex_buffers_ (this w)); aget kRight (vertex_buffers_memory_ (this w));
     aget kLeft (uniform_buffers_ (this w1)); aget kLeft (uniform_buffers_memory_ (this w1));
     aget kRight (uniform_buffers_ (this w1));
     aget kRight (uniform_buffers_memory_ (this w1))].
Proof.
  intros Hsdk Hvk Hmax.
  destruct (factory_builds config w Hsdk Hvk)
    as (w1 & Hrun & _ & Hinv & Hset & Hkept).
  destruct Hkept as (_ & _ & Hvb & Hvm & Hib & Him & _).
  destruct Hset as (_ & _ & _ & Hcount & _ & Hviews & _).
  assert (Hdes : destructible (this w1) = true).
  { unfold destructible. rewrite (Hinv Hmax), Hviews, Hcount. by rewrite Z.eqb_refl. }
  destruct w1 as [r1 [n o c sc mt mb] lg e]. cbn [this] in *.
  destruct (dtor_run r1 n o c sc mt mb lg e Hdes) as (r' & o' & Hrun2).
  eexists _, _. split; [exact Hrun |]. split; [exact Hrun2 |].
  unfold emitted. cbn [gpu Vk.calls this]. rewrite drop_app_length.
  by rewrite released_dtor_calls, Hvb, Hvm, Hib, Him.
Qed.

Lemma destroying_without_a_mesh_releases_the_leftover_handles_witness :
  exists w1 w2,
    CardboardVulkanDistortionRenderer_create (Some Fixture.config)
      (Fixture.fresh (mkEnv true true)) = Some (object, w1) /\
    VulkanDistortionRenderer_dtor w1 = Some (tt, w2) /\
    released (emitted w1 w2) =
    [aget kLeft (index_buffers_ Fixture.storage);
     aget kLeft (index_buffers_memory_ Fixture.storage);
     aget kRight (index_buffers_ Fixture.storage);
     aget kRight (index_buffers_memory_ Fixture.storage);
     aget kLeft (vertex_buffers_ Fixture.storage);
     aget kLeft (vertex_buffers_memory_ Fixture.storage);
     aget kRight (vertex_buffers_ Fixture.storage);
     aget kRight (vertex_buffers_memory_ Fixture.storage);
     aget kLeft (uniform_buffers_ (this w1)); aget kLeft (uniform_buffers_memory_ (this w1));
     aget kRight (uniform_buffers_ (this w1));
     aget kRight (uniform_buffers_memory_ (this w1))].
Proof.
  apply (destroying_without_a_mesh_releases_the_leftover_handles Fixture.config
           (Fixture.fresh (mkEnv true true)));
    first [reflexivity | vm_compute; lia | vm_compute; discriminate].
Defined.


